(** * Movesense datalogger tool: the GSP client and its command-line driver

    A shallow embedding of [sensor_command.py] (the [SensorCommand] session
    over the GATT SensorData Protocol) and of [datalogger_tool.py] (the
    command-line driver with its retry loop), followed by the properties
    of the specification that were checked against them.

    Conventions of the embedding.
    - A [bytes]/[bytearray] value is a [list N]; its elements are below 256
      in Python, so [int.to_bytes(1, ...)] in [DataView] never overflows.
    - A Python [str] is a Rocq [string] whose characters are the code points
      0..255; [encode] is UTF-8 on that range.  A string decoded from the
      peer's bytes can hold any code point: it is the list of its code
      points.
    - A coroutine is a state transformer that may raise: [Task A].
    - The peer is scripted: each GATT write is answered by the next entry of
      [script], the raw notifications the peer sends back, in order.  A
      [queue.get()] on an empty queue is the timeout of its [wait_for]. *)

From Stdlib Require Import List NArith String Ascii Bool Arith Lia.
From Stdlib Require Import DecimalString.
Import ListNotations.

Set Implicit Arguments.

Open Scope N_scope.

Definition bytes := list N.

(** ** Protocol constants (sensor_command.py, lines 29-44) *)

Definition GSP_CMD_HELLO : N := 0.
Definition GSP_CMD_SUBSCRIBE : N := 1.
Definition GSP_CMD_UNSUBSCRIBE : N := 2.
Definition GSP_CMD_FETCH_LOG : N := 3.
Definition GSP_CMD_GET : N := 4.
Definition GSP_CMD_CLEAR_LOGBOOK : N := 5.
Definition GSP_CMD_PUT_DATALOGGER_CONFIG : N := 6.
Definition GSP_CMD_PUT_SYSTEMMODE : N := 7.
Definition GSP_CMD_PUT_UTCTIME : N := 8.
Definition GSP_CMD_PUT_DATALOGGER_STATE : N := 9.

Definition GSP_RESP_COMMAND_RESPONSE : N := 1.
Definition GSP_RESP_DATA : N := 2.
Definition GSP_RESP_DATA_PART2 : N := 3.

(** ** Python built-ins used by the code *)

Module Py.

(** [int.from_bytes(b, byteorder='little')] *)
Fixpoint from_bytes_little (b : bytes) : N :=
  match b with
  | [] => 0
  | x :: r => x + 256 * from_bytes_little r
  end.

(** [n.to_bytes(k, byteorder='little')]; [None] is OverflowError. *)
Fixpoint to_bytes_little (k : nat) (n : N) : option bytes :=
  match k with
  | O => if n =? 0 then Some [] else None
  | S k' =>
      match to_bytes_little k' (n / 256) with
      | Some r => Some (n mod 256 :: r)
      | None => None
      end
  end.

(** [s.encode('utf-8')] for code points below 256. *)
Definition encode_char (c : ascii) : bytes :=
  let n := N_of_ascii c in
  if n <? 128 then [n]
  else [N.lor 192 (N.shiftr n 6); N.lor 128 (N.land n 63)].

Fixpoint encode (s : string) : bytes :=
  match s with
  | EmptyString => []
  | String c r => encode_char c ++ encode r
  end.

(** [b.decode('utf-8', errors='ignore')], as the code points of the
    string.  A byte that cannot start a character is skipped.  A start byte
    whose sequence is broken by a byte that does not continue it is
    skipped together with the continuation bytes accepted so far, and
    decoding resumes at the offending byte.  A sequence cut off by the end
    of the data is dropped.  Overlong forms, surrogates and code points
    above 10FFFF are refused at the second byte. *)
Definition continuation (b : N) : bool := (128 <=? b) && (b <=? 191).

Definition second_ok (c0 c1 : N) : bool :=
  continuation c1
  && negb ((c0 =? 224) && (c1 <? 160))
  && negb ((c0 =? 237) && (160 <=? c1))
  && negb ((c0 =? 240) && (c1 <? 144))
  && negb ((c0 =? 244) && (144 <=? c1)).

Fixpoint decode_ignore (b : bytes) : list N :=
  match b with
  | [] => []
  | c0 :: r =>
      if c0 <? 128 then c0 :: decode_ignore r
      else if c0 <? 194 then decode_ignore r
      else if c0 <? 224 then
        match r with
        | [] => []
        | c1 :: r1 =>
            if continuation c1
            then (64 * N.land c0 31 + N.land c1 63) :: decode_ignore r1
            else decode_ignore r
        end
      else if c0 <? 240 then
        match r with
        | [] => []
        | c1 :: r1 =>
            if second_ok c0 c1 then
              match r1 with
              | [] => []
              | c2 :: r2 =>
                  if continuation c2
                  then (4096 * N.land c0 15 + 64 * N.land c1 63 + N.land c2 63)
                         :: decode_ignore r2
                  else decode_ignore r1
              end
            else decode_ignore r
        end
      else if c0 <? 245 then
        match r with
        | [] => []
        | c1 :: r1 =>
            if second_ok c0 c1 then
              match r1 with
              | [] => []
              | c2 :: r2 =>
                  if continuation c2 then
                    match r2 with
                    | [] => []
                    | c3 :: r3 =>
                        if continuation c3
                        then (262144 * N.land c0 7 + 4096 * N.land c1 63
                              + 64 * N.land c2 63 + N.land c3 63)
                               :: decode_ignore r3
                        else decode_ignore r2
                    end
                  else decode_ignore r1
              end
            else decode_ignore r
        end
      else decode_ignore r
  end.

(** [str.isspace] on one character, code points below 256. *)
Definition isspace (c : ascii) : bool :=
  let n := N_of_ascii c in
  ((9 <=? n) && (n <=? 13)) || ((28 <=? n) && (n <=? 32))
  || (n =? 133) || (n =? 160).

(** [str.lower] on one character, code points below 256. *)
Definition lower_char (c : ascii) : ascii :=
  let n := N_of_ascii c in
  if ((65 <=? n) && (n <=? 90))
     || ((192 <=? n) && (n <=? 222) && negb (n =? 215))
  then ascii_of_N (n + 32) else c.

Fixpoint lower (s : string) : string :=
  match s with
  | EmptyString => EmptyString
  | String c r => String (lower_char c) (lower r)
  end.

Fixpoint lstrip (s : string) : string :=
  match s with
  | EmptyString => EmptyString
  | String c r => if isspace c then lstrip r else s
  end.

(** [rstrip]: a character is kept when something non-blank follows or it
    is itself non-blank. *)
Fixpoint rstrip (s : string) : string :=
  match s with
  | EmptyString => EmptyString
  | String c r =>
      match rstrip r with
      | EmptyString => if isspace c then EmptyString else String c EmptyString
      | r' => String c r'
      end
  end.

Definition strip (s : string) : string := rstrip (lstrip s).

(** [s.endswith(suffix)] *)
Definition endswith (s suffix : string) : bool :=
  let n := String.length s in
  let m := String.length suffix in
  Nat.leb m n && String.eqb (String.substring (n - m) m s) suffix.

(** [str(n)] for a non-negative integer. *)
Definition str_of_int (n : N) : string :=
  NilEmpty.string_of_uint (N.to_uint n).

End Py.

(** ** class DataView (sensor_command.py, lines 60-89) *)

Module DataView.

(** [__get_binary]: [None] is the IndexError of [self.array[start + x]]. *)
Fixpoint get_binary (array : bytes) (start_index byte_count : nat)
  : option bytes :=
  match byte_count with
  | O => Some []
  | S k =>
      match nth_error array start_index with
      | Some b =>
          match get_binary array (S start_index) k with
          | Some r => Some (b :: r)
          | None => None
          end
      | None => None
      end
  end.

Definition get_uint_8 (array : bytes) (start_index : nat) : option N :=
  option_map Py.from_bytes_little (get_binary array start_index 1).

Definition get_uint_16 (array : bytes) (start_index : nat) : option N :=
  option_map Py.from_bytes_little (get_binary array start_index 2).

Definition get_uint_32 (array : bytes) (start_index : nat) : option N :=
  option_map Py.from_bytes_little (get_binary array start_index 4).

End DataView.

(** ** Values exchanged with the peer *)

(** The value of the ['status_code'] key: Python [None] or an integer. *)
Inductive PyStatus : Type :=
| StatusNone
| StatusInt (code : N).

Definition status_is (st : PyStatus) (n : N) : bool :=
  match st with
  | StatusNone => false
  | StatusInt c => c =? n
  end.

(** The [response_data] dictionary built by the notification handler.  An
    optional field is a key that may be absent. *)
Record Response : Type := mkResponse {
  response_code : N;
  reference : N;
  raw_data : bytes;
  status_code : option PyStatus;
  command_data : option bytes;
  data_payload : option bytes
}.

(** [response.get('status_code', 0)] and the two [get(..., b'')] reads. *)
Definition get_status_code (r : Response) : PyStatus :=
  match status_code r with
  | Some st => st
  | None => StatusInt 0
  end.

Definition get_command_data (r : Response) : bytes :=
  match command_data r with Some d => d | None => [] end.

Definition get_data_payload (r : Response) : bytes :=
  match data_payload r with Some d => d | None => [] end.

Inductive Exc : Type :=
| RuntimeError (msg : string)
| TimeoutError (msg : string)
| OverflowError
| AttributeError
| TypeError
| IndexError
| EOFError.

(** [str(e)] *)
Definition str_exc (e : Exc) : string :=
  match e with
  | RuntimeError m => m
  | TimeoutError m => m
  | OverflowError => "int too big to convert"
  | AttributeError => "'NoneType' object has no attribute 'append'"
  | TypeError => "'NoneType' object is not iterable"
  | IndexError => "index out of range"
  | EOFError => "EOF when reading a line"
  end.

Inductive Level : Type := WARNING | ERROR.

Definition LogRecord : Type := (Level * string)%type.

(** The peer behind a BLE address.  [written] is the trace of GATT writes,
    oldest first; [script] holds, for each write still to come, the raw
    notifications the peer answers with.  [refusal] is the text of the
    exception the connection attempt raises when the peer is not
    [connectable]. *)
Record Device : Type := mkDevice {
  name : string;
  present : bool;
  connectable : bool;
  script : list (list bytes);
  written : list bytes;
  refusal : string
}.

(** A flat file system: path to contents, newest binding first. *)
Definition FS : Type := list (string * bytes).

Fixpoint fs_get (fs : FS) (path : string) : option bytes :=
  match fs with
  | [] => None
  | (p, c) :: r => if String.eqb p path then Some c else fs_get r path
  end.

Definition fs_set (fs : FS) (path : string) (c : bytes) : FS := (path, c) :: fs.

(** ** The process and its surroundings

    [devices] maps a serial-number suffix to the peer a scan for it finds.
    [stdin] holds the lines still to be read by [input()].  [heap] holds the
    Python list objects that are passed by reference (the [path] list of
    the parsed arguments); a reference is an index into it.  [log] keeps
    the warnings and errors (informational and debug records are not
    modelled).  [clock] is [time.time()] in microseconds. *)
Record World : Type := mkWorld {
  devices : string -> Device;
  stdin : list string;
  heap : list (list string);
  fs : FS;
  log : list LogRecord;
  clock : N
}.

Definition set_device (serial : string) (d : Device) (w : World) : World :=
  mkWorld (fun k => if String.eqb k serial then d else devices w k)
          (stdin w) (heap w) (fs w) (log w) (clock w).

Definition set_stdin (l : list string) (w : World) : World :=
  mkWorld (devices w) l (heap w) (fs w) (log w) (clock w).

Definition set_heap (h : list (list string)) (w : World) : World :=
  mkWorld (devices w) (stdin w) h (fs w) (log w) (clock w).

Definition set_fs (f : FS) (w : World) : World :=
  mkWorld (devices w) (stdin w) (heap w) f (log w) (clock w).

Definition world_log (l : Level) (m : string) (w : World) : World :=
  mkWorld (devices w) (stdin w) (heap w) (fs w) (log w ++ [(l, m)]) (clock w).

Definition world_logs (records : list LogRecord) (w : World) : World :=
  mkWorld (devices w) (stdin w) (heap w) (fs w) (log w ++ records) (clock w).

(** ** class SensorCommand: the state of one session

    [hello_ref] is [None] until [get_status] sets the attribute.  [env] is
    the process state the session runs in; [client] is the peer found for
    [end_of_serial]. *)
Record Sensor : Type := mkSensor {
  end_of_serial : string;
  device_name : string;
  is_connected : bool;
  hello_ref : option N;
  response_queue : list Response;
  env : World
}.

Definition client (s : Sensor) : Device := devices (env s) (end_of_serial s).
Definition files (s : Sensor) : FS := fs (env s).
Definition logs (s : Sensor) : list LogRecord := log (env s).

Definition set_env (w : World) (s : Sensor) : Sensor :=
  mkSensor (end_of_serial s) (device_name s) (is_connected s) (hello_ref s)
           (response_queue s) w.

Definition set_queue (q : list Response) (s : Sensor) : Sensor :=
  mkSensor (end_of_serial s) (device_name s) (is_connected s) (hello_ref s)
           q (env s).

Definition set_hello_ref (r : N) (s : Sensor) : Sensor :=
  mkSensor (end_of_serial s) (device_name s) (is_connected s) (Some r)
           (response_queue s) (env s).

Definition set_connected (b : bool) (s : Sensor) : Sensor :=
  mkSensor (end_of_serial s) (device_name s) b (hello_ref s)
           (response_queue s) (env s).

Definition set_client (d : Device) (s : Sensor) : Sensor :=
  set_env (set_device (end_of_serial s) d (env s)) s.

Definition set_files (f : FS) (s : Sensor) : Sensor :=
  set_env (set_fs f (env s)) s.

Definition add_log (l : Level) (m : string) (s : Sensor) : Sensor :=
  set_env (world_log l m (env s)) s.

Definition add_logs (records : list LogRecord) (s : Sensor) : Sensor :=
  set_env (world_logs records (env s)) s.

(** ** Coroutines and procedures: state passing with exceptions *)

Definition M (St A : Type) : Type := St -> (Exc + A) * St.

Definition ret {St A} (a : A) : M St A := fun s => (inr a, s).

Definition raise {St A} (e : Exc) : M St A := fun s => (inl e, s).

Definition bind {St A B} (m : M St A) (k : A -> M St B) : M St B :=
  fun s =>
    match m s with
    | (inl e, s') => (inl e, s')
    | (inr a, s') => k a s'
    end.

(** [try: m except Exception as e: h e] *)
Definition try_except {St A} (m : M St A) (h : Exc -> M St A) : M St A :=
  fun s =>
    match m s with
    | (inl e, s') => h e s'
    | (inr a, s') => (inr a, s')
    end.

Definition modify {St} (f : St -> St) : M St unit :=
  fun s => (inr tt, f s).

Definition gets {St A} (f : St -> A) : M St A :=
  fun s => (inr (f s), s).

(** A coroutine of one session. *)
Definition Task (A : Type) : Type := M Sensor A.

Declare Scope task_scope.
Delimit Scope task_scope with task.
Notation "x <- m ;; k" := (bind m (fun x => k))
  (at level 61, m at next level, right associativity) : task_scope.
Notation "m ;;; k" := (bind m (fun _ => k))
  (at level 61, right associativity) : task_scope.
Open Scope task_scope.

Module SensorCommand.

(** [_notification_handler] (lines 241-284): the dictionary put on the
    queue, or [None] when the handler raised and queued nothing; its
    [except] clause then logs an error, see [handler_errors]. *)
Definition _notification_handler (hello : option N) (data : bytes)
  : option Response :=
  match DataView.get_uint_8 data 0, DataView.get_uint_8 data 1 with
  | Some rc, Some ref =>
      if rc =? GSP_RESP_COMMAND_RESPONSE then
        if (4 <=? List.length data)%nat then
          let is_hello :=
            match hello with
            | Some h => ref =? h
            | None => false
            end in
          if is_hello then
            Some (mkResponse rc ref data (Some (StatusInt 200))
                    (Some (if (2 <? List.length data)%nat then skipn 2 data else []))
                    None)
          else
            match DataView.get_uint_16 data 2 with
            | Some st =>
                Some (mkResponse rc ref data (Some (StatusInt st))
                        (Some (if (4 <? List.length data)%nat then skipn 4 data else []))
                        None)
            | None => None
            end
        else
          Some (mkResponse rc ref data (Some StatusNone) (Some []) None)
      else if (rc =? GSP_RESP_DATA) || (rc =? GSP_RESP_DATA_PART2) then
        Some (mkResponse rc ref data None None
                (Some (if (2 <? List.length data)%nat then skipn 2 data else [])))
      else
        Some (mkResponse rc ref data None None None)
  | _, _ => None
  end.

(** The notifications of one burst, as the handler queues them; those it
    raises on are left out here and logged, see [handler_errors]. *)
Fixpoint deliver (hello : option N) (burst : list bytes) : list Response :=
  match burst with
  | [] => []
  | d :: r =>
      match _notification_handler hello d with
      | Some resp => resp :: deliver hello r
      | None => deliver hello r
      end
  end.

(** The records the handler's [except] clause (lines 282-284) logs for one
    burst: one error for each notification the handler raised on. *)
Definition handler_errors (hello : option N) (burst : list bytes)
  : list LogRecord :=
  flat_map (fun d =>
              match _notification_handler hello d with
              | Some _ => []
              | None => [(ERROR, "Error handling notification:"%string)]
              end)
           burst.

(** [client.write_gatt_char]: the write is recorded and the peer's next
    scripted burst reaches the handler, which queues what it can parse
    and logs an error for the rest. *)
Definition write_gatt_char (command_bytes : bytes) : Task unit :=
  modify (fun s =>
    let d := client s in
    let burst := match script d with [] => [] | b :: _ => b end in
    let d' := mkDevice (name d) (present d) (connectable d)
                       (tl (script d)) (written d ++ [command_bytes])
                       (refusal d) in
    set_queue (response_queue s ++ deliver (hello_ref s) burst)
              (add_logs (handler_errors (hello_ref s) burst)
                        (set_client d' s))).

(** [send_command] (lines 286-315), with the default timeout. *)
Definition send_command (command_bytes : bytes) : Task Response :=
  connected <- gets is_connected ;;
  if negb connected then raise (RuntimeError "Not connected to device")
  else
    try_except
      (modify (set_queue []) ;;;
       write_gatt_char command_bytes ;;;
       q <- gets response_queue ;;
       match q with
       | r :: q' => modify (set_queue q') ;;; ret r
       | [] => raise (TimeoutError "Command timeout after 10.0s")
       end)
      (fun e =>
         modify (add_log ERROR ("Command failed: " ++ str_exc e)) ;;;
         raise e).

(** The dictionary returned by the one-command operations:
    [{'success': status_code == 200, 'status_code': ..., 'raw_data': ...}]
    (the remaining keys repeat the arguments or the response), or
    [{'success': False, 'error': 'Unexpected response code: ...'}]. *)
Inductive CmdResult : Type :=
| Completed (r : Response)
| Unexpected (rc : N)
| Failed (e : Exc).

(** [result.get('success', False)] *)
Definition cmd_success (r : CmdResult) : bool :=
  match r with
  | Completed resp => status_is (get_status_code resp) 200
  | Unexpected _ => false
  | Failed _ => false
  end.

(** The body the one-command operations share: send, then sort the
    response by its code. *)
Definition simple_command (command : bytes) : Task CmdResult :=
  response <- send_command command ;;
  if response_code response =? GSP_RESP_COMMAND_RESPONSE
  then ret (Completed response)
  else ret (Unexpected (response_code response)).

(** [s.split(NUL)] on the code points of the decoded HELLO body. *)
Fixpoint split_nul (b : bytes) : list bytes :=
  match b with
  | [] => [[]]
  | x :: r =>
      if x =? 0 then [] :: split_nul r
      else match split_nul r with
           | h :: t => (x :: h) :: t
           | [] => [[x]]
           end
  end.

(** The two ['error'] texts of [get_status]. *)
Inductive StatusError : Type :=
| DlstateFailed (st : PyStatus)
| UnexpectedCode (rc : N).

(** The [retval] dictionary of [get_status]; each of the five strings is
    the list of its code points. *)
Record StatusResult : Type := mkStatus {
  st_success : option bool;
  protocol_version : option N;
  hello_strings : list (list N);
  dlstate : option N;
  st_status_code : option PyStatus;
  st_error : option StatusError
}.

Definition hello_command : bytes := [GSP_CMD_HELLO; 100].

Definition dlstate_command : bytes :=
  [GSP_CMD_GET; 101] ++ Py.encode "/Mem/DataLogger/State".

(** [get_status] (lines 317-376). *)
Definition get_status : Task StatusResult :=
  modify (set_hello_ref 100) ;;;
  response <- send_command hello_command ;;
  let retval :=
    let command_data := get_command_data response in
    if (response_code response =? GSP_RESP_COMMAND_RESPONSE)
       && status_is (get_status_code response) 200
       && (5 <=? List.length command_data)%nat
    then
      let strings := split_nul (Py.decode_ignore (skipn 1 command_data)) in
      mkStatus (Some true) (DataView.get_uint_8 command_data 0)
               (map (fun i => nth i strings []) (seq 0 5)) None None None
    else mkStatus None None [] None None None in
  dlstate_response <- send_command dlstate_command ;;
  if response_code dlstate_response =? GSP_RESP_COMMAND_RESPONSE then
    let st := get_status_code dlstate_response in
    if status_is st 200 then
      let command_data := get_command_data dlstate_response in
      if (1 <=? List.length command_data)%nat
      then ret (mkStatus (st_success retval) (protocol_version retval)
                  (hello_strings retval) (DataView.get_uint_8 command_data 0)
                  None None)
      else ret retval
    else ret (mkStatus (Some false) (protocol_version retval)
                (hello_strings retval) None (Some st)
                (Some (DlstateFailed st)))
  else ret (mkStatus (Some false) (protocol_version retval)
              (hello_strings retval) None None
              (Some (UnexpectedCode (response_code response)))).

(** [configure_device] (lines 378-397). *)
Definition configure_device (config_data : bytes) : Task CmdResult :=
  simple_command ([GSP_CMD_PUT_DATALOGGER_CONFIG; 102] ++ config_data).

Definition start_logging : Task CmdResult :=
  simple_command [GSP_CMD_PUT_DATALOGGER_STATE; 103; 3].

Definition stop_logging : Task CmdResult :=
  simple_command [GSP_CMD_PUT_DATALOGGER_STATE; 104; 2].

Definition subscribe_to_resource (resource_path : string) (ref : N)
  : Task CmdResult :=
  let path_bytes := Py.encode resource_path ++ [0] in
  simple_command ([GSP_CMD_SUBSCRIBE; ref] ++ path_bytes).

Definition unsubscribe_from_resource (ref : N) : Task CmdResult :=
  simple_command [GSP_CMD_UNSUBSCRIBE; ref].

Definition get_resource (resource_path : string) : Task CmdResult :=
  let path_bytes := Py.encode resource_path ++ [0] in
  simple_command ([GSP_CMD_GET; 105] ++ path_bytes).

Definition set_system_mode (system_mode : N) : Task CmdResult :=
  simple_command [GSP_CMD_PUT_SYSTEMMODE; 107; system_mode].

Definition set_utc_time (utc_time_us : N) : Task CmdResult :=
  match Py.to_bytes_little 8 utc_time_us with
  | Some time_bytes => simple_command ([GSP_CMD_PUT_UTCTIME; 108] ++ time_bytes)
  | None => raise OverflowError
  end.

Definition erase_memory : Task CmdResult :=
  simple_command [GSP_CMD_CLEAR_LOGBOOK; 106].

(** *** Fetching a log (lines 438-523) *)

(** [f.seek(offset); f.write(data)] on a file opened with ['wb']: a seek
    past the end leaves a gap that reads as zero bytes. *)
Definition write_at (f : bytes) (offset : N) (data : bytes) : bytes :=
  let o := N.to_nat offset in
  firstn o f ++ repeat 0 (o - List.length f) ++ data
    ++ skipn (o + List.length data) f.

(** Why the receive loop was left. *)
Inductive Stop : Type :=
| EndOfLog
| PacketTooShort
| DataFetchTimeout
| LoopRaised.

(** The [while True] loop of [fetch_data] over the queued responses:
    the file, [last_offset], the queue left behind and the [break] taken.
    An empty queue is the 30 s timeout of [wait_for]. *)
Fixpoint receive_loop (q : list Response) (f_log : bytes) (last_offset : N)
  : bytes * N * list Response * Stop :=
  match q with
  | [] => (f_log, last_offset, [], DataFetchTimeout)
  | data_response :: q' =>
      let rc := response_code data_response in
      if (rc =? GSP_RESP_DATA) || (rc =? GSP_RESP_DATA_PART2) then
        let data_payload := get_data_payload data_response in
        if (4 <=? List.length data_payload)%nat then
          match DataView.get_uint_32 data_payload 0 with
          | Some offset =>
              let bytes_to_write := skipn 4 data_payload in
              if (0 <? List.length bytes_to_write)%nat
              then receive_loop q' (write_at f_log offset bytes_to_write) offset
              else (f_log, offset, q', EndOfLog)
          | None => (f_log, last_offset, q', LoopRaised)
          end
        else (f_log, last_offset, q', PacketTooShort)
      else receive_loop q' f_log last_offset
  end.

(** The dictionary returned by [fetch_data]. *)
Inductive FetchResult : Type :=
| FetchUnexpected (rc : N)
| FetchStatus (st : PyStatus)
| FetchDone (filename : string) (size : N) (log_id : N)
| FetchError (e : Exc).

Definition fetch_success (r : FetchResult) : bool :=
  match r with
  | FetchDone _ _ _ => true
  | _ => false
  end.

(** ['status_code' in result], with its value. *)
Definition fetch_status_code (r : FetchResult) : option PyStatus :=
  match r with
  | FetchStatus st => Some st
  | _ => None
  end.

Definition fetch_filename (log_id : N) (output_file : option string)
           (device : string) : string :=
  match output_file with
  | Some (String c r) =>
      let filename := String c r in
      if Py.endswith filename ".sbem" then filename
      else (filename ++ ".sbem")%string
  | _ => ("log_" ++ Py.str_of_int log_id ++ "_" ++ device ++ ".sbem")%string
  end.

Definition fetch_data (log_id : N) (output_file : option string)
  : Task FetchResult :=
  device <- gets device_name ;;
  let filename := fetch_filename log_id output_file device in
  match Py.to_bytes_little 4 log_id with
  | None => raise OverflowError
  | Some log_id_bytes =>
      let command := [GSP_CMD_FETCH_LOG; 101] ++ log_id_bytes in
      try_except
        (init_response <- send_command command ;;
         if negb (response_code init_response =? GSP_RESP_COMMAND_RESPONSE)
         then ret (FetchUnexpected (response_code init_response))
         else
           let status := get_status_code init_response in
           if negb (status_is status 200) then ret (FetchStatus status)
           else
             q <- gets response_queue ;;
             match receive_loop q [] 0 with
             | (f_log, last_offset, q', stop) =>
                 modify (set_queue q') ;;;
                 modify (fun s => set_files (fs_set (files s) filename f_log) s) ;;;
                 match stop with
                 | EndOfLog => ret (FetchDone filename last_offset log_id)
                 | PacketTooShort =>
                     modify (add_log WARNING "Received data packet too short") ;;;
                     ret (FetchDone filename last_offset log_id)
                 | DataFetchTimeout =>
                     modify (add_log WARNING "Data fetch timeout") ;;;
                     ret (FetchDone filename last_offset log_id)
                 | LoopRaised => raise IndexError
                 end
             end)
        (fun e =>
           modify (add_log ERROR "Data fetch failed:") ;;;
           ret (FetchError e))
  end.

End SensorCommand.

(** ** datalogger_tool.py *)

Module DataloggerTool.

(** A procedure of the tool: it acts on the whole process state. *)
Definition Prog (A : Type) : Type := M World A.

Inductive Command : Type :=
| Status | Config | Start | Stop | Fetch | Erasemem.

(** The parsed arguments.  [path] is a reference to a list object on the
    heap; an attribute that is missing or [None] is [None] here. *)
Record Namespace : Type := mkArgs {
  command : option Command;
  verbose : bool;
  serial_numbers : option (list string);
  path : option nat;
  output : option string;
  force : bool
}.

(** [async with SensorCommand(serial, set_time) as sensor: body]
    ([__aenter__], [_discover_and_connect], [__aexit__]).  The scan finds
    the peer or times out; the connection is made or refused; with
    [set_time] the clock is sent first.  A failure after the scan is
    logged and raised again as a RuntimeError that quotes its cause
    (lines 176-178). *)
Definition with_sensor {A} (serial : string) (set_time : bool)
           (body : Task A) : Prog A :=
  fun w =>
    let d := devices w serial in
    if negb (present d) then
      (inl (RuntimeError ("Device ending with '" ++ serial ++ "' not found")), w)
    else if negb (connectable d) then
      (inl (RuntimeError ("Failed to connect to " ++ name d ++ ": "
                            ++ refusal d)),
       world_log ERROR ("Connection failed: " ++ refusal d) w)
    else
      let s0 := mkSensor serial (name d) true None [] w in
      let enter : Task unit :=
        if set_time then
          try_except
            (SensorCommand.set_utc_time (clock w) ;;; ret tt)
            (fun e =>
               modify (add_log ERROR ("Connection failed: " ++ str_exc e)) ;;;
               raise (RuntimeError ("Failed to connect to " ++ name d ++ ": "
                                      ++ str_exc e)))
        else ret tt in
      match enter s0 with
      | (inl e, s1) => (inl e, env s1)
      | (inr _, s1) =>
          match body s1 with
          | (r, s2) => (r, env s2)
          end
      end.

(** [try: ... except Exception as e: return {'success': False, ...}] *)
Definition guarded {A} (m : Prog A) (h : Exc -> A) : Prog A :=
  try_except m (fun e => ret (h e)).

Definition fetch_status (serial : string)
  : Prog (Exc + SensorCommand.StatusResult) :=
  guarded (r <- with_sensor serial true SensorCommand.get_status ;; ret (inr r))
          inl.

(** Truth value of an optional reference to a list. *)
Definition truthy_list (h : list (list string)) (r : option nat) : bool :=
  match r with
  | Some i => match nth i h [] with [] => false | _ => true end
  | None => false
  end.

(** [l.append(x)] on the list object at reference [i]. *)
Fixpoint heap_append (h : list (list string)) (i : nat) (x : string)
  : list (list string) :=
  match h, i with
  | [], _ => []
  | l :: r, O => (l ++ [x]) :: r
  | l :: r, S j => l :: heap_append r j x
  end.

(** [configure_device(serial, args, paths)] (lines 18-36); [paths] and
    [args.path] are references, so the [append] is seen by every holder
    of the list. *)
Definition configure_device (serial : string) (args : option Namespace)
           (paths : option nat) : Prog SensorCommand.CmdResult :=
  guarded
    (with_sensor serial true
       (h <- gets (fun s => heap (env s)) ;;
        let args_path := match args with Some a => path a | None => None end in
        let paths :=
          if negb (truthy_list h paths) && truthy_list h args_path
          then args_path else paths in
        match paths with
        | None => raise AttributeError
        | Some i =>
            modify (fun s =>
              set_env (set_heap (heap_append (heap (env s)) i "/Time/Detailed")
                                (env s)) s) ;;;
            h' <- gets (fun s => heap (env s)) ;;
            let config_data :=
              flat_map (fun p => Py.encode p ++ [0]) (nth i h' []) in
            SensorCommand.configure_device config_data
        end))
    SensorCommand.Failed.

Definition start_logging (serial : string) : Prog SensorCommand.CmdResult :=
  guarded (with_sensor serial true SensorCommand.start_logging)
          SensorCommand.Failed.

Definition stop_logging (serial : string) : Prog SensorCommand.CmdResult :=
  guarded (with_sensor serial true SensorCommand.stop_logging)
          SensorCommand.Failed.

Definition erase_memory (serial : string) : Prog SensorCommand.CmdResult :=
  guarded (with_sensor serial false SensorCommand.erase_memory)
          SensorCommand.Failed.

(** *** Fetching every log of a device (lines 56-100) *)

Definition nonempty (o : option string) : option string :=
  match o with
  | Some (String c r) => Some (String c r)
  | _ => None
  end.

Definition log_path (dir : string) (log_id : N) (serial : string) : string :=
  (dir ++ "/Movesense_log_" ++ Py.str_of_int log_id ++ "_" ++ serial
       ++ ".sbem")%string.

Definition str_status (st : PyStatus) : string :=
  match st with
  | StatusNone => "None"
  | StatusInt c => Py.str_of_int c
  end.

(** The [while True] loop: one iteration per unit of [fuel]; [None] when
    the fuel ran out before the loop was left.  The time a fetch takes is
    taken to be positive, so the speed in the informational record is
    defined. *)
Fixpoint fetch_loop (fuel : nat) (serial : string) (dir : option string)
         (log_id : N) (fetched_files : list string)
  : Task (option (list string)) :=
  match fuel with
  | O => ret None
  | S fuel' =>
      let output_file :=
        option_map (fun d => log_path d log_id serial) dir in
      result <- SensorCommand.fetch_data log_id output_file ;;
      match result with
      | SensorCommand.FetchDone filename _ _ =>
          fetch_loop fuel' serial dir (log_id + 1)
                     (fetched_files ++ [filename])
      | _ =>
          match SensorCommand.fetch_status_code result with
          | Some st =>
              if negb (status_is st 404) then
                modify (add_log ERROR
                          ("Status " ++ str_status st
                             ++ ": FETCH_LOG command failed with status "
                             ++ str_status st)) ;;;
                ret (Some fetched_files)
              else ret (Some fetched_files)
          | None => ret (Some fetched_files)
          end
      end
  end.

Inductive FleetFetch : Type :=
| FilesFetched (files_fetched : list string)
| FleetFailed (e : Exc)
| Diverged.

Definition fleet_success (r : FleetFetch) : bool :=
  match r with
  | FilesFetched _ => true
  | _ => false
  end.

(** [fetch_data(serial, args, output_dir)].  Every completed fetch uses
    up one scripted answer, so one more iteration than the script is long
    is enough fuel. *)
Definition fetch_data (serial : string) (args : option Namespace)
           (output_dir : option string) : Prog FleetFetch :=
  guarded
    (with_sensor serial false
       (let dir :=
          match nonempty output_dir with
          | Some d => Some d
          | None => match args with
                    | Some a => nonempty (output a)
                    | None => None
                    end
          end in
        fuel <- gets (fun s => S (List.length (script (client s)))) ;;
        r <- fetch_loop fuel serial dir 1 [] ;;
        match r with
        | None => ret Diverged
        | Some fetched_files =>
            SensorCommand.set_system_mode 5 ;;;
            ret (FilesFetched fetched_files)
        end))
    FleetFailed.

(** *** The synchronous commands (lines 126-240)

    What a command function returns: [True], [False], or [None] for
    [status_command], which has no [return]. *)
Definition PyRet : Type := option bool.

(** [not result] *)
Definition falsy (r : PyRet) : bool :=
  match r with
  | Some true => false
  | _ => true
  end.

Definition status_command (serial : string) (args : Namespace)
  : Prog PyRet :=
  try_except (fetch_status serial ;;; ret None) (fun _ => ret None).

Definition config_command (serial : string) (args : Namespace)
  : Prog PyRet :=
  try_except
    (config_result <- configure_device serial (Some args) None ;;
     ret (Some (SensorCommand.cmd_success config_result)))
    (fun _ => ret (Some false)).

Definition start_command (serial : string) (args : Namespace)
  : Prog PyRet :=
  try_except
    (start_result <- start_logging serial ;;
     ret (Some (SensorCommand.cmd_success start_result)))
    (fun _ => ret (Some false)).

Definition stop_command (serial : string) (args : Namespace)
  : Prog PyRet :=
  try_except
    (stop_result <- stop_logging serial ;;
     ret (Some (SensorCommand.cmd_success stop_result)))
    (fun _ => ret (Some false)).

Definition fetch_command (serial : string) (args : Namespace)
  : Prog PyRet :=
  try_except
    (fetch_result <- fetch_data serial (Some args) None ;;
     ret (Some (fleet_success fetch_result)))
    (fun _ => ret (Some false)).

(** [input(prompt)]: the next line of standard input, or EOFError. *)
Definition input : Prog string :=
  fun w =>
    match stdin w with
    | [] => (inl EOFError, w)
    | l :: r => (inr l, set_stdin r w)
    end.

(** [response.lower() not in ['yes', 'y']] for the stripped, lowered
    answer. *)
Definition confirmed (answer : string) : bool :=
  let response := Py.lower (Py.strip answer) in
  let r := Py.lower response in
  String.eqb r "yes" || String.eqb r "y".

(** [erasemem_command] (lines 213-240). *)
Definition erasemem_command (serial : string) (args : Namespace)
  : Prog PyRet :=
  let erase : Prog PyRet :=
    try_except
      (erase_result <- erase_memory serial ;;
       ret (Some (SensorCommand.cmd_success erase_result)))
      (fun _ => ret (Some false)) in
  if negb (force args) then
    answer <- input ;;
    if negb (confirmed answer) then ret (Some true)
    else erase
  else erase.

(** *** The retry loop (lines 242-262) *)

(** The [for serial in serials] pass: the serials to try again. *)
Fixpoint one_pass (command_func : string -> Namespace -> Prog PyRet)
         (args : Namespace) (serials : list string) : Prog (list string) :=
  match serials with
  | [] => ret []
  | serial :: rest =>
      failed <-
        try_except
          (result <- command_func serial args ;; ret (falsy result))
          (fun e =>
             modify (world_log WARNING
                       ("Error executing command for device " ++ serial
                          ++ ": " ++ str_exc e)) ;;;
             ret true) ;;
      next_serials <- one_pass command_func args rest ;;
      ret (if failed then serial :: next_serials else next_serials)
  end.

(** The [while retry_count <= retrys] loop, by the number of passes still
    allowed.  The function returns nothing in Python; the serials left
    failing when the loop ends are returned here to make them visible. *)
Fixpoint passes (left : nat)
         (command_func : string -> Namespace -> Prog PyRet)
         (args : Namespace) (serials : list string) : Prog (list string) :=
  match left with
  | O => ret serials
  | S left' =>
      next_serials <- one_pass command_func args serials ;;
      match next_serials with
      | [] => ret []
      | _ => passes left' command_func args next_serials
      end
  end.

Definition all_sensors_command
           (command_func : string -> Namespace -> Prog PyRet)
           (args : Namespace) (retrys : nat) : Prog (list string) :=
  match serial_numbers args with
  | None => raise TypeError
  | Some l => passes (S retrys) command_func args l
  end.

(** *** main (lines 264-327), from the parsed arguments on *)

Definition commands (c : Command) : string -> Namespace -> Prog PyRet :=
  match c with
  | Status => status_command
  | Config => config_command
  | Start => start_command
  | Stop => stop_command
  | Fetch => fetch_command
  | Erasemem => erasemem_command
  end.

(** How the process ends: [sys.exit(n)], falling off the end of [main],
    or an exception nobody caught. *)
Inductive Ending : Type :=
| SysExit (n : N)
| Returned
| Traceback (e : Exc).

(** The exit status the interpreter reports. *)
Definition exit_code (e : Ending) : N :=
  match e with
  | SysExit n => n
  | Returned => 0
  | Traceback _ => 1
  end.

Definition main (args : Namespace) (w : World) : Ending * World :=
  match command args with
  | None => (SysExit 1, w)
  | Some c =>
      let retrys := match c with Status => 0%nat | _ => 10%nat end in
      match all_sensors_command (commands c) args retrys w with
      | (inl e, w') => (Traceback e, w')
      | (inr _, w') => (Returned, w')
      end
  end.

End DataloggerTool.

(** ** sensor_command.py: dispatch by command type (lines 47-57, 643-698) *)

Module Dispatch.

Inductive CommandType : Type :=
| HELLO
| SUBSCRIBE
| UNSUBSCRIBE
| FETCH_LOG
| GET
| CLEAR_LOGBOOK
| PUT_DATALOGGER_CONFIG
| PUT_SYSTEMMODE
| PUT_UTCTIME
| PUT_DATALOGGER_STATE.

(** [CommandType.X.value] *)
Definition value (c : CommandType) : N :=
  match c with
  | HELLO => GSP_CMD_HELLO
  | SUBSCRIBE => GSP_CMD_SUBSCRIBE
  | UNSUBSCRIBE => GSP_CMD_UNSUBSCRIBE
  | FETCH_LOG => GSP_CMD_FETCH_LOG
  | GET => GSP_CMD_GET
  | CLEAR_LOGBOOK => GSP_CMD_CLEAR_LOGBOOK
  | PUT_DATALOGGER_CONFIG => GSP_CMD_PUT_DATALOGGER_CONFIG
  | PUT_SYSTEMMODE => GSP_CMD_PUT_SYSTEMMODE
  | PUT_UTCTIME => GSP_CMD_PUT_UTCTIME
  | PUT_DATALOGGER_STATE => GSP_CMD_PUT_DATALOGGER_STATE
  end.

(** The keyword arguments [execute_command] reads; a missing keyword is
    [None]. *)
Record Kwargs : Type := mkKwargs {
  kw_config_data : option bytes;
  kw_state : option N;
  kw_log_id : option N;
  kw_output_file : option string;
  kw_resource_path : option string;
  kw_reference : option N;
  kw_system_mode : option N;
  kw_utc_time : option N
}.

Definition no_kwargs : Kwargs :=
  mkKwargs None None None None None None None None.

(** [kwargs.get(key, default)] *)
Definition kw_get {A} (o : option A) (default : A) : A :=
  match o with
  | Some a => a
  | None => default
  end.

(** What [execute_command] hands back: the dictionary of the operation it
    ran. *)
Inductive Outcome : Type :=
| StatusOf (r : SensorCommand.StatusResult)
| FetchOf (r : SensorCommand.FetchResult)
| CmdOf (r : SensorCommand.CmdResult).

(** [result.get('success', False)] *)
Definition outcome_success (o : Outcome) : bool :=
  match o with
  | StatusOf r => match SensorCommand.st_success r with
                  | Some b => b
                  | None => false
                  end
  | FetchOf r => SensorCommand.fetch_success r
  | CmdOf r => SensorCommand.cmd_success r
  end.

(** [execute_command] (lines 643-687). *)
Definition execute_command (command_type : CommandType) (kwargs : Kwargs)
  : Task Outcome :=
  try_except
    (match command_type with
     | HELLO =>
         r <- SensorCommand.get_status ;; ret (StatusOf r)
     | PUT_DATALOGGER_CONFIG =>
         r <- SensorCommand.configure_device (kw_get (kw_config_data kwargs) []) ;;
         ret (CmdOf r)
     | PUT_DATALOGGER_STATE =>
         if kw_get (kw_state kwargs) 0 =? 1
         then r <- SensorCommand.start_logging ;; ret (CmdOf r)
         else r <- SensorCommand.stop_logging ;; ret (CmdOf r)
     | FETCH_LOG =>
         r <- SensorCommand.fetch_data (kw_get (kw_log_id kwargs) 1)
                (kw_output_file kwargs) ;;
         ret (FetchOf r)
     | CLEAR_LOGBOOK =>
         r <- SensorCommand.erase_memory ;; ret (CmdOf r)
     | SUBSCRIBE =>
         r <- SensorCommand.subscribe_to_resource
                (kw_get (kw_resource_path kwargs) EmptyString) 1 ;;
         ret (CmdOf r)
     | UNSUBSCRIBE =>
         r <- SensorCommand.unsubscribe_from_resource
                (kw_get (kw_reference kwargs) 0) ;;
         ret (CmdOf r)
     | GET =>
         r <- SensorCommand.get_resource (kw_get (kw_resource_path kwargs) EmptyString) ;;
         ret (CmdOf r)
     | PUT_SYSTEMMODE =>
         r <- SensorCommand.set_system_mode (kw_get (kw_system_mode kwargs) 0) ;;
         ret (CmdOf r)
     | PUT_UTCTIME =>
         r <- SensorCommand.set_utc_time (kw_get (kw_utc_time kwargs) 0) ;;
         ret (CmdOf r)
     end)
    (fun e =>
       modify (add_log ERROR ("Command execution failed: " ++ str_exc e)) ;;;
       ret (CmdOf (SensorCommand.Failed e))).

(** [run_sensor_command] (lines 690-698): one command on a fresh session,
    with the clock set at connect. *)
Definition run_sensor_command (end_of_serial : string)
           (command_type : CommandType) (kwargs : Kwargs)
  : DataloggerTool.Prog Outcome :=
  DataloggerTool.guarded
    (DataloggerTool.with_sensor end_of_serial true
       (execute_command command_type kwargs))
    (fun e => CmdOf (SensorCommand.Failed e)).

End Dispatch.

(** * Reading the specification

    Notions the properties are stated with: what a command does to the
    session, what the receive loop took off the queue and placed in the
    file, and a bench with one scripted peer to run the code on. *)

Import SensorCommand.

(** ** What one command does to the session *)

(** The session after a GATT write of [c], before the queue is read: the
    write is on the device's trace, the burst that answers it is used up,
    and the handler's errors on that burst are logged. *)
Definition wrote (c : bytes) (s : Sensor) : Sensor :=
  let d := client s in
  add_logs (handler_errors (hello_ref s) (hd [] (script d)))
    (set_client (mkDevice (name d) (present d) (connectable d)
                          (tl (script d)) (written d ++ [c]) (refusal d)) s).

(** The responses the peer's next burst puts on the queue. *)
Definition answers (s : Sensor) : list Response :=
  deliver (hello_ref s) (hd [] (script (client s))).

(** ** A bench to run the code on: one peer with scripted answers *)

Definition peer (bursts : list (list bytes)) : Device :=
  mkDevice "Movesense 000455" true true bursts [] EmptyString.

Definition bench (bursts : list (list bytes)) : World :=
  mkWorld (fun _ => peer bursts) [] [] [] [] 0.

Definition session (bursts : list (list bytes)) : Sensor :=
  mkSensor "000455" "Movesense 000455" true None [] (bench bursts).

(** ** Resource paths on the wire *)

(** A payload that is one path closed by its only NUL byte. *)
Definition nul_terminated_path (payload : bytes) : bool :=
  match rev payload with
  | 0 :: r => forallb (fun b => negb (b =? 0)) r
  | _ => false
  end.

(** ** The receive loop as a sequence of placements *)

Definition is_data (r : Response) : bool :=
  (response_code r =? GSP_RESP_DATA) || (response_code r =? GSP_RESP_DATA_PART2).

Definition well_sized (r : Response) : bool :=
  (4 <=? List.length (get_data_payload r))%nat.

Definition frame_offset (r : Response) : N :=
  Py.from_bytes_little (firstn 4 (get_data_payload r)).

Definition frame_body (r : Response) : bytes := skipn 4 (get_data_payload r).

Definition empty_body (r : Response) : bool :=
  match frame_body r with [] => true | _ => false end.

(** A data frame that makes the loop stop: too short, or with nothing
    after its offset word. *)
Definition ends_stream (r : Response) : bool :=
  is_data r && (negb (well_sized r) || empty_body r).

(** The responses the loop takes off the queue. *)
Fixpoint consumed (q : list Response) : list Response :=
  match q with
  | [] => []
  | r :: q' => if ends_stream r then [r] else r :: consumed q'
  end.

(** The (offset, bytes) placements among some frames, in order. *)
Definition placements (frames : list Response) : list (N * bytes) :=
  flat_map (fun r =>
              if is_data r && well_sized r && negb (empty_body r)
              then [(frame_offset r, frame_body r)] else [])
           frames.

(** The offset words among some frames, in order. *)
Definition offsets_seen (frames : list Response) : list N :=
  flat_map (fun r => if is_data r && well_sized r then [frame_offset r] else [])
           frames.

Definition apply_writes (f : bytes) (ws : list (N * bytes)) : bytes :=
  fold_left (fun f w => write_at f (fst w) (snd w)) ws f.

(** The highest [offset + len] among placements. *)
Definition extent (ws : list (N * bytes)) : N :=
  fold_right (fun w m => N.max (fst w + N.of_nat (List.length (snd w))) m) 0 ws.

Definition covers (w : N * bytes) (i : nat) : bool :=
  (N.to_nat (fst w) <=? i)%nat && (i <? N.to_nat (fst w) + List.length (snd w))%nat.

(** The byte most recently placed at position [i], if any was. *)
Fixpoint last_written (ws : list (N * bytes)) (i : nat) : option N :=
  match ws with
  | [] => None
  | w :: r =>
      match last_written r i with
      | Some b => Some b
      | None =>
          if covers w i then Some (nth (i - N.to_nat (fst w)) (snd w) 0)
          else None
      end
  end.

(** The three notifications of the unit tests' peer: status 200, then
    ten bytes at offset 0, then the empty frame with offset 9. *)
Definition fetch_ok : bytes := [1; 101; 200; 0].
Definition test_data : bytes :=
  [2; 101; 0; 0; 0; 0] ++ Py.encode "test data" ++ [0].
Definition end_marker : bytes := [2; 101; 9; 0; 0; 0].

(** ** Benches for the command-line tool *)

(** A bench with standard input and list objects on the heap. *)
Definition lab (bursts : list (list bytes)) (lines : list string)
           (lists : list (list string)) : World :=
  mkWorld (fun _ => peer bursts) lines lists [] [] 0.

(** A room with no device in range. *)
Definition nobody : World :=
  mkWorld (fun _ => mkDevice EmptyString false false [] [] EmptyString)
          [] [] [] [] 0.

(** ** Answers to the erase prompt *)

(** A string of blanks only. *)
Fixpoint blank (s : string) : bool :=
  match s with
  | EmptyString => true
  | String c r => Py.isspace c && blank r
  end.

(** "yes" and "y" in every mix of upper and lower case. *)
Definition yes_spellings : list string :=
  ["yes"; "yeS"; "yEs"; "yES"; "Yes"; "YeS"; "YEs"; "YES"; "y"; "Y"]%string.

(** The answer is one of those spellings between blanks. *)
Definition accepted (answer : string) : Prop :=
  exists l core r : string,
    answer = (l ++ core ++ r)%string
    /\ blank l = true /\ blank r = true /\ In core yes_spellings.

(** ** A log sent in consecutive chunks *)

(** The four little-endian bytes of an offset below 2^32. *)
Definition le32 (n : N) : bytes :=
  match Py.to_bytes_little 4 n with
  | Some b => b
  | None => []
  end.

(** The notification of a data frame: code, reference, offset, bytes. *)
Definition data_frame (ref off : N) (chunk : bytes) : bytes :=
  [GSP_RESP_DATA; ref] ++ le32 off ++ chunk.

(** The data frames of some chunks sent one after the other from [off]. *)
Fixpoint chunked (ref off : N) (chunks : list bytes) : list bytes :=
  match chunks with
  | [] => []
  | c :: r => data_frame ref off c :: chunked ref (off + N.of_nat (List.length c)) r
  end.

(** ** Answers to HELLO and to the state query *)

(** Byte strings closed by a NUL each, one after the other. *)
Definition nul_joined (strs : list bytes) : bytes :=
  List.concat (map (fun x => x ++ [0]) strs).

(** The code points of a string. *)
Definition code_points (s : string) : list N :=
  map N_of_ascii (list_ascii_of_string s).

(** A string without the character NUL. *)
Fixpoint no_nul (s : string) : bool :=
  match s with
  | EmptyString => true
  | String c r => negb (N_of_ascii c =? 0) && no_nul r
  end.

(** The peer's answer to HELLO with reference 100: no status word, the
    protocol version, then the strings. *)
Definition hello_answer (version : N) (strs : list bytes) : bytes :=
  [GSP_RESP_COMMAND_RESPONSE; 100; version] ++ nul_joined strs.

(** The peer's answer to the state query: status word, then the body. *)
Definition state_answer (lo hi : N) (body : bytes) : bytes :=
  [GSP_RESP_COMMAND_RESPONSE; 101; lo; hi] ++ body.

(** ** The commands and files of a fetch session *)

(** FETCH_LOG for one log id, as written to the device. *)
Definition fetch_command_bytes (log_id : N) : bytes :=
  [GSP_CMD_FETCH_LOG; 101] ++ le32 log_id.

(** [n] consecutive log ids from [first] on. *)
Definition log_ids (first : N) (n : nat) : list N :=
  map (fun i => first + N.of_nat i) (seq 0 n).

(** The directory the fleet loop writes to: the [output_dir] argument if
    it is given and not empty, else the [--output] option. *)
Definition fetch_dir (args : option DataloggerTool.Namespace)
           (output_dir : option string) : option string :=
  match DataloggerTool.nonempty output_dir with
  | Some d => Some d
  | None =>
      match args with
      | Some a => DataloggerTool.nonempty (DataloggerTool.output a)
      | None => None
      end
  end.

(** The name the fleet loop's fetch gives the file of one log. *)
Definition fleet_file_name (dir : option string) (serial device : string)
           (log_id : N) : string :=
  SensorCommand.fetch_filename log_id
    (option_map (fun d => DataloggerTool.log_path d log_id serial) dir) device.

(** A burst that lets FETCH_LOG go through: the first response the handler
    queues from it is a command response with status 200. *)
Definition accepts (hello : option N) (burst : list bytes) : bool :=
  match deliver hello burst with
  | r :: _ =>
      (response_code r =? GSP_RESP_COMMAND_RESPONSE)
      && status_is (get_status_code r) 200
  | [] => false
  end.

(** How many bursts at the head of a script each let a fetch go through. *)
Fixpoint completed (hello : option N) (bursts : list (list bytes)) : nat :=
  match bursts with
  | b :: r => if accepts hello b then S (completed hello r) else 0%nat
  | [] => 0%nat
  end.

(** The warning that goes with the way the receive loop was left. *)
Definition stop_records (stop : SensorCommand.Stop) : list LogRecord :=
  match stop with
  | DataFetchTimeout => [(WARNING, "Data fetch timeout"%string)]
  | PacketTooShort => [(WARNING, "Received data packet too short"%string)]
  | _ => []
  end.

(** What a fetch that goes through on [burst] leaves in the log: the
    handler's errors, then the warning of the receive loop if any. *)
Definition fetch_records (hello : option N) (burst : list bytes)
  : list LogRecord :=
  handler_errors hello burst
    ++ stop_records (snd (receive_loop (tl (deliver hello burst)) [] 0)).

(** The error the fleet loop logs for a refused fetch. *)
Definition refusal_record (st : PyStatus) : LogRecord :=
  (ERROR,
   ("Status " ++ DataloggerTool.str_status st
      ++ ": FETCH_LOG command failed with status "
      ++ DataloggerTool.str_status st)%string).

(** ** The clock at connect *)

(** PUT_UTCTIME for a time in microseconds, as written to the device. *)
Definition utc_command_bytes (t : N) : bytes :=
  [GSP_CMD_PUT_UTCTIME; 108]
    ++ match Py.to_bytes_little 8 t with
       | Some b => b
       | None => []
       end.

(** The message of a scan that found nothing. *)
Definition not_found (serial : string) : Exc :=
  RuntimeError ("Device ending with '" ++ serial ++ "' not found").

(** ** Arguments of a run *)

(** The same arguments with [--force]. *)
Definition forced (args : DataloggerTool.Namespace) : DataloggerTool.Namespace :=
  DataloggerTool.mkArgs
    (DataloggerTool.command args) (DataloggerTool.verbose args)
    (DataloggerTool.serial_numbers args) (DataloggerTool.path args)
    (DataloggerTool.output args) true.

(** The configuration buffer for a list of paths: each path, then NUL. *)
Definition config_buffer (paths : list string) : bytes :=
  flat_map (fun p => Py.encode p ++ [0]) paths.

(** A session object that is not connected. *)
Definition offline (w : World) (serial : string) : Sensor :=
  mkSensor serial EmptyString false None [] w.

(** * Properties *)

(** ** Decoding command responses *)

(** C5, as amended.  A command response of at least four bytes that carries
    the reference registered for HELLO is decoded without a status word:
    the status is 200 and the body starts at byte 2.  With any other
    reference (or none registered) the status is the little-endian word at
    bytes 2-3 and the body starts at byte 4.  A command response of two or
    three bytes is decoded with status [None] and an empty body, whatever
    its reference; one of a single byte is not decoded at all: nothing is
    queued and an error is logged. *)
Theorem hello_response_skips_status_word :
  forall (hello : option N) (data : bytes),
    nth_error data 0 = Some GSP_RESP_COMMAND_RESPONSE ->
    ((4 <= List.length data)%nat ->
     exists r,
       _notification_handler hello data = Some r
       /\ response_code r = GSP_RESP_COMMAND_RESPONSE
       /\ reference r = nth 1 data 0
       /\ (hello = Some (nth 1 data 0) ->
           status_code r = Some (StatusInt 200)
           /\ command_data r = Some (skipn 2 data))
       /\ (hello <> Some (nth 1 data 0) ->
           status_code r = Some (StatusInt (nth 2 data 0 + 256 * nth 3 data 0))
           /\ command_data r = Some (skipn 4 data)))
    /\ ((2 <= List.length data < 4)%nat ->
        _notification_handler hello data
        = Some (mkResponse GSP_RESP_COMMAND_RESPONSE (nth 1 data 0) data
                  (Some StatusNone) (Some []) None))
    /\ ((List.length data < 2)%nat ->
        _notification_handler hello data = None
        /\ deliver hello [data] = []
        /\ handler_errors hello [data]
           = [(ERROR, "Error handling notification:"%string)]).
Proof.
  intros hello data H0. split; [|split].
  - intros Hlen.
    destruct data as [|a [|ref [|c [|d rest]]]]; simpl in Hlen; try lia.
    simpl in H0. injection H0 as ->.
    unfold _notification_handler, DataView.get_uint_8, DataView.get_uint_16.
    cbn [DataView.get_binary nth_error option_map Py.from_bytes_little nth].
    replace (GSP_RESP_COMMAND_RESPONSE + 256 * 0)
      with GSP_RESP_COMMAND_RESPONSE by lia.
    replace (ref + 256 * 0) with ref by lia.
    rewrite N.eqb_refl.
    replace (4 <=? List.length (GSP_RESP_COMMAND_RESPONSE :: ref :: c :: d :: rest))%nat
      with true by reflexivity.
    destruct hello as [h|].
    + destruct (N.eqb_spec ref h) as [->|Hne].
      * eexists. split; [reflexivity|].
        cbn [response_code reference status_code command_data].
        repeat split; congruence.
      * eexists. split; [reflexivity|].
        cbn [response_code reference status_code command_data].
        repeat (split; [congruence|]).
        intros _. split.
        -- do 2 f_equal. cbn [Py.from_bytes_little]. lia.
        -- destruct rest; reflexivity.
    + eexists. split; [reflexivity|].
      cbn [response_code reference status_code command_data].
      repeat (split; [congruence|]).
      intros _. split.
      * do 2 f_equal. cbn [Py.from_bytes_little]. lia.
      * destruct rest; reflexivity.
  - intros [Hlo Hhi].
    destruct data as [|a [|ref [|c [|d rest]]]]; simpl in Hlo, Hhi; try lia;
      simpl in H0; injection H0 as ->;
      unfold _notification_handler, DataView.get_uint_8;
      cbn [DataView.get_binary nth_error option_map Py.from_bytes_little nth];
      replace (GSP_RESP_COMMAND_RESPONSE + 256 * 0)
        with GSP_RESP_COMMAND_RESPONSE by lia;
      replace (ref + 256 * 0) with ref by lia;
      rewrite N.eqb_refl; reflexivity.
  - intros Hlen.
    destruct data as [|a [|ref rest]]; simpl in Hlen; try lia;
      [discriminate H0|].
    repeat split.
Qed.

Lemma hello_response_skips_status_word_witness :
  (exists r,
     _notification_handler (Some 100) [1; 100; 1; 50; 52; 0] = Some r
     /\ status_code r = Some (StatusInt 200)
     /\ command_data r = Some [1; 50; 52; 0])
  /\ _notification_handler (Some 100) [1; 100; 1]
     = Some (mkResponse 1 100 [1; 100; 1] (Some StatusNone) (Some []) None)
  /\ _notification_handler (Some 100) [1] = None.
Proof.
  split; [|split].
  - destruct (proj1 (@hello_response_skips_status_word
                       (Some 100) [1; 100; 1; 50; 52; 0] eq_refl)
                    (le_S _ _ (le_S _ _ (le_n 4))))
      as (r & Hr & _ & _ & Hhello & _).
    exists r. split; [exact Hr|]. exact (Hhello eq_refl).
  - exact (proj1 (proj2 (@hello_response_skips_status_word
                           (Some 100) [1; 100; 1] eq_refl))
                 (conj (le_S _ _ (le_n 2)) (le_n 4))).
  - exact (proj1 (proj2 (proj2 (@hello_response_skips_status_word
                                  (Some 100) [1] eq_refl))
                        (le_n 2))).
Defined.

(** C5 as stated fails on a short frame: a three-byte response to HELLO
    (the protocol version alone) is decoded with status [None] and an
    empty body, not with status 200 and the body from byte 2. *)
Lemma short_hello_response_has_no_status :
  exists r,
    _notification_handler (Some 100) [1; 100; 1] = Some r
    /\ response_code r = GSP_RESP_COMMAND_RESPONSE
    /\ reference r = 100
    /\ status_code r = Some StatusNone
    /\ command_data r = Some []
    /\ skipn 2 [1; 100; 1] = [1].
Proof.
  eexists. split; [reflexivity|]. repeat split.
Qed.

Lemma client_set_client (d : Device) (s : Sensor) : client (set_client d s) = d.
Proof.
  unfold client, set_client, set_env, set_device; simpl.
  now rewrite String.eqb_refl.
Qed.

Lemma client_add_logs (records : list LogRecord) (s : Sensor) :
  client (add_logs records s) = client s.
Proof. reflexivity. Qed.

Lemma client_wrote (c : bytes) (s : Sensor) :
  written (client (wrote c s)) = written (client s) ++ [c]
  /\ script (client (wrote c s)) = tl (script (client s)).
Proof.
  unfold wrote. rewrite client_add_logs, client_set_client.
  split; reflexivity.
Qed.

Lemma send_command_connected (c : bytes) (s : Sensor) :
  is_connected s = true ->
  send_command c s =
    match answers s with
    | r :: q => (inr r, set_queue q (wrote c s))
    | [] =>
        (inl (TimeoutError "Command timeout after 10.0s"),
         add_log ERROR "Command failed: Command timeout after 10.0s"
                 (set_queue [] (wrote c s)))
    end.
Proof.
  intros Hc. unfold answers, wrote.
  cbv [send_command bind gets try_except modify write_gatt_char raise ret].
  rewrite Hc. cbn [negb].
  change (client (set_queue [] s)) with (client s).
  change (response_queue (set_queue [] s)) with (@nil Response).
  change (hello_ref (set_queue [] s)) with (hello_ref s).
  cbn [app].
  destruct (script (client s)) as [|b rest]; cbn [hd tl deliver].
  - reflexivity.
  - destruct (deliver (hello_ref s) b); reflexivity.
Qed.

Lemma send_command_disconnected (c : bytes) (s : Sensor) :
  is_connected s = false ->
  send_command c s = (inl (RuntimeError "Not connected to device"), s).
Proof.
  intros Hc. unfold send_command, bind, gets. now rewrite Hc.
Qed.

Lemma simple_command_written (c : bytes) (s : Sensor) :
  is_connected s = true ->
  written (client (snd (simple_command c s))) = written (client s) ++ [c].
Proof.
  intros Hc. unfold simple_command, bind.
  rewrite (send_command_connected c s Hc).
  destruct (answers s) as [|r q].
  - simpl. apply client_wrote.
  - destruct (response_code r =? GSP_RESP_COMMAND_RESPONSE); simpl;
      apply client_wrote.
Qed.

(** C6.  [get_resource] and [subscribe_to_resource] close the path with a
    NUL byte, but the GET of /Mem/DataLogger/State that [get_status] writes
    ends with the last letter of the path: no NUL follows it. *)
Theorem get_status_path_lacks_nul :
  let hello_answer := [1; 100; 1] ++ Py.encode "241330000455" ++ [0]
                        ++ Py.encode "TestSensor" ++ [0] in
  let state_answer := [1; 101; 200; 0; 2] in
  let s := session [[hello_answer]; [state_answer]] in
  written (client (snd (get_status s))) = [hello_command; dlstate_command]
  /\ dlstate_command = [GSP_CMD_GET; 101] ++ Py.encode "/Mem/DataLogger/State"
  /\ nul_terminated_path (skipn 2 dlstate_command) = false
  /\ last dlstate_command 0 = 101
  /\ (forall (p : string) (s' : Sensor),
        is_connected s' = true ->
        written (client (snd (get_resource p s')))
        = written (client s') ++ [[GSP_CMD_GET; 105] ++ Py.encode p ++ [0]])
  /\ (forall (p : string) (ref : N) (s' : Sensor),
        is_connected s' = true ->
        written (client (snd (subscribe_to_resource p ref s')))
        = written (client s') ++ [[GSP_CMD_SUBSCRIBE; ref] ++ Py.encode p ++ [0]])
  /\ nul_terminated_path (Py.encode "/Mem/DataLogger/State" ++ [0]) = true.
Proof.
  repeat split.
  - intros p s' Hc. unfold get_resource. now apply simple_command_written.
  - intros p ref s' Hc. unfold subscribe_to_resource.
    now apply simple_command_written.
Qed.

Lemma get_binary_firstn (k : nat) : forall (a : bytes) (i : nat),
  (i + k <= List.length a)%nat ->
  DataView.get_binary a i k = Some (firstn k (skipn i a)).
Proof.
  induction k as [|k IH]; intros a i Hlen.
  - reflexivity.
  - cbn [DataView.get_binary].
    destruct (nth_error a i) as [b|] eqn:Hb.
    + rewrite IH by lia.
      assert (Hs : skipn i a = b :: skipn (S i) a).
      { clear IH Hlen. revert a Hb. induction i as [|i IHi]; intros [|x a] Hb;
          simpl in Hb; try discriminate.
        - now injection Hb as ->.
        - now apply IHi. }
      now rewrite Hs.
    + apply nth_error_None in Hb. lia.
Qed.

Lemma get_uint_32_offset (p : bytes) :
  (4 <= List.length p)%nat ->
  DataView.get_uint_32 p 0 = Some (Py.from_bytes_little (firstn 4 p)).
Proof.
  intros H. unfold DataView.get_uint_32.
  now rewrite get_binary_firstn by (simpl; lia).
Qed.

Lemma length_write_at (f : bytes) (o : N) (d : bytes) :
  List.length (write_at f o d)
  = Nat.max (List.length f) (N.to_nat o + List.length d).
Proof.
  unfold write_at.
  rewrite !length_app, length_firstn, repeat_length, length_skipn. lia.
Qed.

Lemma nth_write_at (f : bytes) (o : N) (d : bytes) (i : nat) :
  nth i (write_at f o d) 0 =
    if covers (o, d) i then nth (i - N.to_nat o) d 0 else nth i f 0.
Proof.
  unfold write_at, covers; cbn [fst snd].
  set (n := N.to_nat o).
  destruct (Nat.leb_spec n i) as [Hle|Hlt]; cbn [andb].
  - (* at or after the offset *)
    assert (Hfn : List.length (firstn n f) = Nat.min n (List.length f))
      by apply length_firstn.
    assert (Hpre : List.length (firstn n f ++ repeat 0 (n - List.length f)) = n).
    { rewrite length_app, repeat_length. lia. }
    rewrite app_assoc.
    rewrite app_nth2 by lia. rewrite Hpre.
    destruct (Nat.ltb_spec i (n + List.length d)) as [Hin|Hout].
    + rewrite app_nth1 by lia. reflexivity.
    + rewrite app_nth2 by lia. rewrite nth_skipn. f_equal. lia.
  - (* before the offset *)
    destruct (Nat.lt_ge_cases i (List.length f)) as [Hf|Hf].
    + rewrite app_nth1 by (rewrite length_firstn; lia).
      rewrite nth_firstn.
      destruct (Nat.ltb_spec i n); [reflexivity | lia].
    + rewrite firstn_all2 by lia.
      rewrite app_nth2 by lia.
      rewrite app_nth1 by (rewrite repeat_length; lia).
      rewrite nth_repeat. symmetry. apply nth_overflow. lia.
Qed.

Lemma length_apply_writes (ws : list (N * bytes)) : forall f : bytes,
  N.of_nat (List.length (apply_writes f ws))
  = N.max (N.of_nat (List.length f)) (extent ws).
Proof.
  induction ws as [|w ws IH]; intros f.
  - simpl. now rewrite N.max_0_r.
  - cbn [apply_writes fold_left]. fold (apply_writes (write_at f (fst w) (snd w)) ws).
    rewrite IH, length_write_at. cbn [extent fold_right]. fold (extent ws).
    rewrite Nat2N.inj_max, Nat2N.inj_add, N2Nat.id.
    symmetry. apply N.max_assoc.
Qed.

Lemma nth_apply_writes (ws : list (N * bytes)) : forall (f : bytes) (i : nat),
  nth i (apply_writes f ws) 0 =
    match last_written ws i with
    | Some b => b
    | None => nth i f 0
    end.
Proof.
  induction ws as [|w ws IH]; intros f i.
  - reflexivity.
  - cbn [apply_writes fold_left]. fold (apply_writes (write_at f (fst w) (snd w)) ws).
    rewrite IH. cbn [last_written].
    destruct (last_written ws i) as [b|]; [reflexivity|].
    destruct w as [o d]. rewrite nth_write_at. cbn [fst snd].
    destruct (covers (o, d) i); reflexivity.
Qed.

Lemma receive_loop_step (r : Response) (q : list Response) (f : bytes) (l : N) :
  receive_loop (r :: q) f l =
    if is_data r then
      if well_sized r then
        if empty_body r then (f, frame_offset r, q, EndOfLog)
        else receive_loop q (write_at f (frame_offset r) (frame_body r))
                          (frame_offset r)
      else (f, l, q, PacketTooShort)
    else receive_loop q f l.
Proof.
  cbn [receive_loop]. fold (is_data r). destruct (is_data r); [|reflexivity].
  fold (well_sized r). destruct (well_sized r) eqn:Hw; [|reflexivity].
  rewrite get_uint_32_offset by (now apply Nat.leb_le).
  fold (frame_offset r). fold (frame_body r). unfold empty_body.
  destruct (frame_body r); reflexivity.
Qed.

Lemma last_cons_default (A : Type) (a d : A) (l : list A) :
  last (a :: l) d = last l a.
Proof.
  revert a d. induction l as [|b l IH]; intros a d; [reflexivity|].
  change (last (a :: b :: l) d) with (last (b :: l) d).
  now rewrite !IH.
Qed.

Lemma placements_cons (r : Response) (l : list Response) :
  placements (r :: l) =
    (if is_data r && well_sized r && negb (empty_body r)
     then [(frame_offset r, frame_body r)] else []) ++ placements l.
Proof. reflexivity. Qed.

Lemma offsets_seen_cons (r : Response) (l : list Response) :
  offsets_seen (r :: l) =
    (if is_data r && well_sized r then [frame_offset r] else [])
      ++ offsets_seen l.
Proof. reflexivity. Qed.

(** The loop places the placements of the consumed frames, in order, and
    keeps the last offset word it saw. *)
Lemma receive_loop_placements (q : list Response) : forall (f : bytes) (l : N),
  exists stop,
    receive_loop q f l =
      (apply_writes f (placements (consumed q)),
       last (offsets_seen (consumed q)) l,
       skipn (List.length (consumed q)) q,
       stop)
    /\ stop <> LoopRaised
    /\ (stop = DataFetchTimeout <-> existsb ends_stream q = false).
Proof.
  induction q as [|r q IH]; intros f l.
  - exists DataFetchTimeout. repeat split; congruence.
  - rewrite receive_loop_step. cbn [consumed existsb].
    destruct (is_data r) eqn:Hd.
    + destruct (well_sized r) eqn:Hw.
      * destruct (empty_body r) eqn:He.
        -- assert (Hes : ends_stream r = true)
             by (unfold ends_stream; now rewrite Hd, Hw, He).
           rewrite Hes. exists EndOfLog.
           rewrite placements_cons, offsets_seen_cons, Hd, Hw, He.
           cbn [andb negb app placements offsets_seen flat_map last
                apply_writes fold_left List.length skipn orb].
           repeat split; intros; congruence.
        -- assert (Hes : ends_stream r = false)
             by (unfold ends_stream; now rewrite Hd, Hw, He).
           rewrite Hes.
           destruct (IH (write_at f (frame_offset r) (frame_body r))
                        (frame_offset r)) as (stop & Heq & Hne & Hto).
           exists stop. rewrite Heq.
           rewrite placements_cons, offsets_seen_cons, Hd, Hw, He.
           cbn [andb negb app List.length skipn orb].
           rewrite last_cons_default.
           repeat split; try assumption; apply Hto.
      * assert (Hes : ends_stream r = true)
          by (unfold ends_stream; now rewrite Hd, Hw).
        rewrite Hes. exists PacketTooShort.
        rewrite placements_cons, offsets_seen_cons, Hd, Hw.
        cbn [andb negb app placements offsets_seen flat_map last
             apply_writes fold_left List.length skipn orb].
        repeat split; intros; congruence.
    + assert (Hes : ends_stream r = false)
        by (unfold ends_stream; now rewrite Hd).
      rewrite Hes.
      destruct (IH f l) as (stop & Heq & Hne & Hto).
      exists stop. rewrite Heq.
      rewrite placements_cons, offsets_seen_cons, Hd.
      cbn [andb app List.length skipn orb].
      repeat split; try assumption; apply Hto.
Qed.

(** ** A fetch whose command is answered with status 200 *)

Lemma logs_wrote (c : bytes) (s : Sensor) :
  logs (wrote c s)
  = logs s ++ handler_errors (hello_ref s) (hd [] (script (client s))).
Proof. reflexivity. Qed.

Lemma fetch_data_streams (s : Sensor) (log_id : N) (out : option string)
      (lb : bytes) (init : Response) (frames : list Response)
      (f : bytes) (l : N) (q' : list Response) (stop : Stop) :
  is_connected s = true ->
  Py.to_bytes_little 4 log_id = Some lb ->
  answers s = init :: frames ->
  response_code init = GSP_RESP_COMMAND_RESPONSE ->
  get_status_code init = StatusInt 200 ->
  receive_loop frames [] 0 = (f, l, q', stop) ->
  stop <> LoopRaised ->
  exists s',
    fetch_data log_id out s
    = (inr (FetchDone (fetch_filename log_id out (device_name s)) l log_id), s')
    /\ fs_get (files s') (fetch_filename log_id out (device_name s)) = Some f
    /\ response_queue s' = q'
    /\ written (client s') = written (client s) ++ [[GSP_CMD_FETCH_LOG; 101] ++ lb]
    /\ logs s'
       = logs s ++ handler_errors (hello_ref s) (hd [] (script (client s)))
           ++ stop_records stop
    /\ client s' = client (wrote ([GSP_CMD_FETCH_LOG; 101] ++ lb) s)
    /\ is_connected s' = true
    /\ end_of_serial s' = end_of_serial s
    /\ device_name s' = device_name s
    /\ hello_ref s' = hello_ref s.
Proof.
  intros Hc Hlb Hans Hrc Hst Hloop Hstop.
  unfold fetch_data, bind at 1, gets at 1. rewrite Hlb.
  unfold try_except, bind at 1.
  rewrite (send_command_connected _ s Hc), Hans, Hrc, N.eqb_refl.
  cbn [negb]. rewrite Hst. cbn [status_is N.eqb Pos.eqb negb].
  unfold bind at 1, gets.
  change (response_queue (set_queue frames (wrote ([GSP_CMD_FETCH_LOG; 101] ++ lb) s)))
    with frames.
  rewrite Hloop.
  set (s1 := wrote ([GSP_CMD_FETCH_LOG; 101] ++ lb) s).
  assert (Hw : written (client s1) = written (client s) ++ [[GSP_CMD_FETCH_LOG; 101] ++ lb])
    by apply client_wrote.
  assert (Hfs : forall fs0 p c, fs_get (fs_set fs0 p c) p = Some c).
  { intros. unfold fs_set. cbn [fs_get]. now rewrite String.eqb_refl. }
  assert (Hl1 : logs s1
                = logs s ++ handler_errors (hello_ref s) (hd [] (script (client s))))
    by apply logs_wrote.
  destruct stop; try congruence;
    (eexists; split; [reflexivity|]);
    (split; [apply Hfs|]); (split; [reflexivity|]);
    (split; [exact Hw|]);
    (split; [|repeat split; assumption]).
  - cbn [stop_records]. rewrite app_nil_r. exact Hl1.
  - cbn [stop_records]. rewrite app_assoc, <- Hl1. reflexivity.
  - cbn [stop_records]. rewrite app_assoc, <- Hl1. reflexivity.
Qed.

(** ** The fetched file *)

(** C1, as amended.  When FETCH_LOG is answered with status 200 the fetch
    succeeds; the file's length is the highest [offset + len] among the
    non-empty placements of the frames the loop consumed, every byte is the
    one most recently placed there (zero where nothing was placed), and
    the reported size is the offset word of the last data frame consumed
    (zero when there was none). *)
Theorem fetch_file_extent_and_size
        (s : Sensor) (log_id : N) (out : option string) (lb : bytes)
        (init : Response) (frames : list Response) :
  is_connected s = true ->
  Py.to_bytes_little 4 log_id = Some lb ->
  answers s = init :: frames ->
  response_code init = GSP_RESP_COMMAND_RESPONSE ->
  get_status_code init = StatusInt 200 ->
  let ws := placements (consumed frames) in
  let filename := fetch_filename log_id out (device_name s) in
  exists s' content,
    fetch_data log_id out s
    = (inr (FetchDone filename (last (offsets_seen (consumed frames)) 0) log_id), s')
    /\ fs_get (files s') filename = Some content
    /\ N.of_nat (List.length content) = extent ws
    /\ forall i : nat,
         nth i content 0 =
           match last_written ws i with
           | Some b => b
           | None => 0
           end.
Proof.
  intros Hc Hlb Hans Hrc Hst ws filename.
  destruct (receive_loop_placements frames [] 0) as (stop & Hloop & Hstop & _).
  destruct (@fetch_data_streams s log_id out lb init frames _ _ _ _
              Hc Hlb Hans Hrc Hst Hloop Hstop)
    as (s' & Hres & Hfile & _).
  exists s', (apply_writes [] ws). split; [exact Hres|]. split; [exact Hfile|].
  split.
  - rewrite length_apply_writes. apply N.max_r. apply N.le_0_l.
  - intros i. rewrite nth_apply_writes.
    destruct (last_written ws i); [reflexivity|]. now destruct i.
Qed.

Lemma fetch_file_extent_and_size_witness :
  exists s' content,
    fetch_data 1 None (session [[fetch_ok; test_data; end_marker]])
    = (inr (FetchDone "log_1_Movesense 000455.sbem" 9 1), s')
    /\ fs_get (files s') "log_1_Movesense 000455.sbem" = Some content
    /\ N.of_nat (List.length content) = 10
    /\ forall i : nat,
         nth i content 0 =
           match last_written [(0, Py.encode "test data" ++ [0])] i with
           | Some b => b
           | None => 0
           end.
Proof.
  exact (@fetch_file_extent_and_size
           (session [[fetch_ok; test_data; end_marker]]) 1 None [1; 0; 0; 0]
           (mkResponse 1 101 fetch_ok (Some (StatusInt 200)) (Some []) None)
           (deliver None [test_data; end_marker])
           eq_refl eq_refl eq_refl eq_refl eq_refl).
Defined.

(** C1 as stated fails on the exchange of the unit tests: the file holds
    ten bytes, which is the highest [offset + len] seen, but the size
    reported is 9, the offset word of the end marker. *)
Lemma reported_size_is_not_the_extent :
  exists s' content,
    fetch_data 1 None (session [[fetch_ok; test_data; end_marker]])
    = (inr (FetchDone "log_1_Movesense 000455.sbem" 9 1), s')
    /\ fs_get (files s') "log_1_Movesense 000455.sbem" = Some content
    /\ List.length content = 10%nat
    /\ extent (placements (deliver None [test_data; end_marker])) = 10
    /\ 9 <> 10.
Proof.
  do 2 eexists. split; [vm_compute; reflexivity|].
  split; [vm_compute; reflexivity|].
  split; [reflexivity|]. split; [reflexivity|]. discriminate.
Qed.

(** ** A stream that runs dry *)

Lemma consumed_all (q : list Response) :
  existsb ends_stream q = false -> consumed q = q.
Proof.
  induction q as [|r q IH]; [reflexivity|].
  cbn [existsb consumed]. intros H. apply orb_false_iff in H as [Hr Hq].
  rewrite Hr. now rewrite IH.
Qed.

(** C4, as amended.  When the frames stop coming before any frame ends the
    stream, the 30 s wait times out and the fetch still returns a success:
    the file keeps every placement received, the size is the last offset
    word seen, and a warning (not an error) is logged.  The only records
    ahead of that warning are the handler's, one error for each
    notification of the burst it could not parse. *)
Theorem fetch_timeout_reports_partial_transfer
        (s : Sensor) (log_id : N) (out : option string) (lb : bytes)
        (init : Response) (frames : list Response) :
  is_connected s = true ->
  Py.to_bytes_little 4 log_id = Some lb ->
  answers s = init :: frames ->
  response_code init = GSP_RESP_COMMAND_RESPONSE ->
  get_status_code init = StatusInt 200 ->
  existsb ends_stream frames = false ->
  let filename := fetch_filename log_id out (device_name s) in
  exists s',
    fetch_data log_id out s
    = (inr (FetchDone filename (last (offsets_seen frames) 0) log_id), s')
    /\ fetch_success (FetchDone filename (last (offsets_seen frames) 0) log_id) = true
    /\ fs_get (files s') filename = Some (apply_writes [] (placements frames))
    /\ response_queue s' = []
    /\ logs s'
       = logs s ++ handler_errors (hello_ref s) (hd [] (script (client s)))
           ++ [(WARNING, "Data fetch timeout"%string)].
Proof.
  intros Hc Hlb Hans Hrc Hst Hdry filename.
  destruct (receive_loop_placements frames [] 0) as (stop & Hloop & Hstop & Hto).
  assert (Hstop' : stop = DataFetchTimeout) by now apply Hto.
  destruct (@fetch_data_streams s log_id out lb init frames _ _ _ _
              Hc Hlb Hans Hrc Hst Hloop Hstop)
    as (s' & Hres & Hfile & Hq & _ & Hlog & _).
  rewrite (consumed_all frames Hdry) in Hres, Hfile, Hq.
  exists s'. split; [exact Hres|]. split; [reflexivity|].
  split; [exact Hfile|]. split.
  - rewrite Hq. apply skipn_all.
  - rewrite Hlog, Hstop'. reflexivity.
Qed.

Lemma fetch_timeout_reports_partial_transfer_witness :
  (exists s',
     fetch_data 1 None (session [[fetch_ok; test_data]])
     = (inr (FetchDone "log_1_Movesense 000455.sbem" 0 1), s')
     /\ fetch_success (FetchDone "log_1_Movesense 000455.sbem" 0 1) = true
     /\ fs_get (files s') "log_1_Movesense 000455.sbem"
        = Some (Py.encode "test data" ++ [0])
     /\ response_queue s' = []
     /\ logs s' = [(WARNING, "Data fetch timeout"%string)])
  /\ (exists s',
        fetch_data 1 None (session [[fetch_ok; [2]; test_data]])
        = (inr (FetchDone "log_1_Movesense 000455.sbem" 0 1), s')
        /\ fetch_success (FetchDone "log_1_Movesense 000455.sbem" 0 1) = true
        /\ fs_get (files s') "log_1_Movesense 000455.sbem"
           = Some (Py.encode "test data" ++ [0])
        /\ response_queue s' = []
        /\ logs s' = [(ERROR, "Error handling notification:"%string);
                      (WARNING, "Data fetch timeout"%string)]).
Proof.
  split.
  - exact (@fetch_timeout_reports_partial_transfer
             (session [[fetch_ok; test_data]]) 1 None [1; 0; 0; 0]
             (mkResponse 1 101 fetch_ok (Some (StatusInt 200)) (Some []) None)
             (deliver None [test_data])
             eq_refl eq_refl eq_refl eq_refl eq_refl eq_refl).
  - exact (@fetch_timeout_reports_partial_transfer
             (session [[fetch_ok; [2]; test_data]]) 1 None [1; 0; 0; 0]
             (mkResponse 1 101 fetch_ok (Some (StatusInt 200)) (Some []) None)
             (deliver None [test_data])
             eq_refl eq_refl eq_refl eq_refl eq_refl eq_refl).
Defined.

(** C4 as stated fails: with the end marker missing the fetch does not end
    in an error; it returns success and logs a warning. *)
Lemma fetch_timeout_is_a_success :
  exists s' r,
    fetch_data 1 None (session [[fetch_ok; test_data]]) = (inr r, s')
    /\ fetch_success r = true
    /\ logs s' = [(WARNING, "Data fetch timeout"%string)].
Proof.
  do 2 eexists. split; [vm_compute; reflexivity|]. split; reflexivity.
Qed.

(** ** Frames and the command response, by order of arrival *)

(** C2, as amended.  The queue is emptied just before the command is
    written, and whatever arrives afterwards is queued.  When a data frame
    arrives ahead of the command response, [fetch_data] takes it for the
    response and returns the unexpected-response failure: nothing is
    written and the frame is gone.  When the command response comes first
    with status 200, the frames behind it reach the file in order. *)
Theorem frames_follow_the_response
        (s : Sensor) (log_id : N) (out : option string) (lb : bytes)
        (first : Response) (rest : list Response) :
  is_connected s = true ->
  Py.to_bytes_little 4 log_id = Some lb ->
  answers s = first :: rest ->
  (is_data first = true ->
   exists s',
     fetch_data log_id out s = (inr (FetchUnexpected (response_code first)), s')
     /\ files s' = files s
     /\ response_queue s' = rest)
  /\ (response_code first = GSP_RESP_COMMAND_RESPONSE ->
      get_status_code first = StatusInt 200 ->
      exists s',
        fetch_data log_id out s
        = (inr (FetchDone (fetch_filename log_id out (device_name s))
                          (last (offsets_seen (consumed rest)) 0) log_id), s')
        /\ fs_get (files s') (fetch_filename log_id out (device_name s))
           = Some (apply_writes [] (placements (consumed rest)))
        /\ response_queue s' = skipn (List.length (consumed rest)) rest).
Proof.
  intros Hc Hlb Hans. split.
  - intros Hd.
    assert (Hrc : (response_code first =? GSP_RESP_COMMAND_RESPONSE) = false).
    { unfold is_data in Hd. apply orb_true_iff in Hd as [H|H];
        apply N.eqb_eq in H; rewrite H; reflexivity. }
    unfold fetch_data, bind at 1, gets at 1. rewrite Hlb.
    unfold try_except, bind at 1.
    rewrite (send_command_connected _ s Hc), Hans, Hrc.
    eexists. split; [reflexivity|]. split; reflexivity.
  - intros Hrc Hst.
    destruct (receive_loop_placements rest [] 0) as (stop & Hloop & Hstop & _).
    destruct (@fetch_data_streams s log_id out lb first rest _ _ _ _
                Hc Hlb Hans Hrc Hst Hloop Hstop)
      as (s' & Hres & Hfile & Hq & _).
    exists s'. repeat split; assumption.
Qed.

Lemma frames_follow_the_response_witness :
  (exists s',
     fetch_data 1 None (session [[test_data; fetch_ok; end_marker]])
     = (inr (FetchUnexpected 2), s')
     /\ files s' = []
     /\ response_queue s' = deliver None [fetch_ok; end_marker])
  /\ (exists s',
        fetch_data 1 None (session [[fetch_ok; test_data; end_marker]])
        = (inr (FetchDone "log_1_Movesense 000455.sbem" 9 1), s')
        /\ fs_get (files s') "log_1_Movesense 000455.sbem"
           = Some (Py.encode "test data" ++ [0])
        /\ response_queue s' = []).
Proof.
  split.
  - exact (proj1 (@frames_follow_the_response
                    (session [[test_data; fetch_ok; end_marker]]) 1 None
                    [1; 0; 0; 0]
                    (mkResponse 2 101 test_data None None
                       (Some ([0; 0; 0; 0] ++ Py.encode "test data" ++ [0])))
                    (deliver None [fetch_ok; end_marker])
                    eq_refl eq_refl eq_refl) eq_refl).
  - exact (proj2 (@frames_follow_the_response
                    (session [[fetch_ok; test_data; end_marker]]) 1 None
                    [1; 0; 0; 0]
                    (mkResponse 1 101 fetch_ok (Some (StatusInt 200)) (Some []) None)
                    (deliver None [test_data; end_marker])
                    eq_refl eq_refl eq_refl) eq_refl eq_refl).
Defined.

(** C2 as stated fails: when the data frame of the unit tests' exchange
    arrives before the command response, the fetch fails and no file is
    written, so the frame's payload never reaches the sink. *)
Lemma early_data_frame_is_lost :
  exists s',
    fetch_data 1 None (session [[test_data; fetch_ok; end_marker]])
    = (inr (FetchUnexpected GSP_RESP_DATA), s')
    /\ fetch_success (FetchUnexpected GSP_RESP_DATA) = false
    /\ files s' = []
    /\ fs_get (files s') "log_1_Movesense 000455.sbem" = None.
Proof.
  eexists. split; [vm_compute; reflexivity|]. repeat split.
Qed.

(** ** Fetching past the last log *)

Import DataloggerTool.

Lemma to_bytes_little_fits (k : nat) : forall n : N,
  n < 256 ^ N.of_nat k ->
  exists b,
    Py.to_bytes_little k n = Some b
    /\ List.length b = k
    /\ Forall (fun x => x < 256) b
    /\ Py.from_bytes_little b = n.
Proof.
  induction k as [|k IH]; intros n Hn.
  - cbn in Hn. assert (n = 0) by lia. subst. exists []. repeat split. constructor.
  - rewrite Nat2N.inj_succ, N.pow_succ_r' in Hn.
    destruct (IH (n / 256)) as (b & Hb & Hlen & Hall & Hval).
    { apply N.Div0.div_lt_upper_bound. lia. }
    exists (n mod 256 :: b). cbn [Py.to_bytes_little]. rewrite Hb.
    repeat split.
    + cbn [List.length]. now rewrite Hlen.
    + constructor; [|exact Hall]. apply N.mod_lt. discriminate.
    + cbn [Py.from_bytes_little]. rewrite Hval.
      pose proof (N.Div0.div_mod n 256). lia.
Qed.

Lemma le32_to_bytes (k : N) :
  k < 2 ^ 32 -> Py.to_bytes_little 4 k = Some (le32 k).
Proof.
  intros Hk. unfold le32.
  now destruct (@to_bytes_little_fits 4 k Hk) as (b & -> & _).
Qed.

Lemma log_ids_cons (k : N) (n : nat) :
  log_ids k (S n) = k :: log_ids (k + 1) n.
Proof.
  unfold log_ids. cbn [seq map]. f_equal; [lia|].
  rewrite <- seq_shift, map_map. apply map_ext. intros i. lia.
Qed.

Lemma fetch_data_refused (s : Sensor) (log_id : N) (out : option string)
      (lb : bytes) (init : Response) (rest : list Response) (st : PyStatus) :
  is_connected s = true ->
  Py.to_bytes_little 4 log_id = Some lb ->
  answers s = init :: rest ->
  response_code init = GSP_RESP_COMMAND_RESPONSE ->
  get_status_code init = st ->
  status_is st 200 = false ->
  SensorCommand.fetch_data log_id out s
  = (inr (FetchStatus st), set_queue rest (wrote ([GSP_CMD_FETCH_LOG; 101] ++ lb) s)).
Proof.
  intros Hc Hlb Hans Hrc Hst H200.
  unfold SensorCommand.fetch_data, bind at 1, gets at 1. rewrite Hlb.
  unfold try_except, bind at 1.
  rewrite (send_command_connected _ s Hc), Hans, Hrc, N.eqb_refl.
  cbn [negb]. rewrite Hst, H200. reflexivity.
Qed.

Lemma fetch_loop_refused (fuel : nat) (serial : string) (dir : option string)
      (s : Sensor) (log_id : N) (fetched : list string)
      (lb : bytes) (init : Response) (rest : list Response) (st : PyStatus) :
  is_connected s = true ->
  Py.to_bytes_little 4 log_id = Some lb ->
  answers s = init :: rest ->
  response_code init = GSP_RESP_COMMAND_RESPONSE ->
  get_status_code init = st ->
  status_is st 200 = false ->
  exists s',
    fetch_loop (S fuel) serial dir log_id fetched s = (inr (Some fetched), s')
    /\ is_connected s' = true
    /\ end_of_serial s' = end_of_serial s
    /\ hello_ref s' = hello_ref s
    /\ response_queue s' = rest
    /\ client s' = client (wrote ([GSP_CMD_FETCH_LOG; 101] ++ lb) s)
    /\ files s' = files s
    /\ logs s'
       = logs s ++ handler_errors (hello_ref s) (hd [] (script (client s)))
           ++ (if status_is st 404 then [] else [refusal_record st])
    /\ device_name s' = device_name s.
Proof.
  intros Hc Hlb Hans Hrc Hst H200.
  cbn [fetch_loop]. unfold bind at 1.
  rewrite (@fetch_data_refused s log_id _ lb init rest st Hc Hlb Hans Hrc Hst H200).
  cbn [fetch_status_code].
  pose proof (logs_wrote ([GSP_CMD_FETCH_LOG; 101] ++ lb) s) as Hl.
  destruct (status_is st 404); cbn [negb].
  - eexists. split; [reflexivity|].
    repeat split; try assumption. rewrite app_nil_r. exact Hl.
  - eexists. split; [reflexivity|].
    repeat split; try assumption.
    rewrite app_assoc, <- Hl. reflexivity.
Qed.


(** *** The fleet loop, burst by burst *)

Lemma accepts_answers (s : Sensor) :
  accepts (hello_ref s) (hd [] (script (client s))) = true ->
  exists init frames,
    answers s = init :: frames
    /\ response_code init = GSP_RESP_COMMAND_RESPONSE
    /\ get_status_code init = StatusInt 200.
Proof.
  unfold accepts, answers.
  destruct (deliver (hello_ref s) (hd [] (script (client s)))) as [|init frames];
    [discriminate|].
  intros H. apply andb_true_iff in H as [Hrc Hst].
  exists init, frames. split; [reflexivity|]. split; [now apply N.eqb_eq|].
  destruct (get_status_code init) as [|c]; [discriminate|].
  simpl in Hst. apply N.eqb_eq in Hst. now subst.
Qed.

(** A fetch on a burst that lets it through. *)
Lemma fetch_data_accepted (s : Sensor) (log_id : N) (out : option string) :
  is_connected s = true ->
  log_id < 2 ^ 32 ->
  accepts (hello_ref s) (hd [] (script (client s))) = true ->
  exists sz s',
    SensorCommand.fetch_data log_id out s
    = (inr (FetchDone (fetch_filename log_id out (device_name s)) sz log_id), s')
    /\ client s' = client (wrote (fetch_command_bytes log_id) s)
    /\ is_connected s' = true
    /\ end_of_serial s' = end_of_serial s
    /\ device_name s' = device_name s
    /\ hello_ref s' = hello_ref s
    /\ logs s'
       = logs s ++ fetch_records (hello_ref s) (hd [] (script (client s))).
Proof.
  intros Hc Hk Hacc.
  destruct (accepts_answers s Hacc) as (init & frames & Hans & Hrc & Hst).
  destruct (receive_loop frames [] 0) as [[[f l] q'] stop] eqn:Hloop.
  assert (Hstop : stop <> LoopRaised).
  { destruct (receive_loop_placements frames [] 0) as (stop' & Hl' & Hs' & _).
    rewrite Hloop in Hl'. congruence. }
  destruct (@fetch_data_streams s log_id out (le32 log_id) init frames f l q' stop
              Hc (le32_to_bytes Hk) Hans Hrc Hst Hloop Hstop)
    as (s' & Hres & _ & _ & _ & Hlog & Hcl & Hc' & Hser & Hdev & Hh).
  exists l, s'. split; [exact Hres|]. split; [exact Hcl|].
  repeat (split; [assumption|]).
  rewrite Hlog. unfold fetch_records. do 2 f_equal.
  unfold answers in Hans. rewrite Hans. cbn [tl]. now rewrite Hloop.
Qed.

(** A fetch on any other burst ends the loop. *)
Lemma fetch_loop_stops (fuel : nat) (serial : string) (dir : option string)
      (s : Sensor) (k : N) (fetched : list string) :
  is_connected s = true ->
  k < 2 ^ 32 ->
  accepts (hello_ref s) (hd [] (script (client s))) = false ->
  exists s',
    fetch_loop (S fuel) serial dir k fetched s = (inr (Some fetched), s')
    /\ client s' = client (wrote (fetch_command_bytes k) s)
    /\ is_connected s' = true
    /\ end_of_serial s' = end_of_serial s
    /\ device_name s' = device_name s
    /\ hello_ref s' = hello_ref s.
Proof.
  intros Hc Hk Hacc.
  pose proof (le32_to_bytes Hk) as Hlb.
  unfold accepts in Hacc. fold (answers s) in Hacc.
  destruct (answers s) as [|init rest] eqn:Hans.
  - cbn [fetch_loop]. unfold bind at 1.
    unfold SensorCommand.fetch_data, bind at 1, gets at 1. rewrite Hlb.
    unfold try_except, bind at 1.
    rewrite (send_command_connected _ s Hc), Hans.
    eexists. split; [reflexivity|]. repeat split; assumption.
  - destruct (response_code init =? GSP_RESP_COMMAND_RESPONSE) eqn:Hrc.
    + cbn [andb] in Hacc. apply N.eqb_eq in Hrc.
      destruct (@fetch_loop_refused fuel serial dir s k fetched (le32 k) init rest
                  (get_status_code init) Hc Hlb Hans Hrc eq_refl Hacc)
        as (s' & Hloop & Hc' & Hser & Hh & _ & Hcl & _ & _ & Hdev).
      exists s'. split; [exact Hloop|]. split; [exact Hcl|].
      repeat split; assumption.
    + cbn [fetch_loop]. unfold bind at 1.
      unfold SensorCommand.fetch_data, bind at 1, gets at 1. rewrite Hlb.
      unfold try_except, bind at 1.
      rewrite (send_command_connected _ s Hc), Hans, Hrc.
      eexists. split; [reflexivity|]. repeat split; assumption.
Qed.

(** The loop over the bursts that let their fetch through. *)
Lemma fetch_loop_run (pre : list (list bytes)) :
  forall (fuel : nat) (serial : string) (dir : option string) (k : N)
         (fetched : list string) (s : Sensor) (rest : list (list bytes)),
    is_connected s = true ->
    script (client s) = pre ++ rest ->
    Forall (fun b => accepts (hello_ref s) b = true) pre ->
    k + N.of_nat (List.length pre) <= 2 ^ 32 ->
    exists s',
      fetch_loop (List.length pre + fuel) serial dir k fetched s
      = fetch_loop fuel serial dir (k + N.of_nat (List.length pre))
          (fetched ++ map (fleet_file_name dir serial (device_name s))
                          (log_ids k (List.length pre))) s'
      /\ is_connected s' = true
      /\ end_of_serial s' = end_of_serial s
      /\ device_name s' = device_name s
      /\ hello_ref s' = hello_ref s
      /\ script (client s') = rest
      /\ written (client s')
         = written (client s)
             ++ map fetch_command_bytes (log_ids k (List.length pre))
      /\ logs s' = logs s ++ flat_map (fetch_records (hello_ref s)) pre.
Proof.
  induction pre as [|b pre IH];
    intros fuel serial dir k fetched s rest Hc Hscr Hall Hk.
  - exists s. cbn [List.length Nat.add log_ids seq map flat_map].
    rewrite N.add_0_r, !app_nil_r. repeat split; try assumption.
  - cbn [List.length] in Hk |- *. rewrite Nat2N.inj_succ in Hk.
    inversion Hall as [|b' pre' Hb Hpre]; subst.
    assert (Hhd : hd [] (script (client s)) = b) by now rewrite Hscr.
    cbn [Nat.add fetch_loop]. unfold bind at 1.
    destruct (@fetch_data_accepted s k
                (option_map (fun d => log_path d k serial) dir) Hc ltac:(lia)
                ltac:(now rewrite Hhd))
      as (sz & s1 & Hres & Hcl & Hc1 & Hser & Hdev & Hh & Hlog).
    rewrite Hres.
    destruct (client_wrote (fetch_command_bytes k) s) as [Hw Hs].
    destruct (IH fuel serial dir (k + 1)
                (fetched ++ [fetch_filename k
                               (option_map (fun d => log_path d k serial) dir)
                               (device_name s)])
                s1 rest Hc1)
      as (s' & Hloop & Hc' & Hser' & Hdev' & Hh' & Hscr' & Hw' & Hlog').
    { rewrite Hcl, Hs, Hscr. reflexivity. }
    { now rewrite Hh. }
    { lia. }
    exists s'. rewrite Hloop.
    split; [|repeat split].
    + f_equal; [lia|]. rewrite log_ids_cons. cbn [map].
      rewrite <- app_assoc. cbn [app]. now rewrite Hdev.
    + exact Hc'.
    + congruence.
    + congruence.
    + congruence.
    + exact Hscr'.
    + rewrite Hw', Hcl, Hw, <- app_assoc. f_equal.
      now rewrite log_ids_cons.
    + rewrite Hlog', Hlog, Hh, Hhd, <- app_assoc. reflexivity.
Qed.

Lemma completed_split (hello : option N) (bursts : list (list bytes)) :
  exists pre rest,
    bursts = pre ++ rest
    /\ List.length pre = completed hello bursts
    /\ Forall (fun b => accepts hello b = true) pre
    /\ accepts hello (hd [] rest) = false.
Proof.
  induction bursts as [|b r (pre & rest & Hsplit & Hlen & Hall & Hnext)].
  - exists [], []. repeat split. constructor.
  - cbn [completed]. destruct (accepts hello b) eqn:Hb.
    + exists (b :: pre), rest. cbn [app List.length].
      repeat split; [congruence|congruence| |assumption].
      now constructor.
    + exists [], (b :: r). repeat split; [constructor|exact Hb].
Qed.

Lemma completed_app (hello : option N) (pre rest : list (list bytes)) :
  Forall (fun b => accepts hello b = true) pre ->
  accepts hello (hd [] rest) = false ->
  completed hello (pre ++ rest) = List.length pre.
Proof.
  induction 1 as [|b pre Hb _ IH]; intros Hnext.
  - destruct rest as [|x rest]; [reflexivity|].
    cbn [app completed]. cbn [hd] in Hnext. now rewrite Hnext.
  - cbn [app completed List.length]. rewrite Hb. now rewrite IH.
Qed.

(** A whole fetch session on a device that is found and connects: the
    fetches that go through, the one that ends the loop, the reset. *)
Lemma fetch_session_run (w : World) (serial : string)
      (args : option Namespace) (output_dir : option string)
      (pre rest : list (list bytes)) :
  present (devices w serial) = true ->
  connectable (devices w serial) = true ->
  script (devices w serial) = pre ++ rest ->
  Forall (fun b => accepts None b = true) pre ->
  accepts None (hd [] rest) = false ->
  N.of_nat (List.length pre) + 2 <= 2 ^ 32 ->
  exists s2,
    is_connected s2 = true
    /\ end_of_serial s2 = serial
    /\ hello_ref s2 = None
    /\ script (client s2) = tl rest
    /\ written (client s2)
       = written (devices w serial)
           ++ map fetch_command_bytes (log_ids 1 (S (List.length pre)))
    /\ DataloggerTool.fetch_data serial args output_dir w
       = match SensorCommand.set_system_mode 5 s2 with
         | (inl e, s3) => (inr (FleetFailed e), env s3)
         | (inr _, s3) =>
             (inr (FilesFetched
                     (map (fleet_file_name (fetch_dir args output_dir) serial
                             (name (devices w serial)))
                          (log_ids 1 (List.length pre)))), env s3)
         end
    /\ forall (init : Response) (q : list Response),
         deliver None (hd [] rest) = init :: q ->
         response_code init = GSP_RESP_COMMAND_RESPONSE ->
         logs s2
         = log w ++ flat_map (fetch_records None) pre
             ++ handler_errors None (hd [] rest)
             ++ (if status_is (get_status_code init) 404 then []
                 else [refusal_record (get_status_code init)]).
Proof.
  intros Hp Hcn Hscr Hall Hnext Hfit.
  unfold DataloggerTool.fetch_data, guarded, try_except, with_sensor.
  rewrite Hp, Hcn. cbn [negb]. unfold ret at 1.
  set (s0 := mkSensor serial (name (devices w serial)) true None [] w).
  fold (fetch_dir args output_dir).
  unfold bind at 1, gets at 1.
  change (client s0) with (devices w serial). rewrite Hscr.
  replace (S (List.length (pre ++ rest)))
    with (List.length pre + S (List.length rest))%nat
    by (rewrite length_app; lia).
  destruct (@fetch_loop_run pre (S (List.length rest)) serial
              (fetch_dir args output_dir) 1 [] s0 rest eq_refl Hscr Hall
              ltac:(lia))
    as (s1 & Hrun & Hc1 & Hser1 & Hdev1 & Hh1 & Hscr1 & Hw1 & Hlog1).
  unfold bind at 1. rewrite Hrun. cbn [app].
  assert (Hk : 1 + N.of_nat (List.length pre) < 2 ^ 32) by lia.
  assert (Hnext1 : accepts (hello_ref s1) (hd [] (script (client s1))) = false).
  { rewrite Hh1, Hscr1. exact Hnext. }
  destruct (@fetch_loop_stops (List.length rest) serial
              (fetch_dir args output_dir) s1 (1 + N.of_nat (List.length pre))
              (map (fleet_file_name (fetch_dir args output_dir) serial
                      (device_name s0))
                   (log_ids 1 (List.length pre)))
              Hc1 Hk Hnext1)
    as (s2 & Hstop & Hcl2 & Hc2 & Hser2 & Hdev2 & Hh2).
  rewrite Hstop.
  destruct (client_wrote (fetch_command_bytes (1 + N.of_nat (List.length pre))) s1)
    as [Hw Hs].
  exists s2.
  split; [exact Hc2|]. split; [rewrite Hser2, Hser1; reflexivity|].
  split; [rewrite Hh2, Hh1; reflexivity|].
  split; [now rewrite Hcl2, Hs, Hscr1|].
  split.
  { rewrite Hcl2, Hw, Hw1. change (client s0) with (devices w serial).
    rewrite <- app_assoc. f_equal.
    unfold log_ids. rewrite seq_S, !map_app. cbn [map Nat.add]. reflexivity. }
  split.
  { unfold bind at 1.
    destruct (SensorCommand.set_system_mode 5 s2) as [[e|r] s3]; reflexivity. }
  intros init q Hd Hrc.
  assert (Hans1 : answers s1 = init :: q).
  { unfold answers. rewrite Hh1, Hscr1. exact Hd. }
  assert (H200 : status_is (get_status_code init) 200 = false).
  { unfold accepts in Hnext. rewrite Hd, Hrc, N.eqb_refl in Hnext. exact Hnext. }
  destruct (@fetch_loop_refused (List.length rest) serial
              (fetch_dir args output_dir) s1 (1 + N.of_nat (List.length pre))
              (map (fleet_file_name (fetch_dir args output_dir) serial
                      (device_name s0))
                   (log_ids 1 (List.length pre)))
              (le32 (1 + N.of_nat (List.length pre))) init q
              (get_status_code init) Hc1 (le32_to_bytes Hk) Hans1 Hrc eq_refl H200)
    as (s2' & Hstop' & _ & _ & _ & _ & _ & _ & Hlog2 & _).
  assert (s2' = s2) by congruence. subst s2'.
  rewrite Hlog2, Hlog1, Hh1, Hscr1. change (logs s0) with (log w).
  change (hello_ref s0) with (@None N).
  now rewrite <- !app_assoc.
Qed.



(** The same exchange with status 401 instead: the fetch returns the
    failure, the loop logs it as an error and stops. *)
Example unauthorised_fetch_is_logged :
  exists w',
    DataloggerTool.fetch_data "000455" None None
      (bench [[[1; 101; 145; 1]]; [[1; 107; 200; 0]]])
    = (inr (FilesFetched []), w')
    /\ log w' = [(ERROR, "Status 401: FETCH_LOG command failed with status 401"%string)].
Proof.
  eexists. split; vm_compute; reflexivity.
Qed.

(** ** The fleet loop always leaves its [while True] *)

Lemma answers_need_script (s : Sensor) (r : Response) (q : list Response) :
  answers s = r :: q -> script (client s) <> [].
Proof.
  unfold answers. intros H Hs. rewrite Hs in H. discriminate.
Qed.

Lemma fetch_done_consumes (s s1 : Sensor) (log_id : N) (out : option string)
      (f : string) (sz l : N) :
  SensorCommand.fetch_data log_id out s = (inr (FetchDone f sz l), s1) ->
  (List.length (script (client s1)) < List.length (script (client s)))%nat.
Proof.
  intros H.
  destruct (Py.to_bytes_little 4 log_id) as [lb|] eqn:Hlb.
  2:{ unfold SensorCommand.fetch_data, bind at 1, gets at 1 in H.
      rewrite Hlb in H. discriminate. }
  destruct (is_connected s) eqn:Hc.
  - destruct (answers s) as [|init frames] eqn:Hans.
    + unfold SensorCommand.fetch_data, bind at 1, gets at 1 in H.
      rewrite Hlb in H. unfold try_except, bind at 1 in H.
      rewrite (send_command_connected _ s Hc), Hans in H. discriminate.
    + destruct (response_code init =? GSP_RESP_COMMAND_RESPONSE) eqn:Hrc.
      * apply N.eqb_eq in Hrc.
        destruct (status_is (get_status_code init) 200) eqn:H200.
        -- assert (Hst : get_status_code init = StatusInt 200).
           { destruct (get_status_code init) as [|c]; [discriminate|].
             simpl in H200. apply N.eqb_eq in H200. now subst. }
           destruct (receive_loop_placements frames [] 0)
             as (stop & Hloop & Hstop & _).
           destruct (@fetch_data_streams s log_id out lb init frames _ _ _ _
                       Hc Hlb Hans Hrc Hst Hloop Hstop)
             as (s' & Hres & _ & _ & _ & _ & Hcl & _).
           rewrite Hres in H. assert (Hs1 : s' = s1) by congruence. subst s1.
           rewrite Hcl.
           destruct (client_wrote ([GSP_CMD_FETCH_LOG; 101] ++ lb) s) as [_ Hs].
           rewrite Hs. pose proof (answers_need_script s Hans) as Hne.
           destruct (script (client s)); [congruence|]. simpl. lia.
        -- rewrite (@fetch_data_refused s log_id out lb init frames
                      (get_status_code init) Hc Hlb Hans Hrc eq_refl H200) in H.
           discriminate.
      * unfold SensorCommand.fetch_data, bind at 1, gets at 1 in H.
        rewrite Hlb in H. unfold try_except, bind at 1 in H.
        rewrite (send_command_connected _ s Hc), Hans, Hrc in H. discriminate.
  - unfold SensorCommand.fetch_data, bind at 1, gets at 1 in H.
    rewrite Hlb in H. unfold try_except, bind at 1 in H.
    rewrite (send_command_disconnected _ s Hc) in H. discriminate.
Qed.

Lemma fetch_loop_enough_fuel (fuel : nat) :
  forall (serial : string) (dir : option string) (log_id : N)
         (fetched : list string) (s s' : Sensor) (r : option (list string)),
    (List.length (script (client s)) < fuel)%nat ->
    fetch_loop fuel serial dir log_id fetched s = (inr r, s') ->
    r <> None.
Proof.
  induction fuel as [|fuel IH]; intros serial dir log_id fetched s s' r Hlen H.
  - lia.
  - cbn [fetch_loop] in H. unfold bind at 1 in H.
    destruct (SensorCommand.fetch_data log_id
                (option_map (fun d => log_path d log_id serial) dir) s)
      as [[e|res] s1] eqn:E; [discriminate|].
    destruct res as [rc|st|f sz l|e].
    + injection H as <- _. discriminate.
    + cbn [fetch_status_code] in H.
      destruct (negb (status_is st 404)); injection H as <- _; discriminate.
    + apply fetch_done_consumes in E.
      eapply IH; [|exact H]. lia.
    + injection H as <- _. discriminate.
Qed.

(** The tool's [fetch_data] always returns a dictionary, and the stand-in
    for a loop that never ends is not among its results. *)
Lemma fetch_data_returns (serial : string) (args : option Namespace)
      (output_dir : option string) (w : World) :
  exists r w',
    DataloggerTool.fetch_data serial args output_dir w = (inr r, w')
    /\ r <> Diverged.
Proof.
  unfold DataloggerTool.fetch_data, guarded, try_except, with_sensor.
  destruct (present (devices w serial)); cbn [negb].
  2:{ do 2 eexists. split; [reflexivity|discriminate]. }
  destruct (connectable (devices w serial)); cbn [negb].
  2:{ do 2 eexists. split; [reflexivity|discriminate]. }
  unfold ret at 1.
  set (s0 := mkSensor serial (name (devices w serial)) true None [] w).
  unfold bind at 1, gets at 1.
  match goal with
  | |- context [fetch_loop ?n ?sr ?dir 1 []] =>
      destruct (fetch_loop n sr dir 1 [] s0) as [[e|r] s1] eqn:E
  end.
  - unfold bind at 1. rewrite E. do 2 eexists. split; [reflexivity|discriminate].
  - unfold bind at 1. rewrite E.
    apply fetch_loop_enough_fuel in E; [|lia].
    destruct r as [fetched|]; [|congruence].
    unfold bind at 1.
    destruct (set_system_mode 5 s1) as [[e|res] s2];
      do 2 eexists; (split; [reflexivity|discriminate]).
Qed.

(** ** Configuring twice *)

(** C7.  [config -s 000455 000456 -p /Meas/ECG/200/mV]: both devices answer
    every command with status 200.  The first device is sent the path and
    one "/Time/Detailed"; the second is sent "/Time/Detailed" twice, because
    the first call appended to the argument list itself. *)
Theorem configure_again_appends_again :
  let args := mkArgs (Some Config) false (Some ["000455"; "000456"]%string)
                     (Some 0%nat) None false in
  let w := lab [[[1; 108; 200; 0]]; [[1; 102; 200; 0]]] []
               [["/Meas/ECG/200/mV"%string]] in
  let w' := snd (main args w) in
  let first := [GSP_CMD_PUT_DATALOGGER_CONFIG; 102]
                 ++ Py.encode "/Meas/ECG/200/mV" ++ [0]
                 ++ Py.encode "/Time/Detailed" ++ [0] in
  let second := first ++ Py.encode "/Time/Detailed" ++ [0] in
  fst (main args w) = Returned
  /\ nth 1 (written (devices w' "000455")) [] = first
  /\ nth 1 (written (devices w' "000456")) [] = second
  /\ first <> second
  /\ heap w' = [["/Meas/ECG/200/mV"; "/Time/Detailed"; "/Time/Detailed"]%string].
Proof.
  vm_compute. repeat split. discriminate.
Qed.

(** ** The exit status *)

Lemma one_pass_returns (command_func : string -> Namespace -> Prog PyRet)
      (args : Namespace) (serials : list string) :
  forall w, exists l w', one_pass command_func args serials w = (inr l, w').
Proof.
  induction serials as [|serial rest IH]; intros w.
  - do 2 eexists. reflexivity.
  - cbn [one_pass]. unfold bind at 1, try_except, bind at 1.
    destruct (command_func serial args w) as [[e|r] w1].
    + unfold bind at 1, modify, ret at 1.
      destruct (IH (world_log WARNING
                      ("Error executing command for device " ++ serial ++ ": "
                         ++ str_exc e) w1)) as (l & w2 & H).
      unfold bind at 1. rewrite H. do 2 eexists. reflexivity.
    + unfold ret at 1.
      destruct (IH w1) as (l & w2 & H).
      unfold bind at 1. rewrite H. do 2 eexists. reflexivity.
Qed.

Lemma passes_returns (command_func : string -> Namespace -> Prog PyRet)
      (args : Namespace) (left : nat) :
  forall serials w,
    exists l w', passes left command_func args serials w = (inr l, w').
Proof.
  induction left as [|left IH]; intros serials w.
  - do 2 eexists. reflexivity.
  - cbn [passes]. unfold bind.
    destruct (one_pass_returns command_func args serials w) as (l & w1 & H).
    rewrite H. destruct l as [|x l].
    + do 2 eexists. reflexivity.
    + apply IH.
Qed.

(** C9, as amended.  Once a command and a serial list are given, [main]
    runs to its end and the exit status is 0, whatever the devices did and
    whichever serials are still failing when the retries are used up. *)
Theorem exit_status_ignores_failures
        (args : Namespace) (c : Command) (serials : list string) (w : World) :
  command args = Some c ->
  serial_numbers args = Some serials ->
  fst (main args w) = Returned /\ exit_code (fst (main args w)) = 0.
Proof.
  intros Hc Hs. unfold main, all_sensors_command. rewrite Hc, Hs.
  destruct (passes_returns (commands c) args
              (S match c with Status => 0 | _ => 10 end) serials w)
    as (l & w' & H).
  rewrite H. split; reflexivity.
Qed.

Lemma exit_status_ignores_failures_witness :
  fst (main (mkArgs (Some Start) false (Some ["000455"%string]) None None false)
            nobody) = Returned
  /\ exit_code
       (fst (main (mkArgs (Some Start) false (Some ["000455"%string]) None None false)
                  nobody)) = 0.
Proof.
  exact (@exit_status_ignores_failures
           (mkArgs (Some Start) false (Some ["000455"%string]) None None false)
           Start ["000455"%string] nobody eq_refl eq_refl).
Defined.

(** C9 as stated fails: [start -s 000455] with no such device in range fails
    on each of its eleven passes, the serial is still on the failing list
    at the end, and the exit status is 0. *)
Lemma failed_start_exits_zero :
  let args := mkArgs (Some Start) false (Some ["000455"%string]) None None false in
  fst (all_sensors_command start_command args 10 nobody) = inr ["000455"%string]
  /\ exit_code (fst (main args nobody)) = 0.
Proof.
  split; vm_compute; reflexivity.
Qed.

(** Without a command the tool prints its help and exits with 1; without
    a serial list the loop's [list(None)] is not caught. *)
Lemma exit_status_without_work (args : Namespace) (c : Command) (w : World) :
  (command args = None -> exit_code (fst (main args w)) = 1)
  /\ (command args = Some c -> serial_numbers args = None ->
      fst (main args w) = Traceback TypeError
      /\ exit_code (fst (main args w)) = 1).
Proof.
  split.
  - intros H. unfold main. now rewrite H.
  - intros Hc Hs. unfold main, all_sensors_command. rewrite Hc, Hs.
    split; reflexivity.
Qed.

(** ** Answers to the erase prompt *)

Ltac all_chars c :=
  destruct c as [[] [] [] [] [] [] [] []].

Lemma lower_char_idem (c : ascii) : Py.lower_char (Py.lower_char c) = Py.lower_char c.
Proof. all_chars c; reflexivity. Qed.

Lemma lower_idem (s : string) : Py.lower (Py.lower s) = Py.lower s.
Proof.
  induction s as [|c s IH]; [reflexivity|].
  cbn [Py.lower]. now rewrite lower_char_idem, IH.
Qed.

Lemma lower_char_y (c : ascii) :
  Py.lower_char c = "y"%char -> c = "y"%char \/ c = "Y"%char.
Proof. all_chars c; vm_compute; intros H; try discriminate H; auto. Qed.

Lemma lower_char_e (c : ascii) :
  Py.lower_char c = "e"%char -> c = "e"%char \/ c = "E"%char.
Proof. all_chars c; vm_compute; intros H; try discriminate H; auto. Qed.

Lemma lower_char_s (c : ascii) :
  Py.lower_char c = "s"%char -> c = "s"%char \/ c = "S"%char.
Proof. all_chars c; vm_compute; intros H; try discriminate H; auto. Qed.

Lemma lower_yes_spelling (core : string) :
  Py.lower core = "yes"%string \/ Py.lower core = "y"%string ->
  In core yes_spellings.
Proof.
  intros [H|H].
  - destruct core as [|c1 [|c2 [|c3 [|c4 r]]]]; try discriminate H.
    cbn [Py.lower] in H. injection H as H1 H2 H3.
    apply lower_char_y in H1. apply lower_char_e in H2. apply lower_char_s in H3.
    destruct H1, H2, H3; subst; simpl; tauto.
  - destruct core as [|c1 [|c2 r]]; try discriminate H.
    cbn [Py.lower] in H. injection H as H1.
    apply lower_char_y in H1. destruct H1; subst; simpl; tauto.
Qed.

Lemma lstrip_spec (s : string) :
  exists l : string, s = (l ++ Py.lstrip s)%string /\ blank l = true.
Proof.
  induction s as [|c s (l & Hl & Hb)].
  - exists EmptyString. split; reflexivity.
  - cbn [Py.lstrip]. destruct (Py.isspace c) eqn:Hc.
    + exists (String c l). split.
      * cbn [String.append]. now rewrite <- Hl.
      * cbn [blank]. now rewrite Hc, Hb.
    + exists EmptyString. split; reflexivity.
Qed.

Lemma rstrip_spec (s : string) :
  exists r : string, s = (Py.rstrip s ++ r)%string /\ blank r = true.
Proof.
  induction s as [|c s (r & Hr & Hb)].
  - exists EmptyString. split; reflexivity.
  - cbn [Py.rstrip]. destruct (Py.rstrip s) as [|c' s'] eqn:Hs.
    + destruct (Py.isspace c) eqn:Hc.
      * exists (String c s). split; [reflexivity|].
        cbn [blank]. rewrite Hc. cbn [String.append] in Hr. now rewrite Hr.
      * exists s. split; [reflexivity|].
        cbn [String.append] in Hr. now rewrite Hr.
    + exists r. split; [|exact Hb].
      cbn [String.append] in *. now rewrite <- Hr.
Qed.

Lemma confirmed_accepted (answer : string) :
  confirmed answer = true -> accepted answer.
Proof.
  unfold confirmed. rewrite lower_idem. intros H.
  apply orb_true_iff in H.
  assert (Hl : Py.lower (Py.strip answer) = "yes"%string
               \/ Py.lower (Py.strip answer) = "y"%string).
  { destruct H as [H|H]; apply String.eqb_eq in H; auto. }
  apply lower_yes_spelling in Hl.
  destruct (lstrip_spec answer) as (l & Hal & Hbl).
  destruct (rstrip_spec (Py.lstrip answer)) as (r & Har & Hbr).
  exists l, (Py.strip answer), r. repeat split; try assumption.
  unfold Py.strip. now rewrite <- Har.
Qed.

Lemma lstrip_blank (l s : string) :
  blank l = true -> Py.lstrip (l ++ s) = Py.lstrip s.
Proof.
  induction l as [|c l IH]; [reflexivity|].
  cbn [blank String.append Py.lstrip]. intros H.
  apply andb_true_iff in H as [Hc Hl]. rewrite Hc. now apply IH.
Qed.

Lemma rstrip_blank (r : string) : blank r = true -> Py.rstrip r = EmptyString.
Proof.
  induction r as [|c r IH]; [reflexivity|].
  cbn [blank Py.rstrip]. intros H.
  apply andb_true_iff in H as [Hc Hr]. now rewrite IH, Hc.
Qed.

Lemma lstrip_nonspace (c : ascii) (s : string) :
  Py.isspace c = false -> Py.lstrip (String c s) = String c s.
Proof. intros H. cbn [Py.lstrip]. now rewrite H. Qed.

Lemma rstrip_nonspace (c : ascii) (s : string) :
  Py.isspace c = false -> Py.rstrip (String c s) = String c (Py.rstrip s).
Proof.
  intros H. cbn [Py.rstrip]. destruct (Py.rstrip s); [now rewrite H|reflexivity].
Qed.

Lemma accepted_confirmed (answer : string) :
  accepted answer -> confirmed answer = true.
Proof.
  intros (l & core & r & -> & Hl & Hr & Hin).
  unfold confirmed, Py.strip. rewrite (@lstrip_blank l (core ++ r) Hl).
  pose proof (@rstrip_blank r Hr) as Hrs.
  cbn [yes_spellings In] in Hin.
  repeat (destruct Hin as [<- | Hin];
          [cbn [String.append];
           rewrite lstrip_nonspace by reflexivity;
           rewrite !rstrip_nonspace by reflexivity;
           rewrite Hrs; reflexivity|]).
  contradiction.
Qed.

Lemma no_is_not_accepted : ~ accepted "no".
Proof. intros H. apply accepted_confirmed in H. discriminate H. Qed.

(** ** Erasing with and without confirmation *)

Lemma declined_erase (serial : string) (args : Namespace) (w : World)
      (answer : string) (rest : list string) :
  force args = false ->
  stdin w = answer :: rest ->
  confirmed answer = false ->
  erasemem_command serial args w = (inr (Some true), set_stdin rest w).
Proof.
  intros Hf Hin Hno. unfold erasemem_command. rewrite Hf. cbn [negb].
  unfold bind at 1, input. rewrite Hin, Hno. reflexivity.
Qed.

(** C8.  Without [--force], an answer that is not "yes" or "y" (in any
    case, between blanks) ends the command at once: the result is [True],
    one line of input is used up and nothing is written to any device.  So
    whenever something was written to a device, the answer was one of
    those. *)
Theorem erase_only_when_confirmed
        (serial : string) (args : Namespace) (w : World)
        (answer : string) (rest : list string) :
  force args = false ->
  stdin w = answer :: rest ->
  (~ accepted answer ->
   erasemem_command serial args w = (inr (Some true), set_stdin rest w)
   /\ forall k, written (devices (snd (erasemem_command serial args w)) k)
                = written (devices w k))
  /\ (forall k,
        written (devices (snd (erasemem_command serial args w)) k)
        <> written (devices w k) ->
        accepted answer).
Proof.
  intros Hf Hin.
  destruct (confirmed answer) eqn:Hc.
  - apply confirmed_accepted in Hc. split.
    + intros Hn. contradiction.
    + intros k _. exact Hc.
  - pose proof (@declined_erase serial args w answer rest Hf Hin Hc) as He. split.
    + intros _. split; [exact He|]. intros k. now rewrite He.
    + intros k Hk. rewrite He in Hk. now contradiction Hk.
Qed.

Lemma erase_only_when_confirmed_witness :
  let args := mkArgs (Some Erasemem) false (Some ["000455"%string]) None None false in
  let w := lab [[[1; 106; 200; 0]]] ["no"%string] [] in
  erasemem_command "000455" args w = (inr (Some true), set_stdin [] w)
  /\ forall k, written (devices (snd (erasemem_command "000455" args w)) k)
               = written (devices w k).
Proof.
  exact (proj1 (@erase_only_when_confirmed "000455"
                  (mkArgs (Some Erasemem) false (Some ["000455"%string])
                          None None false)
                  (lab [[[1; 106; 200; 0]]] ["no"%string] []) "no" []
                  eq_refl eq_refl)
               no_is_not_accepted).
Defined.

(** Two runs on the bench: " YES " erases, "no" does not. *)
Example erase_after_yes :
  let args := mkArgs (Some Erasemem) false (Some ["000455"%string]) None None false in
  let w := lab [[[1; 106; 200; 0]]] [" YES "%string] [] in
  fst (erasemem_command "000455" args w) = inr (Some true)
  /\ written (devices (snd (erasemem_command "000455" args w)) "000455")
     = [[GSP_CMD_CLEAR_LOGBOOK; 106]].
Proof. split; vm_compute; reflexivity. Qed.

Example no_erase_after_no :
  let args := mkArgs (Some Erasemem) false (Some ["000455"%string]) None None false in
  let w := lab [[[1; 106; 200; 0]]] ["no"%string] [] in
  fst (erasemem_command "000455" args w) = inr (Some true)
  /\ written (devices (snd (erasemem_command "000455" args w)) "000455") = [].
Proof. split; vm_compute; reflexivity. Qed.

(** With standard input at its end the prompt raises and nothing is sent. *)
Lemma erase_prompt_at_eof (serial : string) (args : Namespace) (w : World) :
  force args = false ->
  stdin w = [] ->
  erasemem_command serial args w = (inl EOFError, w).
Proof.
  intros Hf Hin. unfold erasemem_command. rewrite Hf. cbn [negb].
  unfold bind at 1, input. now rewrite Hin.
Qed.

(** ** A declined erase is not retried *)










(** The same run on the bench: the first serial is still failing after
    eleven passes, and the erase command reached its device once. *)
Example mixed_erase_run :
  let args := mkArgs (Some Erasemem) false (Some ["000455"; "000456"]%string)
                     None None false in
  let w := lab [] ["yes"; "no"]%string [] in
  fst (all_sensors_command erasemem_command args 10 w) = inr ["000455"%string]
  /\ written (devices (snd (all_sensors_command erasemem_command args 10 w))
                      "000456")
     = [].
Proof. split; vm_compute; reflexivity. Qed.

(** * Further properties of the code *)

(** ** Integers on the wire *)

Lemma to_bytes_little_overflow (k : nat) : forall n : N,
  256 ^ N.of_nat k <= n -> Py.to_bytes_little k n = None.
Proof.
  induction k as [|k IH]; intros n Hn.
  - cbn in Hn. cbn [Py.to_bytes_little].
    destruct (N.eqb_spec n 0); [lia|reflexivity].
  - rewrite Nat2N.inj_succ, N.pow_succ_r' in Hn.
    cbn [Py.to_bytes_little]. rewrite IH; [reflexivity|].
    apply N.div_le_lower_bound; lia.
Qed.

Lemma from_bytes_little_bound (b : bytes) :
  Forall (fun x => x < 256) b ->
  Py.from_bytes_little b < 256 ^ N.of_nat (List.length b).
Proof.
  induction 1 as [|x b Hx _ IH].
  - cbn. lia.
  - cbn [Py.from_bytes_little List.length].
    rewrite Nat2N.inj_succ, N.pow_succ_r'. cbv beta in Hx.
    generalize dependent (256 ^ N.of_nat (List.length b)). intros P IH. lia.
Qed.

Lemma get_binary_none (k : nat) : forall (a : bytes) (i : nat),
  (0 < k)%nat ->
  (List.length a < i + k)%nat -> DataView.get_binary a i k = None.
Proof.
  induction k as [|k IH]; intros a i Hk Hlen; [lia|].
  cbn [DataView.get_binary].
  destruct (nth_error a i) eqn:Hn; [|reflexivity].
  destruct k as [|k'].
  - assert (i < List.length a)%nat by (apply nth_error_Some; congruence). lia.
  - rewrite IH by lia. reflexivity.
Qed.

Lemma skipn_app_firstn_exact (A : Type) (b rest : list A) (k : nat) :
  List.length b = k -> firstn k (b ++ rest) = b.
Proof.
  intros <-. rewrite firstn_app, Nat.sub_diag, firstn_all. cbn.
  apply app_nil_r.
Qed.

(** X1.  A log id below 2^32 is written as four bytes, each below 256, and
    [DataView.get_uint_32] reads the same number back from them, whatever
    follows. *)
Theorem log_id_round_trip (log_id : N) (rest : bytes) :
  log_id < 2 ^ 32 ->
  exists b,
    Py.to_bytes_little 4 log_id = Some b
    /\ List.length b = 4%nat
    /\ Forall (fun x => x < 256) b
    /\ DataView.get_uint_32 (b ++ rest) 0 = Some log_id.
Proof.
  intros Hn.
  destruct (@to_bytes_little_fits 4 log_id) as (b & Hb & Hlen & Hall & Hval).
  { exact Hn. }
  exists b. repeat split; try assumption.
  unfold DataView.get_uint_32.
  rewrite get_binary_firstn by (rewrite length_app; lia).
  cbn [skipn option_map]. now rewrite (@skipn_app_firstn_exact N b rest 4 Hlen), Hval.
Qed.

Lemma log_id_round_trip_witness :
  exists b,
    Py.to_bytes_little 4 258 = Some b
    /\ List.length b = 4%nat
    /\ Forall (fun x => x < 256) b
    /\ DataView.get_uint_32 (b ++ [7; 7]) 0 = Some 258.
Proof.
  exact (@log_id_round_trip 258 [7; 7] eq_refl).
Defined.

(** X2.  [to_bytes] overflows exactly when the number needs more bytes than
    asked for: a log id from 2^32 on, a time from 2^64 on. *)
Theorem to_bytes_overflows_iff_too_big (k : nat) (n : N) :
  Py.to_bytes_little k n = None <-> 256 ^ N.of_nat k <= n.
Proof.
  split.
  - intros H. destruct (N.lt_ge_cases n (256 ^ N.of_nat k)) as [Hlt|Hge]; [|exact Hge].
    destruct (@to_bytes_little_fits k n Hlt) as (b & Hb & _). congruence.
  - apply to_bytes_little_overflow.
Qed.

(** X3.  The three integer readers of [DataView] fail (IndexError) exactly
    when the bytes asked for do not all lie inside the array. *)
Theorem dataview_reads_inside_the_array (a : bytes) (i : nat) :
  (DataView.get_uint_8 a i = None <-> (List.length a < i + 1)%nat)
  /\ (DataView.get_uint_16 a i = None <-> (List.length a < i + 2)%nat)
  /\ (DataView.get_uint_32 a i = None <-> (List.length a < i + 4)%nat).
Proof.
  assert (H : forall k, (0 < k)%nat ->
            option_map Py.from_bytes_little (DataView.get_binary a i k) = None
            <-> (List.length a < i + k)%nat).
  { intros k Hk. split.
    - intros Hn. destruct (Nat.lt_ge_cases (List.length a) (i + k)) as [Hlt|Hge];
        [exact Hlt|].
      rewrite get_binary_firstn in Hn by lia. discriminate.
    - intros Hlt. now rewrite get_binary_none. }
  repeat split; apply H; lia.
Qed.

(** X4.  Inside an array of bytes, [get_uint_16] and [get_uint_32] are the
    little-endian values of the bytes at the index, below 2^16 and 2^32. *)
Theorem dataview_values_are_little_endian (a : bytes) (i : nat) :
  Forall (fun x => x < 256) a ->
  (i + 4 <= List.length a)%nat ->
  DataView.get_uint_16 a i = Some (nth i a 0 + 256 * nth (i + 1) a 0)
  /\ nth i a 0 + 256 * nth (i + 1) a 0 < 2 ^ 16
  /\ DataView.get_uint_32 a i
     = Some (nth i a 0 + 256 * nth (i + 1) a 0 + 65536 * nth (i + 2) a 0
             + 16777216 * nth (i + 3) a 0)
  /\ nth i a 0 + 256 * nth (i + 1) a 0 + 65536 * nth (i + 2) a 0
     + 16777216 * nth (i + 3) a 0 < 2 ^ 32.
Proof.
  intros Hall Hlen.
  assert (Hb : forall j, nth j a 0 < 256).
  { intros j. destruct (Nat.lt_ge_cases j (List.length a)) as [Hj|Hj].
    - rewrite Forall_forall in Hall. apply Hall. now apply nth_In.
    - rewrite nth_overflow by exact Hj. reflexivity. }
  assert (Hn : forall j, (j < List.length a)%nat -> nth_error a j = Some (nth j a 0)).
  { intros j Hj. now apply nth_error_nth'. }
  pose proof (Hb i) as H0. pose proof (Hb (i + 1)%nat) as H1.
  pose proof (Hb (i + 2)%nat) as H2. pose proof (Hb (i + 3)%nat) as H3.
  unfold DataView.get_uint_16, DataView.get_uint_32.
  cbn [DataView.get_binary].
  rewrite (Hn i) by lia.
  replace (S i) with (i + 1)%nat by lia. rewrite (Hn (i + 1)%nat) by lia.
  replace (S (i + 1)) with (i + 2)%nat by lia. rewrite (Hn (i + 2)%nat) by lia.
  replace (S (i + 2)) with (i + 3)%nat by lia. rewrite (Hn (i + 3)%nat) by lia.
  cbn [option_map Py.from_bytes_little].
  change (2 ^ 16) with 65536. change (2 ^ 32) with 4294967296.
  repeat split; try (f_equal; lia); lia.
Qed.

Lemma dataview_values_are_little_endian_witness :
  DataView.get_uint_16 [1; 2; 3; 4; 5; 6; 7; 8] 0 = Some 513
  /\ 513 < 2 ^ 16
  /\ DataView.get_uint_32 [1; 2; 3; 4; 5; 6; 7; 8] 0 = Some 67305985
  /\ 67305985 < 2 ^ 32.
Proof.
  exact (@dataview_values_are_little_endian [1; 2; 3; 4; 5; 6; 7; 8] 0
           ltac:(repeat constructor) ltac:(simpl; lia)).
Defined.

(** ** What reaches the queue *)

Lemma get_uint_8_nth_error (a : bytes) (i : nat) :
  DataView.get_uint_8 a i = nth_error a i.
Proof.
  unfold DataView.get_uint_8. cbn [DataView.get_binary].
  destruct (nth_error a i) as [b|]; [|reflexivity].
  cbn [option_map Py.from_bytes_little]. f_equal. lia.
Qed.

Lemma handler_queues (hello : option N) (a b : N) (rest : bytes) :
  exists r,
    _notification_handler hello (a :: b :: rest) = Some r
    /\ response_code r = a
    /\ reference r = b
    /\ raw_data r = a :: b :: rest
    /\ (response_code r = GSP_RESP_DATA \/ response_code r = GSP_RESP_DATA_PART2 ->
        data_payload r = Some rest /\ status_code r = None).
Proof.
  unfold _notification_handler. rewrite !get_uint_8_nth_error.
  cbn [nth_error].
  destruct (N.eqb_spec a GSP_RESP_COMMAND_RESPONSE) as [Ha|Ha].
  - assert (Hnd : ~ (a = GSP_RESP_DATA \/ a = GSP_RESP_DATA_PART2))
      by (subst a; intros [H|H]; discriminate H).
    destruct (4 <=? List.length (a :: b :: rest))%nat eqn:Hlen.
    + destruct (match hello with Some h => b =? h | None => false end).
      * eexists. split; [reflexivity|].
        cbn [response_code reference raw_data]. tauto.
      * apply Nat.leb_le in Hlen.
        unfold DataView.get_uint_16.
        rewrite get_binary_firstn by lia. cbn [option_map].
        eexists. split; [reflexivity|].
        cbn [response_code reference raw_data]. tauto.
    + eexists. split; [reflexivity|].
      cbn [response_code reference raw_data]. tauto.
  - destruct ((a =? GSP_RESP_DATA) || (a =? GSP_RESP_DATA_PART2)) eqn:Hd.
    + eexists. split; [reflexivity|].
      cbn [response_code reference raw_data data_payload status_code].
      repeat split. destruct rest; reflexivity.
    + apply orb_false_iff in Hd as [H2 H3].
      apply N.eqb_neq in H2. apply N.eqb_neq in H3.
      eexists. split; [reflexivity|].
      cbn [response_code reference raw_data]. tauto.
Qed.

(** X5.  The notification handler drops a notification only when it is
    shorter than two bytes.  Whatever it queues carries the first byte as
    response code, the second as reference and the whole notification as
    raw data; a data frame (code 2 or 3) carries everything from byte 2 on
    as its payload and no status. *)
Theorem handler_drops_only_stubs (hello : option N) (data : bytes) :
  (_notification_handler hello data = None <-> (List.length data < 2)%nat)
  /\ forall r,
      _notification_handler hello data = Some r ->
      response_code r = nth 0 data 0
      /\ reference r = nth 1 data 0
      /\ raw_data r = data
      /\ (response_code r = GSP_RESP_DATA \/ response_code r = GSP_RESP_DATA_PART2 ->
          data_payload r = Some (skipn 2 data) /\ status_code r = None).
Proof.
  destruct data as [|a [|b rest]].
  - split; [split; [simpl; lia | reflexivity] | discriminate].
  - split; [split; [simpl; lia | reflexivity] | discriminate].
  - destruct (handler_queues hello a b rest) as (r & Hr & H1 & H2 & H3 & H4).
    rewrite Hr. split.
    + split; [discriminate | simpl; lia].
    + intros r' Hr'. injection Hr' as <-. cbn [skipn nth]. tauto.
Qed.

(** ** One command at a time *)

(** X6.  On a connected session the queue is emptied before the command is
    written: what was queued before has no effect on [send_command] or on
    [fetch_data], neither on the result nor on the session afterwards. *)
Theorem stale_responses_are_discarded
        (s : Sensor) (q0 : list Response) (c : bytes)
        (log_id : N) (out : option string) :
  is_connected s = true ->
  log_id < 2 ^ 32 ->
  send_command c (set_queue q0 s) = send_command c s
  /\ SensorCommand.fetch_data log_id out (set_queue q0 s)
     = SensorCommand.fetch_data log_id out s.
Proof.
  intros Hc Hid.
  assert (Hsend : forall c', send_command c' (set_queue q0 s) = send_command c' s).
  { intros c'. rewrite (@send_command_connected c' (set_queue q0 s) Hc).
    rewrite (@send_command_connected c' s Hc).
    change (answers (set_queue q0 s)) with (answers s).
    destruct (answers s); reflexivity. }
  split; [apply Hsend|].
  cbv [SensorCommand.fetch_data bind gets try_except].
  change (device_name (set_queue q0 s)) with (device_name s).
  destruct (@to_bytes_little_fits 4 log_id Hid) as (lb & -> & _).
  now rewrite Hsend.
Qed.

Lemma stale_responses_are_discarded_witness :
  let s := session [[fetch_ok; test_data; end_marker]] in
  let q0 := deliver None [end_marker; test_data] in
  send_command [GSP_CMD_CLEAR_LOGBOOK; 106] (set_queue q0 s)
  = send_command [GSP_CMD_CLEAR_LOGBOOK; 106] s
  /\ SensorCommand.fetch_data 1 None (set_queue q0 s)
     = SensorCommand.fetch_data 1 None s.
Proof.
  exact (@stale_responses_are_discarded
           (session [[fetch_ok; test_data; end_marker]])
           (deliver None [end_marker; test_data])
           [GSP_CMD_CLEAR_LOGBOOK; 106] 1 None eq_refl eq_refl).
Defined.

(** ** What a fetch can and cannot do *)

(** Every way a fetch on a connected session can end. *)
Lemma fetch_data_connected (s : Sensor) (log_id : N) (out : option string)
      (lb : bytes) :
  is_connected s = true ->
  Py.to_bytes_little 4 log_id = Some lb ->
  exists r s',
    SensorCommand.fetch_data log_id out s = (inr r, s')
    /\ client s' = client (wrote ([GSP_CMD_FETCH_LOG; 101] ++ lb) s)
    /\ is_connected s' = true
    /\ end_of_serial s' = end_of_serial s
    /\ device_name s' = device_name s
    /\ hello_ref s' = hello_ref s
    /\ heap (env s') = heap (env s)
    /\ (fetch_success r = false -> files s' = files s)
    /\ (forall f sz l, r = FetchDone f sz l ->
        f = fetch_filename log_id out (device_name s) /\ l = log_id).
Proof.
  intros Hc Hlb.
  destruct (answers s) as [|init frames] eqn:Hans.
  - unfold SensorCommand.fetch_data, bind at 1, gets at 1. rewrite Hlb.
    unfold try_except, bind at 1.
    rewrite (@send_command_connected _ s Hc), Hans.
    do 2 eexists. split; [reflexivity|].
    repeat split; try assumption; try reflexivity; try discriminate; congruence.
  - destruct (response_code init =? GSP_RESP_COMMAND_RESPONSE) eqn:Hrc.
    + apply N.eqb_eq in Hrc.
      destruct (status_is (get_status_code init) 200) eqn:H200.
      * assert (Hst : get_status_code init = StatusInt 200).
        { destruct (get_status_code init) as [|c]; [discriminate|].
          simpl in H200. apply N.eqb_eq in H200. now subst. }
        destruct (receive_loop_placements frames [] 0)
          as (stop & Hloop & Hstop & _).
        destruct (@fetch_data_streams s log_id out lb init frames _ _ _ _
                    Hc Hlb Hans Hrc Hst Hloop Hstop)
          as (s' & Hres & _ & _ & _ & _ & Hcl & _).
        exists (FetchDone (fetch_filename log_id out (device_name s))
                          (last (offsets_seen (consumed frames)) 0) log_id), s'.
        split; [exact Hres|]. split; [exact Hcl|].
        (* the remaining facts are read off the computed state *)
        revert Hres. unfold SensorCommand.fetch_data, bind at 1, gets at 1.
        rewrite Hlb. unfold try_except, bind at 1.
        rewrite (@send_command_connected _ s Hc), Hans, Hrc, N.eqb_refl.
        cbn [negb]. rewrite Hst. cbn [status_is N.eqb Pos.eqb negb].
        unfold bind at 1, gets.
        change (response_queue (set_queue frames
                  (wrote ([GSP_CMD_FETCH_LOG; 101] ++ lb) s))) with frames.
        rewrite Hloop.
        destruct stop; try congruence; intros Hres;
          injection Hres as <-;
          (repeat split; try assumption; try reflexivity; try discriminate;
           congruence).
      * rewrite (@fetch_data_refused s log_id out lb init frames
                   (get_status_code init) Hc Hlb Hans Hrc eq_refl H200).
        do 2 eexists. split; [reflexivity|].
        repeat split; try assumption; try reflexivity; try discriminate; congruence.
    + unfold SensorCommand.fetch_data, bind at 1, gets at 1. rewrite Hlb.
      unfold try_except, bind at 1.
      rewrite (@send_command_connected _ s Hc), Hans, Hrc.
      do 2 eexists. split; [reflexivity|].
      repeat split; try assumption; try reflexivity; try discriminate; congruence.
Qed.

(** X7.  With a log id below 2^32 [fetch_data] never raises: it returns a
    dictionary.  A file is written only when the result is a success.  A
    connected session writes exactly one command, FETCH_LOG with the four
    bytes of the id; a disconnected one writes nothing and reports the
    missing connection. *)
Theorem fetch_failures_are_returned
        (s : Sensor) (log_id : N) (out : option string) :
  log_id < 2 ^ 32 ->
  exists r s' lb,
    Py.to_bytes_little 4 log_id = Some lb
    /\ SensorCommand.fetch_data log_id out s = (inr r, s')
    /\ (fetch_success r = false -> files s' = files s)
    /\ written (client s')
       = written (client s)
           ++ (if is_connected s then [[GSP_CMD_FETCH_LOG; 101] ++ lb] else [])
    /\ (is_connected s = false ->
        r = FetchError (RuntimeError "Not connected to device")).
Proof.
  intros Hid.
  destruct (@to_bytes_little_fits 4 log_id Hid) as (lb & Hlb & _).
  destruct (is_connected s) eqn:Hc.
  - destruct (@fetch_data_connected s log_id out lb Hc Hlb)
      as (r & s' & Hres & Hcl & _ & _ & _ & _ & _ & Hfiles & _).
    exists r, s', lb. repeat split; try assumption.
    + rewrite Hcl. apply client_wrote.
    + discriminate.
  - exists (FetchError (RuntimeError "Not connected to device")),
           (add_log ERROR "Data fetch failed:" s), lb.
    split; [exact Hlb|]. split.
    + unfold SensorCommand.fetch_data, bind at 1, gets at 1. rewrite Hlb.
      unfold try_except, bind at 1.
      now rewrite (@send_command_disconnected _ s Hc).
    + repeat split. cbn [app]. now rewrite app_nil_r.
Qed.

Lemma fetch_failures_are_returned_witness :
  exists r s' lb,
    Py.to_bytes_little 4 1 = Some lb
    /\ SensorCommand.fetch_data 1 None (set_connected false (session []))
       = (inr r, s')
    /\ (fetch_success r = false -> files s' = [])
    /\ written (client s') = []
    /\ (false = false ->
        r = FetchError (RuntimeError "Not connected to device")).
Proof.
  exact (@fetch_failures_are_returned (set_connected false (session [])) 1 None
           eq_refl).
Defined.

(** X8.  A log id of 2^32 or more cannot be written in four bytes: the
    OverflowError is raised before the function's own [try], so it reaches
    the caller, and the session is left as it was. *)
Theorem fetch_of_a_huge_log_id_raises
        (s : Sensor) (log_id : N) (out : option string) :
  2 ^ 32 <= log_id ->
  SensorCommand.fetch_data log_id out s = (inl OverflowError, s).
Proof.
  intros Hid.
  unfold SensorCommand.fetch_data, bind at 1, gets at 1.
  now rewrite (@to_bytes_little_overflow 4 log_id Hid).
Qed.

Lemma fetch_of_a_huge_log_id_raises_witness :
  SensorCommand.fetch_data 4294967296 None (session [[fetch_ok]])
  = (inl OverflowError, session [[fetch_ok]]).
Proof.
  exact (@fetch_of_a_huge_log_id_raises (session [[fetch_ok]]) 4294967296 None
           ltac:(discriminate)).
Defined.

(** ** The receive loop, frame by frame *)

(** X9.  An empty data frame ends the stream whatever came before: the
    frames ahead of it have been placed, the size reported is the offset
    word of the empty frame, and what follows it stays on the queue. *)
Theorem end_marker_ends_the_stream
        (pre post : list Response) (marker : Response) (f : bytes) (l : N) :
  existsb ends_stream pre = false ->
  is_data marker = true ->
  well_sized marker = true ->
  empty_body marker = true ->
  receive_loop (pre ++ marker :: post) f l
  = (apply_writes f (placements pre), frame_offset marker, post, EndOfLog).
Proof.
  intros Hpre Hd Hw He. revert f l.
  induction pre as [|r pre IH]; intros f l.
  - cbn [app]. rewrite receive_loop_step, Hd, Hw, He. reflexivity.
  - cbn [existsb] in Hpre. apply orb_false_iff in Hpre as [Hr Hpre].
    cbn [app]. rewrite receive_loop_step, placements_cons.
    unfold ends_stream in Hr.
    destruct (is_data r); cbn [andb] in Hr |- *.
    + apply orb_false_iff in Hr as [Hrw Hre].
      apply negb_false_iff in Hrw. rewrite Hrw, Hre. cbn [negb app].
      rewrite (IH Hpre). reflexivity.
    + cbn [app]. apply (IH Hpre).
Qed.

Lemma end_marker_ends_the_stream_witness :
  receive_loop (deliver None [test_data] ++
                mkResponse 2 101 end_marker None None (Some [9; 0; 0; 0])
                :: deliver None [test_data]) [] 0
  = (Py.encode "test data" ++ [0], 9, deliver None [test_data], EndOfLog).
Proof.
  exact (@end_marker_ends_the_stream
           (deliver None [test_data]) (deliver None [test_data])
           (mkResponse 2 101 end_marker None None (Some [9; 0; 0; 0])) [] 0
           eq_refl eq_refl eq_refl eq_refl).
Defined.

Lemma write_at_twice (f : bytes) (o : N) (d : bytes) :
  write_at (write_at f o d) o d = write_at f o d.
Proof.
  apply nth_ext with (d := 0) (d' := 0).
  - rewrite !length_write_at. lia.
  - intros i _. rewrite !nth_write_at.
    destruct (covers (o, d) i); reflexivity.
Qed.

(** X10.  A frame that is delivered twice in a row leaves the same file,
    the same size and the same way out of the loop as the frame delivered
    once. *)
Theorem repeated_frame_changes_nothing
        (r : Response) (q : list Response) (f : bytes) (l : N) :
  fst (fst (fst (receive_loop (r :: r :: q) f l)))
  = fst (fst (fst (receive_loop (r :: q) f l)))
  /\ snd (fst (fst (receive_loop (r :: r :: q) f l)))
     = snd (fst (fst (receive_loop (r :: q) f l)))
  /\ snd (receive_loop (r :: r :: q) f l) = snd (receive_loop (r :: q) f l).
Proof.
  rewrite (receive_loop_step r (r :: q) f l), (receive_loop_step r q f l).
  destruct (is_data r) eqn:Hd.
  - destruct (well_sized r) eqn:Hw.
    + destruct (empty_body r) eqn:He.
      * repeat split.
      * rewrite receive_loop_step, Hd, Hw, He, write_at_twice. repeat split.
    + repeat split.
  - repeat split.
Qed.

(** X11.  Responses that are not data frames are passed over: the loop
    ends the same way, with the same file and size, as on the queue with
    those responses taken out. *)
Theorem stray_responses_are_skipped (q : list Response) :
  forall (f : bytes) (l : N) (f' : bytes) (l' : N) (q' : list Response)
         (stop : SensorCommand.Stop),
    receive_loop q f l = (f', l', q', stop) ->
    receive_loop (filter is_data q) f l = (f', l', filter is_data q', stop).
Proof.
  induction q as [|r q IH]; intros f l f' l' q' stop H.
  - cbn in H |- *. now injection H as <- <- <- <-.
  - rewrite receive_loop_step in H. cbn [filter].
    destruct (is_data r) eqn:Hd.
    + rewrite receive_loop_step, Hd.
      destruct (well_sized r).
      * destruct (empty_body r).
        -- now injection H as <- <- <- <-.
        -- now apply IH.
      * now injection H as <- <- <- <-.
    + now apply IH.
Qed.

Lemma stray_responses_are_skipped_witness :
  receive_loop (filter is_data (deliver None [fetch_ok; test_data; fetch_ok; end_marker]))
               [] 0
  = (Py.encode "test data" ++ [0], 9, filter is_data [], EndOfLog).
Proof.
  exact (@stray_responses_are_skipped
           (deliver None [fetch_ok; test_data; fetch_ok; end_marker])
           [] 0 (Py.encode "test data" ++ [0]) 9 [] EndOfLog eq_refl).
Defined.

(** ** A log sent in consecutive chunks *)

Lemma le32_spec (n : N) :
  n < 2 ^ 32 ->
  List.length (le32 n) = 4%nat /\ Py.from_bytes_little (le32 n) = n.
Proof.
  intros Hn. unfold le32.
  destruct (@to_bytes_little_fits 4 n Hn) as (b & -> & Hlen & _ & Hval).
  now split.
Qed.

Lemma deliver_data_frame (hello : option N) (ref off : N) (chunk : bytes)
      (rest : list bytes) :
  off < 2 ^ 32 ->
  exists r,
    deliver hello (data_frame ref off chunk :: rest) = r :: deliver hello rest
    /\ is_data r = true
    /\ well_sized r = true
    /\ frame_offset r = off
    /\ frame_body r = chunk.
Proof.
  intros Hoff. destruct (le32_spec Hoff) as [Hlen Hval].
  cbn [deliver]. unfold data_frame. cbn [app].
  destruct (handler_queues hello GSP_RESP_DATA ref (le32 off ++ chunk))
    as (r & Hr & Hrc & _ & _ & Hp).
  rewrite Hr. exists r. split; [reflexivity|].
  destruct (Hp (or_introl Hrc)) as [Hpay _].
  unfold is_data, well_sized, frame_offset, frame_body, get_data_payload.
  rewrite Hrc, Hpay. repeat split.
  - apply Nat.leb_le. rewrite length_app. lia.
  - now rewrite (@skipn_app_firstn_exact N (le32 off) chunk 4 Hlen).
  - rewrite skipn_app, (@skipn_all2 N 4 (le32 off)) by lia.
    rewrite Hlen, Nat.sub_diag. reflexivity.
Qed.

Lemma write_at_end (f d : bytes) :
  write_at f (N.of_nat (List.length f)) d = f ++ d.
Proof.
  unfold write_at. rewrite Nat2N.id, firstn_all, Nat.sub_diag.
  rewrite skipn_all2 by lia. cbn [repeat app]. now rewrite app_nil_r.
Qed.

Lemma chunks_then_marker (hello : option N) (ref marker : N)
      (chunks : list bytes) :
  forall (off : N) (tail : list bytes) (f : bytes) (l : N),
    Forall (fun c => c <> []) chunks ->
    off + N.of_nat (List.length (List.concat chunks)) < 2 ^ 32 ->
    marker < 2 ^ 32 ->
    N.of_nat (List.length f) = off ->
    receive_loop (deliver hello (chunked ref off chunks
                                   ++ data_frame ref marker [] :: tail)) f l
    = (f ++ List.concat chunks, marker, deliver hello tail, EndOfLog).
Proof.
  induction chunks as [|c chunks IH]; intros off tail f l Hne Htot Hm Hf.
  - cbn [chunked app List.concat].
    destruct (@deliver_data_frame hello ref marker [] tail Hm)
      as (r & Hd & Hdata & Hw & Ho & Hb).
    rewrite Hd, receive_loop_step, Hdata, Hw.
    unfold empty_body. rewrite Hb, Ho. now rewrite app_nil_r.
  - inversion Hne as [|? ? Hc Hne']; subst.
    cbn [chunked app List.concat] in *. rewrite length_app, Nat2N.inj_add in Htot.
    destruct (@deliver_data_frame hello ref (N.of_nat (List.length f)) c
                (chunked ref (N.of_nat (List.length f) + N.of_nat (List.length c))
                         chunks ++ data_frame ref marker [] :: tail))
      as (r & Hd & Hdata & Hw & Ho & Hb); [lia|].
    rewrite Hd, receive_loop_step, Hdata, Hw.
    unfold empty_body. rewrite Hb, Ho.
    destruct c as [|x c]; [congruence|].
    rewrite write_at_end.
    rewrite IH; [|exact Hne'|lia|exact Hm|rewrite length_app; lia].
    now rewrite <- app_assoc.
Qed.

Lemma deliver_fetch_ok (hello : option N) (rest : list bytes) :
  exists r,
    deliver hello (fetch_ok :: rest) = r :: deliver hello rest
    /\ response_code r = GSP_RESP_COMMAND_RESPONSE
    /\ get_status_code r = StatusInt 200.
Proof.
  cbn [deliver]. unfold fetch_ok, _notification_handler.
  rewrite !get_uint_8_nth_error. cbn [nth_error].
  change (1 =? GSP_RESP_COMMAND_RESPONSE) with true.
  change (4 <=? List.length [1; 101; 200; 0])%nat with true. cbv iota.
  destruct hello as [h|]; [destruct (101 =? h)|];
    eexists; (split; [reflexivity|]); split; reflexivity.
Qed.

(** X12.  When the peer answers FETCH_LOG with status 200, sends the log
    in non-empty chunks one after the other from offset 0 and closes with
    an empty frame carrying the total, the file is exactly the chunks in
    order, the size reported is its length, and whatever the peer sent
    after the empty frame is left on the queue. *)
Theorem consecutive_chunks_are_reassembled
        (s : Sensor) (log_id : N) (out : option string) (ref : N)
        (chunks : list bytes) (extra : list bytes) (more : list (list bytes)) :
  is_connected s = true ->
  log_id < 2 ^ 32 ->
  Forall (fun c => c <> []) chunks ->
  N.of_nat (List.length (List.concat chunks)) < 2 ^ 32 ->
  script (client s)
  = (fetch_ok :: chunked ref 0 chunks
       ++ data_frame ref (N.of_nat (List.length (List.concat chunks))) [] :: extra)
      :: more ->
  exists s',
    SensorCommand.fetch_data log_id out s
    = (inr (FetchDone (fetch_filename log_id out (device_name s))
                      (N.of_nat (List.length (List.concat chunks))) log_id), s')
    /\ fs_get (files s') (fetch_filename log_id out (device_name s))
       = Some (List.concat chunks)
    /\ response_queue s' = deliver (hello_ref s) extra.
Proof.
  intros Hc Hid Hne Htot Hscript.
  destruct (@to_bytes_little_fits 4 log_id Hid) as (lb & Hlb & _).
  destruct (deliver_fetch_ok (hello_ref s)
              (chunked ref 0 chunks
                 ++ data_frame ref (N.of_nat (List.length (List.concat chunks))) []
                 :: extra)) as (init & Hd & Hrc & Hst).
  assert (Hans : answers s = init :: deliver (hello_ref s)
              (chunked ref 0 chunks
                 ++ data_frame ref (N.of_nat (List.length (List.concat chunks))) []
                 :: extra)).
  { unfold answers. rewrite Hscript. exact Hd. }
  pose proof (@chunks_then_marker (hello_ref s) ref
                (N.of_nat (List.length (List.concat chunks))) chunks 0 extra [] 0
                Hne Htot Htot eq_refl) as Hloop.
  cbn [app] in Hloop.
  destruct (@fetch_data_streams s log_id out lb init _ _ _ _ _
              Hc Hlb Hans Hrc Hst Hloop ltac:(discriminate))
    as (s' & Hres & Hfile & Hq & _).
  exists s'. repeat split; assumption.
Qed.

Lemma consecutive_chunks_are_reassembled_witness :
  exists s',
    SensorCommand.fetch_data 1 None
      (session [[fetch_ok; data_frame 101 0 [10; 11; 12];
                 data_frame 101 3 [13; 14]; data_frame 101 5 []; fetch_ok]])
    = (inr (FetchDone "log_1_Movesense 000455.sbem" 5 1), s')
    /\ fs_get (files s') "log_1_Movesense 000455.sbem" = Some [10; 11; 12; 13; 14]
    /\ response_queue s' = deliver None [fetch_ok].
Proof.
  exact (@consecutive_chunks_are_reassembled
           (session [[fetch_ok; data_frame 101 0 [10; 11; 12];
                      data_frame 101 3 [13; 14]; data_frame 101 5 []; fetch_ok]])
           1 None 101 [[10; 11; 12]; [13; 14]] [fetch_ok] []
           eq_refl eq_refl
           (@Forall_cons bytes (fun c => c <> []) [10; 11; 12] [[13; 14]]
              ltac:(discriminate)
              (@Forall_cons bytes (fun c => c <> []) [13; 14] []
                 ltac:(discriminate) (@Forall_nil bytes _)))
           eq_refl eq_refl).
Defined.

(** ** The status of a device *)

Lemma split_nul_joined (strs : list bytes) :
  Forall (Forall (fun x => x <> 0)) strs ->
  split_nul (nul_joined strs) = strs ++ [[]].
Proof.
  induction 1 as [|x strs Hx _ IH]; [reflexivity|].
  unfold nul_joined in *. cbn [map List.concat]. rewrite <- app_assoc.
  induction Hx as [|b x Hb _ IHx].
  - cbn [app split_nul N.eqb]. now rewrite IH.
  - cbn [app split_nul]. destruct (N.eqb_spec b 0) as [|_]; [contradiction|].
    cbn [app] in IHx. rewrite IHx. reflexivity.
Qed.

Lemma handler_hello (ref : N) (body : bytes) :
  (2 <= List.length body)%nat ->
  _notification_handler (Some ref) (GSP_RESP_COMMAND_RESPONSE :: ref :: body)
  = Some (mkResponse GSP_RESP_COMMAND_RESPONSE ref
            (GSP_RESP_COMMAND_RESPONSE :: ref :: body)
            (Some (StatusInt 200)) (Some body) None).
Proof.
  intros Hlen. destruct body as [|x [|y rest]]; simpl in Hlen; try lia.
  unfold _notification_handler. rewrite !get_uint_8_nth_error.
  cbn [nth_error]. rewrite !N.eqb_refl. reflexivity.
Qed.

Lemma length_nul_joined (strs : list bytes) :
  (List.length strs <= List.length (nul_joined strs))%nat.
Proof.
  induction strs as [|x strs IH]; [apply Nat.le_refl|].
  unfold nul_joined in *. cbn [map List.concat List.length].
  rewrite !length_app. cbn [List.length]. lia.
Qed.

(** Decoding what [encode] produced gives the string back, whatever
    follows it. *)
Lemma decode_encode_char (c : ascii) (rest : bytes) :
  Py.decode_ignore (Py.encode_char c ++ rest)
  = N_of_ascii c :: Py.decode_ignore rest.
Proof.
  destruct c as [[] [] [] [] [] [] [] []]; reflexivity.
Qed.

Lemma decode_encode (s : string) (rest : bytes) :
  Py.decode_ignore (Py.encode s ++ rest)
  = code_points s ++ Py.decode_ignore rest.
Proof.
  induction s as [|c s IH]; [reflexivity|].
  cbn [Py.encode]. rewrite <- app_assoc, decode_encode_char, IH. reflexivity.
Qed.

Lemma decode_nul_joined (names : list string) :
  Py.decode_ignore (nul_joined (map Py.encode names))
  = nul_joined (map code_points names).
Proof.
  induction names as [|n names IH]; [reflexivity|].
  unfold nul_joined in *. cbn [map List.concat].
  rewrite <- !app_assoc, decode_encode. f_equal.
  cbn [app]. change (Py.decode_ignore (0 :: ?r)) with (0 :: Py.decode_ignore r).
  now rewrite IH.
Qed.

Lemma code_points_no_nul (n : string) :
  no_nul n = true -> Forall (fun x => x <> 0) (code_points n).
Proof.
  induction n as [|c n IH]; intros H; [constructor|].
  cbn [no_nul] in H. apply andb_true_iff in H as [Hc Hn].
  unfold code_points. cbn [list_ascii_of_string map]. constructor.
  - apply negb_true_iff, N.eqb_neq in Hc. exact Hc.
  - now apply IH.
Qed.

(** The session after HELLO was answered as [hello_answer] says. *)
Lemma get_status_after_hello (s : Sensor) (version : N) (names : list string)
      (b1 : list bytes) (rest_script : list (list bytes)) :
  is_connected s = true ->
  script (client s)
  = (hello_answer version (map Py.encode names) :: b1) :: rest_script ->
  List.length names = 5%nat ->
  Forall (fun n => no_nul n = true) names ->
  send_command hello_command (set_hello_ref 100 s)
  = (inr (mkResponse GSP_RESP_COMMAND_RESPONSE 100
            (hello_answer version (map Py.encode names))
            (Some (StatusInt 200))
            (Some (version :: nul_joined (map Py.encode names))) None),
     set_queue (deliver (Some 100) b1) (wrote hello_command (set_hello_ref 100 s)))
  /\ (5 <=? List.length (version :: nul_joined (map Py.encode names)))%nat = true
  /\ map (fun i => nth i (split_nul
                           (Py.decode_ignore
                              (nul_joined (map Py.encode names)))) [])
         (seq 0 5)
     = map code_points names.
Proof.
  intros Hc Hscript Hlen Hz. split; [|split].
  - rewrite (@send_command_connected hello_command (set_hello_ref 100 s) Hc).
    unfold answers.
    change (client (set_hello_ref 100 s)) with (client s).
    change (hello_ref (set_hello_ref 100 s)) with (Some 100).
    rewrite Hscript. cbn [hd deliver]. unfold hello_answer. cbn [app].
    rewrite handler_hello; [reflexivity|].
    pose proof (length_nul_joined (map Py.encode names)) as Hl.
    rewrite length_map in Hl. cbn [List.length]. lia.
  - apply Nat.leb_le.
    pose proof (length_nul_joined (map Py.encode names)) as Hl.
    rewrite length_map in Hl. cbn [List.length]. lia.
  - rewrite decode_nul_joined, split_nul_joined.
    + destruct names as [|a [|b [|c [|d [|e [|? ?]]]]]]; try discriminate Hlen.
      reflexivity.
    + apply Forall_map. revert Hz. apply Forall_impl.
      intros n. apply code_points_no_nul.
Qed.

(** X13.  When HELLO is answered with a protocol version and five strings
    in UTF-8, each closed by NUL and holding no NUL itself, and the state
    query with status 200 and a state byte, [get_status] returns success
    with that version, those five strings and that state.  It has written
    HELLO with reference 100 and then the state query, and reference 100
    stays registered as the one without a status word.  (The strings
    range over the code points below 256.) *)
Theorem status_fields_round_trip
        (s : Sensor) (version state : N) (names : list string) (body : bytes)
        (b1 b2 : list bytes) (more : list (list bytes)) :
  is_connected s = true ->
  script (client s)
  = (hello_answer version (map Py.encode names) :: b1)
      :: (state_answer 200 0 (state :: body) :: b2) :: more ->
  List.length names = 5%nat ->
  Forall (fun n => no_nul n = true) names ->
  exists s',
    get_status s
    = (inr (mkStatus (Some true) (Some version) (map code_points names)
              (Some state) None None), s')
    /\ written (client s')
       = written (client s) ++ [hello_command; dlstate_command]
    /\ hello_ref s' = Some 100.
Proof.
  intros Hc Hscript Hlen Hz.
  destruct (@get_status_after_hello s version names b1 _ Hc Hscript Hlen Hz)
    as (Hsend & Hbody & Hstrs).
  unfold get_status, bind at 1, modify. unfold bind at 1. rewrite Hsend.
  cbn [response_code get_command_data command_data get_status_code status_code
       status_is].
  change (GSP_RESP_COMMAND_RESPONSE =? GSP_RESP_COMMAND_RESPONSE) with true.
  change (200 =? 200) with true. cbn [andb]. rewrite Hbody.
  rewrite get_uint_8_nth_error. cbn [nth_error skipn]. rewrite Hstrs.
  set (s1 := set_queue (deliver (Some 100) b1)
               (wrote hello_command (set_hello_ref 100 s))).
  assert (Hc1 : is_connected s1 = true) by exact Hc.
  unfold bind at 1. rewrite (@send_command_connected dlstate_command s1 Hc1).
  assert (Hans : answers s1
            = mkResponse GSP_RESP_COMMAND_RESPONSE 101
                (state_answer 200 0 (state :: body))
                (Some (StatusInt 200)) (Some (state :: body)) None
              :: deliver (Some 100) b2).
  { unfold answers.
    change (hello_ref s1) with (Some 100).
    replace (script (client s1)) with (tl (script (client s)))
      by (symmetry; apply (client_wrote hello_command (set_hello_ref 100 s))).
    rewrite Hscript. cbn [tl hd deliver]. unfold state_answer. cbn [app].
    destruct body; reflexivity. }
  rewrite Hans.
  cbn [response_code get_command_data command_data get_status_code status_code
       status_is].
  change (GSP_RESP_COMMAND_RESPONSE =? GSP_RESP_COMMAND_RESPONSE) with true.
  change (200 =? 200) with true. cbv iota.
  cbn [List.length Nat.leb]. rewrite get_uint_8_nth_error. cbn [nth_error].
  eexists. split; [reflexivity|]. split; [|reflexivity].
  cbn [protocol_version hello_strings st_success].
  destruct (client_wrote dlstate_command s1) as [Hw2 _].
  destruct (client_wrote hello_command (set_hello_ref 100 s)) as [Hw1 _].
  change (client (set_queue (deliver (Some 100) b2) (wrote dlstate_command s1)))
    with (client (wrote dlstate_command s1)).
  rewrite Hw2.
  change (client s1) with (client (wrote hello_command (set_hello_ref 100 s))).
  rewrite Hw1. change (client (set_hello_ref 100 s)) with (client s).
  now rewrite <- app_assoc.
Qed.

Lemma status_fields_round_trip_witness :
  exists s',
    get_status
      (session [[hello_answer 1 (map Py.encode
                                   ["241330000455"; "TestSensor"; "AA:BB";
                                    "app"; "1.0.0"]%string)];
                [state_answer 200 0 [2]]])
    = (inr (mkStatus (Some true) (Some 1)
              (map code_points
                   ["241330000455"; "TestSensor"; "AA:BB"; "app"; "1.0.0"]%string)
              (Some 2) None None), s')
    /\ written (client s') = [] ++ [hello_command; dlstate_command]
    /\ hello_ref s' = Some 100.
Proof.
  exact (@status_fields_round_trip
           (session [[hello_answer 1 (map Py.encode
                                        ["241330000455"; "TestSensor"; "AA:BB";
                                         "app"; "1.0.0"]%string)];
                     [state_answer 200 0 [2]]])
           1 2 ["241330000455"; "TestSensor"; "AA:BB"; "app"; "1.0.0"]%string
           [] [] [] [] eq_refl eq_refl eq_refl
           ltac:(repeat constructor)).
Defined.

(** Bytes that are not UTF-8 are left out of the strings: a serial sent as
    "24", the byte 255, "55" is returned as "2455"; and a name sent with a
    two-byte character comes back as one code point. *)
Example invalid_hello_bytes_are_dropped :
  exists s',
    get_status
      (session [[hello_answer 1 [[50; 52; 255; 53; 53]; [195; 169]; []; []; []]];
                [state_answer 200 0 [2]]])
    = (inr (mkStatus (Some true) (Some 1)
              [[50; 52; 53; 53]; [233]; []; []; []] (Some 2) None None), s').
Proof. eexists. vm_compute. reflexivity. Qed.

(** X14.  A HELLO answer whose body is shorter than five bytes (the
    protocol version alone, say) gives no HELLO field at all: with the
    state query answered, the result carries the state but neither
    ['success'] nor a version nor strings. *)
Theorem short_hello_gives_no_fields
        (s : Sensor) (hello_body : bytes) (state : N) (body : bytes)
        (b1 b2 : list bytes) (more : list (list bytes)) :
  is_connected s = true ->
  (List.length hello_body < 5)%nat ->
  script (client s)
  = (([GSP_RESP_COMMAND_RESPONSE; 100] ++ hello_body) :: b1)
      :: (state_answer 200 0 (state :: body) :: b2) :: more ->
  exists s',
    get_status s = (inr (mkStatus None None [] (Some state) None None), s')
    /\ written (client s')
       = written (client s) ++ [hello_command; dlstate_command].
Proof.
  intros Hc Hlen Hscript.
  set (s0 := set_hello_ref 100 s).
  assert (Hc0 : is_connected s0 = true) by exact Hc.
  assert (Hans0 : exists r,
             answers s0 = r :: deliver (Some 100) b1
             /\ (response_code r =? GSP_RESP_COMMAND_RESPONSE)
                && status_is (get_status_code r) 200
                && (5 <=? List.length (get_command_data r))%nat = false).
  { unfold answers. change (hello_ref s0) with (Some 100).
    change (client s0) with (client s). rewrite Hscript. cbn [hd deliver app].
    destruct hello_body as [|a [|b [|c [|d [|e rest]]]]];
      [| | | | | simpl in Hlen; lia]; eexists; split; reflexivity. }
  destruct Hans0 as (r & Hans0 & Hno).
  unfold get_status, bind at 1, modify. fold s0. unfold bind at 1.
  rewrite (@send_command_connected hello_command s0 Hc0), Hans0, Hno.
  set (s1 := set_queue (deliver (Some 100) b1) (wrote hello_command s0)).
  assert (Hc1 : is_connected s1 = true) by exact Hc.
  unfold bind at 1. rewrite (@send_command_connected dlstate_command s1 Hc1).
  assert (Hans : answers s1
            = mkResponse GSP_RESP_COMMAND_RESPONSE 101
                (state_answer 200 0 (state :: body))
                (Some (StatusInt 200)) (Some (state :: body)) None
              :: deliver (Some 100) b2).
  { unfold answers.
    change (hello_ref s1) with (Some 100).
    replace (script (client s1)) with (tl (script (client s)))
      by (symmetry; apply (client_wrote hello_command s0)).
    rewrite Hscript. cbn [tl hd deliver]. unfold state_answer. cbn [app].
    destruct body; reflexivity. }
  rewrite Hans.
  cbn [response_code get_command_data command_data get_status_code status_code
       status_is].
  change (GSP_RESP_COMMAND_RESPONSE =? GSP_RESP_COMMAND_RESPONSE) with true.
  change (200 =? 200) with true. cbv iota.
  cbn [List.length Nat.leb]. rewrite get_uint_8_nth_error. cbn [nth_error].
  eexists. split; [reflexivity|].
  destruct (client_wrote dlstate_command s1) as [Hw2 _].
  destruct (client_wrote hello_command s0) as [Hw1 _].
  change (client (set_queue (deliver (Some 100) b2) (wrote dlstate_command s1)))
    with (client (wrote dlstate_command s1)).
  rewrite Hw2.
  change (client s1) with (client (wrote hello_command s0)).
  rewrite Hw1. change (client s0) with (client s).
  now rewrite <- app_assoc.
Qed.

Lemma short_hello_gives_no_fields_witness :
  exists s',
    get_status (session [[[1; 100; 1]]; [state_answer 200 0 [2]]])
    = (inr (mkStatus None None [] (Some 2) None None), s')
    /\ written (client s') = [] ++ [hello_command; dlstate_command].
Proof.
  exact (@short_hello_gives_no_fields
           (session [[[1; 100; 1]]; [state_answer 200 0 [2]]])
           [1] 2 [] [] [] [] eq_refl ltac:(simpl; lia) eq_refl).
Defined.

(** X15.  When HELLO is answered in full (five UTF-8 strings, each closed
    by NUL) but the state query comes back with a status other than 200,
    [get_status] keeps the HELLO fields, reports no state, and turns
    ['success'] to [False] with that status. *)
Theorem failed_state_query_keeps_hello_fields
        (s : Sensor) (version lo hi : N) (names : list string) (body : bytes)
        (b1 b2 : list bytes) (more : list (list bytes)) :
  is_connected s = true ->
  script (client s)
  = (hello_answer version (map Py.encode names) :: b1)
      :: (state_answer lo hi body :: b2) :: more ->
  List.length names = 5%nat ->
  Forall (fun n => no_nul n = true) names ->
  lo + 256 * hi <> 200 ->
  exists s',
    get_status s
    = (inr (mkStatus (Some false) (Some version) (map code_points names) None
              (Some (StatusInt (lo + 256 * hi)))
              (Some (DlstateFailed (StatusInt (lo + 256 * hi))))), s').
Proof.
  intros Hc Hscript Hlen Hz Hst.
  destruct (@get_status_after_hello s version names b1 _ Hc Hscript Hlen Hz)
    as (Hsend & Hbody & Hstrs).
  unfold get_status, bind at 1, modify. unfold bind at 1. rewrite Hsend.
  cbn [response_code get_command_data command_data get_status_code status_code
       status_is].
  change (GSP_RESP_COMMAND_RESPONSE =? GSP_RESP_COMMAND_RESPONSE) with true.
  change (200 =? 200) with true. cbn [andb]. rewrite Hbody.
  rewrite get_uint_8_nth_error. cbn [nth_error skipn]. rewrite Hstrs.
  set (s1 := set_queue (deliver (Some 100) b1)
               (wrote hello_command (set_hello_ref 100 s))).
  assert (Hc1 : is_connected s1 = true) by exact Hc.
  unfold bind at 1. rewrite (@send_command_connected dlstate_command s1 Hc1).
  assert (Hans : answers s1
            = mkResponse GSP_RESP_COMMAND_RESPONSE 101 (state_answer lo hi body)
                (Some (StatusInt (lo + 256 * hi))) (Some body) None
              :: deliver (Some 100) b2).
  { unfold answers.
    change (hello_ref s1) with (Some 100).
    replace (script (client s1)) with (tl (script (client s)))
      by (symmetry; apply (client_wrote hello_command (set_hello_ref 100 s))).
    rewrite Hscript. cbn [tl hd deliver]. unfold state_answer. cbn [app].
    unfold _notification_handler. rewrite !get_uint_8_nth_error.
    cbn [nth_error].
    change (GSP_RESP_COMMAND_RESPONSE =? GSP_RESP_COMMAND_RESPONSE) with true.
    change (101 =? 100) with false. cbv iota.
    cbn [List.length Nat.leb].
    unfold DataView.get_uint_16.
    cbn [DataView.get_binary nth_error option_map Py.from_bytes_little].
    replace (lo + 256 * (hi + 256 * 0)) with (lo + 256 * hi) by lia.
    destruct body; reflexivity. }
  rewrite Hans.
  cbn [response_code get_command_data command_data get_status_code status_code
       status_is].
  change (GSP_RESP_COMMAND_RESPONSE =? GSP_RESP_COMMAND_RESPONSE) with true.
  cbv iota.
  destruct (N.eqb_spec (lo + 256 * hi) 200) as [|_]; [contradiction|].
  eexists. reflexivity.
Qed.

Lemma failed_state_query_keeps_hello_fields_witness :
  exists s',
    get_status
      (session [[hello_answer 1 (map Py.encode ["2"; "3"; "4"; "5"; "6"]%string)];
                [state_answer 148 1 []]])
    = (inr (mkStatus (Some false) (Some 1)
              (map code_points ["2"; "3"; "4"; "5"; "6"]%string) None
              (Some (StatusInt (148 + 256 * 1)))
              (Some (DlstateFailed (StatusInt (148 + 256 * 1))))), s').
Proof.
  exact (@failed_state_query_keeps_hello_fields
           (session [[hello_answer 1
                        (map Py.encode ["2"; "3"; "4"; "5"; "6"]%string)];
                     [state_answer 148 1 []]])
           1 148 1 ["2"; "3"; "4"; "5"; "6"]%string [] [] [] []
           eq_refl eq_refl eq_refl
           ltac:(repeat constructor) ltac:(discriminate)).
Defined.

(** ** File names *)

Lemma str_app_assoc (a b c : string) :
  ((a ++ b) ++ c)%string = (a ++ (b ++ c))%string.
Proof. induction a as [|x a IH]; [reflexivity|]. cbn. now rewrite IH. Qed.

Lemma str_length_app (a b : string) :
  String.length (a ++ b) = (String.length a + String.length b)%nat.
Proof. induction a as [|x a IH]; [reflexivity|]. cbn. now rewrite IH. Qed.

Lemma substring_whole (s : string) : String.substring 0 (String.length s) s = s.
Proof. induction s as [|x s IH]; [reflexivity|]. cbn. now rewrite IH. Qed.

Lemma substring_after (a b : string) :
  String.substring (String.length a) (String.length b) (a ++ b) = b.
Proof.
  induction a as [|x a IH]; [apply substring_whole|]. cbn. exact IH.
Qed.

Lemma endswith_app (a b : string) : Py.endswith (a ++ b) b = true.
Proof.
  unfold Py.endswith. rewrite str_length_app.
  replace (String.length a + String.length b - String.length b)%nat
    with (String.length a) by lia.
  rewrite substring_after, String.eqb_refl.
  replace (String.length b <=? String.length a + String.length b)%nat with true
    by (symmetry; apply Nat.leb_le; lia).
  reflexivity.
Qed.

(** X16.  The file [fetch_data] writes always has a name ending in
    ".sbem": a name that is given keeps it or gets it appended, and with
    no name (or an empty one) the name is made of the log id and the
    device name. *)
Theorem fetched_file_is_named_sbem
        (log_id : N) (output_file : option string) (device : string) :
  Py.endswith (fetch_filename log_id output_file device) ".sbem" = true
  /\ (forall c r,
        output_file = Some (String c r) ->
        fetch_filename log_id output_file device
        = if Py.endswith (String c r) ".sbem" then String c r
          else (String c r ++ ".sbem")%string)
  /\ (output_file = None \/ output_file = Some EmptyString ->
      fetch_filename log_id output_file device
      = ("log_" ++ Py.str_of_int log_id ++ "_" ++ device ++ ".sbem")%string).
Proof.
  assert (Hdefault :
    Py.endswith ("log_" ++ Py.str_of_int log_id ++ "_" ++ device ++ ".sbem")
                ".sbem" = true).
  { rewrite <- !str_app_assoc. apply endswith_app. }
  split; [|split].
  - unfold fetch_filename. destruct output_file as [[|c r]|]; try exact Hdefault.
    destruct (Py.endswith (String c r) ".sbem") eqn:He; [exact He|].
    apply endswith_app.
  - intros c r ->. reflexivity.
  - intros [->| ->]; reflexivity.
Qed.

(** ** A fetch session, command by command *)

(** A fetch succeeds exactly on a burst whose first queued response is a
    command response with status 200. *)
Lemma fetch_success_iff_accepts (s : Sensor) (log_id : N) (out : option string) :
  is_connected s = true ->
  log_id < 2 ^ 32 ->
  exists r s',
    SensorCommand.fetch_data log_id out s = (inr r, s')
    /\ fetch_success r = accepts (hello_ref s) (hd [] (script (client s))).
Proof.
  intros Hc Hk.
  destruct (accepts (hello_ref s) (hd [] (script (client s)))) eqn:Hacc.
  - destruct (@fetch_data_accepted s log_id out Hc Hk Hacc)
      as (sz & s' & Hres & _).
    do 2 eexists. split; [exact Hres|reflexivity].
  - pose proof (le32_to_bytes Hk) as Hlb.
    unfold accepts in Hacc. fold (answers s) in Hacc.
    unfold SensorCommand.fetch_data, bind at 1, gets at 1. rewrite Hlb.
    unfold try_except, bind at 1.
    rewrite (@send_command_connected _ s Hc).
    destruct (answers s) as [|init rest].
    + do 2 eexists. split; reflexivity.
    + destruct (response_code init =? GSP_RESP_COMMAND_RESPONSE).
      * cbn [andb] in Hacc. cbn [negb]. rewrite Hacc. cbn [negb].
        do 2 eexists. split; reflexivity.
      * do 2 eexists. split; reflexivity.
Qed.

Lemma nth_hd_skip (A : Type) (d : A) (pre rest : list A) :
  nth (List.length pre) (pre ++ rest) d = hd d rest
  /\ nth (S (List.length pre)) (pre ++ rest) d = hd d (tl rest).
Proof.
  induction pre as [|x pre IH]; [|exact IH].
  destruct rest as [|y [|z rest]]; split; reflexivity.
Qed.

(** X17.  A fetch session on a device that is found and connects writes
    FETCH_LOG for the log ids 1, 2, 3, ... in order, one command per id,
    up to and including the first one the device does not answer with
    status 200, and then PUT_SYSTEMMODE 5 exactly once; the clock is never
    sent.  The number [m] of logs fetched is the number of bursts at the
    head of the script that let a fetch through, and a fetch goes through
    exactly on such a burst; the files reported are those of the ids 1 to
    [m], in order.  The session reports success when the system-mode
    command is answered and a timeout when it is not. *)
Theorem fetch_session_trace
        (w : World) (serial : string) (args : option Namespace)
        (output_dir : option string) :
  present (devices w serial) = true ->
  connectable (devices w serial) = true ->
  N.of_nat (List.length (script (devices w serial))) + 2 <= 2 ^ 32 ->
  let bursts := script (devices w serial) in
  let m := completed None bursts in
  (forall (s : Sensor) (log_id : N) (out : option string),
      is_connected s = true ->
      log_id < 2 ^ 32 ->
      exists r s',
        SensorCommand.fetch_data log_id out s = (inr r, s')
        /\ fetch_success r = accepts (hello_ref s) (hd [] (script (client s))))
  /\ (forall i, (i < m)%nat -> accepts None (nth i bursts []) = true)
  /\ accepts None (nth m bursts []) = false
  /\ exists w',
      DataloggerTool.fetch_data serial args output_dir w
      = (inr (match deliver None (nth (S m) bursts []) with
              | [] => FleetFailed (TimeoutError "Command timeout after 10.0s")
              | _ => FilesFetched
                       (map (fleet_file_name (fetch_dir args output_dir) serial
                               (name (devices w serial)))
                            (log_ids 1 m))
              end), w')
      /\ written (devices w' serial)
         = written (devices w serial)
             ++ map fetch_command_bytes (log_ids 1 (S m))
             ++ [[GSP_CMD_PUT_SYSTEMMODE; 107; 5]].
Proof.
  intros Hp Hcn Hfit bursts m.
  split; [intros s log_id out; apply fetch_success_iff_accepts|].
  destruct (completed_split None bursts)
    as (pre & rest & Hsplit & Hlen & Hall & Hnext).
  fold m in Hlen.
  destruct (nth_hd_skip [] pre rest) as [Hnth Hnth'].
  rewrite <- Hsplit, Hlen in Hnth, Hnth'.
  split; [|split].
  - intros i Hi. rewrite Hsplit, app_nth1 by lia.
    rewrite Forall_forall in Hall. apply Hall, nth_In. lia.
  - now rewrite Hnth.
  - assert (Hfit' : N.of_nat (List.length pre) + 2 <= 2 ^ 32).
    { unfold bursts in Hsplit. rewrite Hsplit, length_app in Hfit. lia. }
    destruct (@fetch_session_run w serial args output_dir pre rest
                Hp Hcn Hsplit Hall Hnext Hfit')
      as (s2 & Hc2 & Hser2 & Hh2 & Hscr2 & Hw2 & Hrun & _).
    rewrite Hlen in Hw2, Hrun. rewrite Hrun, Hnth'.
    unfold set_system_mode, simple_command, bind.
    rewrite (@send_command_connected [GSP_CMD_PUT_SYSTEMMODE; 107; 5] s2 Hc2).
    unfold answers. rewrite Hh2, Hscr2.
    set (s3 := wrote [GSP_CMD_PUT_SYSTEMMODE; 107; 5] s2).
    assert (Hw3 : written (devices (env s3) serial)
                  = written (devices w serial)
                      ++ map fetch_command_bytes (log_ids 1 (S m))
                      ++ [[GSP_CMD_PUT_SYSTEMMODE; 107; 5]]).
    { assert (Hser3 : end_of_serial s3 = serial) by exact Hser2.
      rewrite <- Hser3 at 1.
      change (devices (env s3) (end_of_serial s3)) with (client s3).
      destruct (client_wrote [GSP_CMD_PUT_SYSTEMMODE; 107; 5] s2) as [H3 _].
      fold s3 in H3. rewrite H3, Hw2. now rewrite <- app_assoc. }
    destruct (deliver None (hd [] (tl rest))) as [|r q].
    + eexists. split; [reflexivity|]. exact Hw3.
    + destruct (response_code r =? GSP_RESP_COMMAND_RESPONSE);
        (eexists; split; [reflexivity|]; exact Hw3).
Qed.

Lemma fetch_session_trace_witness :
  exists w',
    DataloggerTool.fetch_data "000455" None (Some "out"%string)
      (bench [[fetch_ok; test_data; end_marker]; [[1; 101; 148; 1]];
              [[1; 107; 200; 0]]])
    = (inr (FilesFetched
              (map (fleet_file_name (Some "out"%string) "000455"
                      "Movesense 000455")
                   (log_ids 1 1))), w')
    /\ written (devices w' "000455")
       = [] ++ map fetch_command_bytes (log_ids 1 2)
            ++ [[GSP_CMD_PUT_SYSTEMMODE; 107; 5]].
Proof.
  exact (proj2 (proj2 (proj2 (@fetch_session_trace
           (bench [[fetch_ok; test_data; end_marker]; [[1; 101; 148; 1]];
                   [[1; 107; 200; 0]]])
           "000455" None (Some "out"%string) eq_refl eq_refl
           ltac:(discriminate))))).
Defined.

(** The same session, run: one log is fetched into the directory, the
    second fetch meets status 404, and the system mode is reset. *)
Example fetch_session_on_the_bench :
  exists w',
    DataloggerTool.fetch_data "000455" None (Some "out"%string)
      (bench [[fetch_ok; test_data; end_marker]; [[1; 101; 148; 1]];
              [[1; 107; 200; 0]]])
    = (inr (FilesFetched ["out/Movesense_log_1_000455.sbem"%string]), w')
    /\ written (devices w' "000455")
       = [[3; 101; 1; 0; 0; 0]; [3; 101; 2; 0; 0; 0]; [7; 107; 5]]
    /\ fs_get (fs w') "out/Movesense_log_1_000455.sbem"
       = Some (Py.encode "test data" ++ [0]).
Proof.
  eexists. split; [vm_compute; reflexivity|]. split; vm_compute; reflexivity.
Qed.

(** ** Sessions of the command-line tool *)

(** X18.  When the scan finds no device for the serial, every operation of
    the tool returns a failure that says so, and nothing else happens:
    no command is written, nothing is logged, no input is read, no list is
    touched. *)
Theorem absent_device_fails_without_effect
        (w : World) (serial : string) (args : option Namespace)
        (output_dir : option string) (paths_ref : option nat) :
  present (devices w serial) = false ->
  fetch_status serial w = (inr (inl (not_found serial)), w)
  /\ DataloggerTool.configure_device serial args paths_ref w
     = (inr (Failed (not_found serial)), w)
  /\ DataloggerTool.start_logging serial w = (inr (Failed (not_found serial)), w)
  /\ DataloggerTool.stop_logging serial w = (inr (Failed (not_found serial)), w)
  /\ DataloggerTool.fetch_data serial args output_dir w
     = (inr (FleetFailed (not_found serial)), w)
  /\ DataloggerTool.erase_memory serial w = (inr (Failed (not_found serial)), w).
Proof.
  intros Hp.
  unfold fetch_status, DataloggerTool.configure_device,
    DataloggerTool.start_logging, DataloggerTool.stop_logging,
    DataloggerTool.fetch_data, DataloggerTool.erase_memory,
    guarded, try_except, with_sensor, bind.
  rewrite Hp. repeat split.
Qed.

Lemma absent_device_fails_without_effect_witness :
  fetch_status "000455" nobody = (inr (inl (not_found "000455")), nobody)
  /\ DataloggerTool.configure_device "000455" None None nobody
     = (inr (Failed (not_found "000455")), nobody)
  /\ DataloggerTool.start_logging "000455" nobody
     = (inr (Failed (not_found "000455")), nobody)
  /\ DataloggerTool.stop_logging "000455" nobody
     = (inr (Failed (not_found "000455")), nobody)
  /\ DataloggerTool.fetch_data "000455" None None nobody
     = (inr (FleetFailed (not_found "000455")), nobody)
  /\ DataloggerTool.erase_memory "000455" nobody
     = (inr (Failed (not_found "000455")), nobody).
Proof.
  exact (@absent_device_fails_without_effect nobody "000455" None None None
           eq_refl).
Defined.

Lemma utc_to_bytes (t : N) :
  t < 2 ^ 64 ->
  exists b, Py.to_bytes_little 8 t = Some b
            /\ utc_command_bytes t = [GSP_CMD_PUT_UTCTIME; 108] ++ b
            /\ List.length b = 8%nat
            /\ Py.from_bytes_little b = t.
Proof.
  intros Ht. destruct (@to_bytes_little_fits 8 t Ht) as (b & Hb & Hlen & _ & Hv).
  exists b. unfold utc_command_bytes. rewrite Hb. repeat split; assumption.
Qed.

(** Entering a session that sets the clock, on a device that is found and
    connects. *)
Lemma enter_with_clock (A : Type) (body : Task A) (w : World) (serial : string) :
  present (devices w serial) = true ->
  connectable (devices w serial) = true ->
  clock w < 2 ^ 64 ->
  let s0 := mkSensor serial (name (devices w serial)) true None [] w in
  let s1 := wrote (utc_command_bytes (clock w)) s0 in
  with_sensor serial true body w
  = match deliver None (hd [] (script (devices w serial))) with
    | [] =>
        (inl (RuntimeError ("Failed to connect to " ++ name (devices w serial)
                              ++ ": Command timeout after 10.0s")),
         env (add_log ERROR "Connection failed: Command timeout after 10.0s"
                (add_log ERROR "Command failed: Command timeout after 10.0s"
                   (set_queue [] s1))))
    | _ :: q => let (r, s2) := body (set_queue q s1) in (r, env s2)
    end.
Proof.
  intros Hp Hcn Ht s0 s1.
  destruct (utc_to_bytes Ht) as (b & Hb & Hcmd & _).
  unfold with_sensor. rewrite Hp, Hcn. cbn [negb]. fold s0.
  unfold try_except, bind at 1, set_utc_time. rewrite Hb.
  unfold simple_command, bind at 1.
  rewrite (@send_command_connected ([GSP_CMD_PUT_UTCTIME; 108] ++ b) s0 eq_refl).
  unfold s1. rewrite Hcmd. unfold answers.
  change (hello_ref s0) with (@None N).
  change (client s0) with (devices w serial).
  destruct (deliver None (hd [] (script (devices w serial)))) as [|r q].
  - reflexivity.
  - destruct (response_code r =? GSP_RESP_COMMAND_RESPONSE); reflexivity.
Qed.

Lemma written_after (serial : string) (s : Sensor) (c : bytes) (q : list Response) :
  end_of_serial s = serial ->
  written (devices (env (set_queue q (wrote c s))) serial)
  = written (client s) ++ [c].
Proof.
  intros <-.
  change (devices (env (set_queue q (wrote c s))) (end_of_serial s))
    with (client (wrote c s)).
  apply client_wrote.
Qed.

(** X19.  Starting or stopping the logging on a device that answers sets
    the clock first: the session writes PUT_UTCTIME with the eight
    little-endian bytes of the time, then the one-byte state command (3 to
    start, 2 to stop), and returns what the device answered to the
    latter. *)
Theorem start_and_stop_set_the_clock_first
        (w : World) (serial : string) (b1 b2 : list bytes)
        (more : list (list bytes)) (r1 r2 : Response) (q1 q2 : list Response) :
  present (devices w serial) = true ->
  connectable (devices w serial) = true ->
  clock w < 2 ^ 64 ->
  script (devices w serial) = b1 :: b2 :: more ->
  deliver None b1 = r1 :: q1 ->
  deliver None b2 = r2 :: q2 ->
  let answer :=
    if response_code r2 =? GSP_RESP_COMMAND_RESPONSE
    then Completed r2 else Unexpected (response_code r2) in
  (exists w',
      DataloggerTool.start_logging serial w = (inr answer, w')
      /\ written (devices w' serial)
         = written (devices w serial)
             ++ [utc_command_bytes (clock w);
                 [GSP_CMD_PUT_DATALOGGER_STATE; 103; 3]])
  /\ (exists w',
        DataloggerTool.stop_logging serial w = (inr answer, w')
        /\ written (devices w' serial)
           = written (devices w serial)
               ++ [utc_command_bytes (clock w);
                   [GSP_CMD_PUT_DATALOGGER_STATE; 104; 2]])
  /\ List.length (utc_command_bytes (clock w)) = 10%nat
  /\ Py.from_bytes_little (skipn 2 (utc_command_bytes (clock w))) = clock w.
Proof.
  intros Hp Hcn Ht Hscript H1 H2 answer.
  set (s0 := mkSensor serial (name (devices w serial)) true None [] w).
  set (s1 := set_queue q1 (wrote (utc_command_bytes (clock w)) s0)).
  assert (Hc1 : is_connected s1 = true) by reflexivity.
  assert (Hans1 : answers s1 = r2 :: q2).
  { unfold answers. change (hello_ref s1) with (@None N).
    replace (script (client s1)) with (tl (script (client s0)))
      by (symmetry; apply (client_wrote (utc_command_bytes (clock w)) s0)).
    change (client s0) with (devices w serial). rewrite Hscript. exact H2. }
  assert (Hop : forall c,
    exists w',
      guarded (with_sensor serial true (simple_command c)) Failed w
      = (inr answer, w')
      /\ written (devices w' serial)
         = written (devices w serial) ++ [utc_command_bytes (clock w); c]).
  { intros c. unfold guarded, try_except.
    rewrite (@enter_with_clock _ (simple_command c) w serial Hp Hcn Ht).
    rewrite Hscript. cbn [hd]. rewrite H1. fold s0 s1.
    unfold simple_command, bind.
    rewrite (@send_command_connected c s1 Hc1), Hans1.
    eexists. split.
    - unfold answer.
      destruct (response_code r2 =? GSP_RESP_COMMAND_RESPONSE); reflexivity.
    - assert (Hw : written (devices (env (set_queue q2 (wrote c s1))) serial)
                   = written (devices w serial)
                       ++ [utc_command_bytes (clock w); c]).
      { rewrite (@written_after serial s1 c q2 eq_refl).
        replace (written (client s1))
          with (written (client s0) ++ [utc_command_bytes (clock w)])
          by (symmetry; apply (client_wrote (utc_command_bytes (clock w)) s0)).
        now rewrite <- app_assoc. }
      destruct (response_code r2 =? GSP_RESP_COMMAND_RESPONSE); exact Hw. }
  destruct (utc_to_bytes Ht) as (b & _ & Hcmd & Hlen & Hval).
  split; [apply Hop|]. split; [apply Hop|].
  rewrite Hcmd. cbn [app List.length skipn]. now rewrite Hlen, Hval.
Qed.

Lemma start_and_stop_set_the_clock_first_witness :
  let w := bench [[[1; 108; 200; 0]]; [[1; 103; 200; 0]]] in
  let answer :=
    Completed (mkResponse 1 103 [1; 103; 200; 0] (Some (StatusInt 200))
                          (Some []) None) in
  (exists w',
      DataloggerTool.start_logging "000455" w = (inr answer, w')
      /\ written (devices w' "000455")
         = [] ++ [utc_command_bytes 0; [GSP_CMD_PUT_DATALOGGER_STATE; 103; 3]])
  /\ (exists w',
        DataloggerTool.stop_logging "000455" w = (inr answer, w')
        /\ written (devices w' "000455")
           = [] ++ [utc_command_bytes 0; [GSP_CMD_PUT_DATALOGGER_STATE; 104; 2]])
  /\ List.length (utc_command_bytes 0) = 10%nat
  /\ Py.from_bytes_little (skipn 2 (utc_command_bytes 0)) = 0.
Proof.
  exact (@start_and_stop_set_the_clock_first
           (bench [[[1; 108; 200; 0]]; [[1; 103; 200; 0]]]) "000455"
           [[1; 108; 200; 0]] [[1; 103; 200; 0]] []
           (mkResponse 1 108 [1; 108; 200; 0] (Some (StatusInt 200)) (Some []) None)
           (mkResponse 1 103 [1; 103; 200; 0] (Some (StatusInt 200)) (Some []) None)
           [] [] eq_refl eq_refl eq_refl eq_refl eq_refl eq_refl).
Defined.

(** X20.  When the device does not answer the clock command, the session
    is not entered: the operation returns the failure "Failed to connect
    to <name>: Command timeout after 10.0s", the clock command is the only
    thing written, and the log gains the handler's errors for what the
    device sent instead (one for each notification too short to parse),
    then "Command failed" and "Connection failed". *)
Theorem unanswered_clock_stops_the_operation
        (w : World) (serial : string) :
  present (devices w serial) = true ->
  connectable (devices w serial) = true ->
  clock w < 2 ^ 64 ->
  deliver None (hd [] (script (devices w serial))) = [] ->
  let failure :=
    RuntimeError ("Failed to connect to " ++ name (devices w serial)
                    ++ ": Command timeout after 10.0s") in
  exists w',
    DataloggerTool.start_logging serial w = (inr (Failed failure), w')
    /\ DataloggerTool.stop_logging serial w = (inr (Failed failure), w')
    /\ fetch_status serial w = (inr (inl failure), w')
    /\ written (devices w' serial)
       = written (devices w serial) ++ [utc_command_bytes (clock w)]
    /\ log w'
       = log w
           ++ handler_errors None (hd [] (script (devices w serial)))
           ++ [(ERROR, "Command failed: Command timeout after 10.0s"%string);
               (ERROR, "Connection failed: Command timeout after 10.0s"%string)]
    /\ handler_errors None (hd [] (script (devices w serial)))
       = repeat (ERROR, "Error handling notification:"%string)
                (List.length (hd [] (script (devices w serial)))).
Proof.
  intros Hp Hcn Ht Hsilent failure.
  unfold DataloggerTool.start_logging, DataloggerTool.stop_logging, fetch_status,
    guarded, try_except, bind.
  rewrite !(@enter_with_clock _ _ w serial Hp Hcn Ht), Hsilent.
  eexists. split; [reflexivity|]. split; [reflexivity|]. split; [reflexivity|].
  split; [|split].
  - set (s0 := mkSensor serial (name (devices w serial)) true None [] w).
    change (written (client (wrote (utc_command_bytes (clock w)) s0))
            = written (client s0) ++ [utc_command_bytes (clock w)]).
    apply client_wrote.
  - cbn [env add_log set_env world_log log set_queue].
    set (s0 := mkSensor serial (name (devices w serial)) true None [] w).
    change (log (env (wrote (utc_command_bytes (clock w)) s0)))
      with (logs (wrote (utc_command_bytes (clock w)) s0)).
    rewrite logs_wrote. change (logs s0) with (log w).
    change (hello_ref s0) with (@None N).
    change (client s0) with (devices w serial).
    now rewrite <- !app_assoc.
  - revert Hsilent. generalize (hd [] (script (devices w serial))).
    intros burst. induction burst as [|d burst IH]; [reflexivity|].
    cbn [deliver handler_errors flat_map List.length repeat].
    destruct (_notification_handler None d); [discriminate|].
    intros H. cbn [app]. f_equal. now apply IH.
Qed.

Lemma unanswered_clock_stops_the_operation_witness :
  (exists w',
     DataloggerTool.start_logging "000455" (bench [])
     = (inr (Failed (RuntimeError
                       "Failed to connect to Movesense 000455: Command timeout after 10.0s")),
        w')
     /\ written (devices w' "000455") = [utc_command_bytes 0]
     /\ log w'
        = [(ERROR, "Command failed: Command timeout after 10.0s"%string);
           (ERROR, "Connection failed: Command timeout after 10.0s"%string)])
  /\ (exists w',
        DataloggerTool.start_logging "000455" (bench [[[1]]])
        = (inr (Failed (RuntimeError
                          "Failed to connect to Movesense 000455: Command timeout after 10.0s")),
           w')
        /\ written (devices w' "000455") = [utc_command_bytes 0]
        /\ log w'
           = [(ERROR, "Error handling notification:"%string);
              (ERROR, "Command failed: Command timeout after 10.0s"%string);
              (ERROR, "Connection failed: Command timeout after 10.0s"%string)]).
Proof.
  split.
  - destruct (@unanswered_clock_stops_the_operation (bench []) "000455"
                eq_refl eq_refl eq_refl eq_refl)
      as (w' & Hstart & _ & _ & Hw & Hlog & _).
    exists w'. split; [exact Hstart|]. split; [exact Hw|exact Hlog].
  - destruct (@unanswered_clock_stops_the_operation (bench [[[1]]]) "000455"
                eq_refl eq_refl eq_refl eq_refl)
      as (w' & Hstart & _ & _ & Hw & Hlog & _).
    exists w'. split; [exact Hstart|]. split; [exact Hw|exact Hlog].
Defined.

(** X21.  Erasing on a device that is found and connects writes exactly one
    command, CLEAR_LOGBOOK with reference 106; the clock is not sent.  The
    result is the device's answer, or the timeout when it stays silent. *)
Theorem erase_writes_one_command (w : World) (serial : string) :
  present (devices w serial) = true ->
  connectable (devices w serial) = true ->
  exists w',
    DataloggerTool.erase_memory serial w
    = (inr (match deliver None (hd [] (script (devices w serial))) with
            | [] => Failed (TimeoutError "Command timeout after 10.0s")
            | r :: _ =>
                if response_code r =? GSP_RESP_COMMAND_RESPONSE
                then Completed r else Unexpected (response_code r)
            end), w')
    /\ written (devices w' serial)
       = written (devices w serial) ++ [[GSP_CMD_CLEAR_LOGBOOK; 106]]
    /\ stdin w' = stdin w.
Proof.
  intros Hp Hcn.
  unfold DataloggerTool.erase_memory, guarded, try_except, with_sensor.
  rewrite Hp, Hcn. cbn [negb]. unfold ret at 1.
  set (s0 := mkSensor serial (name (devices w serial)) true None [] w).
  unfold SensorCommand.erase_memory, simple_command, bind.
  rewrite (@send_command_connected [GSP_CMD_CLEAR_LOGBOOK; 106] s0 eq_refl).
  unfold answers. change (hello_ref s0) with (@None N).
  change (client s0) with (devices w serial).
  pose proof (proj1 (client_wrote [GSP_CMD_CLEAR_LOGBOOK; 106] s0)) as Hw.
  destruct (deliver None (hd [] (script (devices w serial)))) as [|r q].
  - eexists. split; [reflexivity|]. split; [exact Hw|reflexivity].
  - destruct (response_code r =? GSP_RESP_COMMAND_RESPONSE);
      (eexists; split; [reflexivity|]; split; [exact Hw|reflexivity]).
Qed.

Lemma erase_writes_one_command_witness :
  exists w',
    DataloggerTool.erase_memory "000455" (bench [[[1; 106; 200; 0]]])
    = (inr (Completed (mkResponse 1 106 [1; 106; 200; 0]
                         (Some (StatusInt 200)) (Some []) None)), w')
    /\ written (devices w' "000455") = [] ++ [[GSP_CMD_CLEAR_LOGBOOK; 106]]
    /\ stdin w' = [].
Proof.
  exact (@erase_writes_one_command (bench [[[1; 106; 200; 0]]]) "000455"
           eq_refl eq_refl).
Defined.

(** ** The retry loop *)

Lemma status_command_returns_none (serial : string) (args : Namespace) (w : World) :
  exists w', status_command serial args w = (inr None, w').
Proof.
  unfold status_command, try_except, bind.
  destruct (fetch_status serial w) as [[e|r] w']; eexists; reflexivity.
Qed.

Lemma one_pass_status (args : Namespace) (serials : list string) :
  forall w, exists w', one_pass status_command args serials w = (inr serials, w').
Proof.
  induction serials as [|serial rest IH]; intros w.
  - eexists. reflexivity.
  - cbn [one_pass]. unfold bind at 1, try_except, bind at 1.
    destruct (status_command_returns_none serial args w) as (w1 & ->).
    unfold ret at 1. cbn [falsy]. unfold bind at 1.
    destruct (IH w1) as (w2 & ->). eexists. reflexivity.
Qed.

(** X22.  [status_command] has no [return], so the retry loop takes every
    device for failed, answered or not: with the zero retries [main] gives
    the [status] command, the loop makes its one pass and ends with all
    the serials still on the list to retry. *)
Theorem status_marks_every_serial_failed
        (args : Namespace) (serials : list string) (w : World) :
  serial_numbers args = Some serials ->
  exists w',
    all_sensors_command (commands Status) args 0 w = (inr serials, w').
Proof.
  intros Hs. unfold all_sensors_command. rewrite Hs. cbn [passes commands].
  unfold bind. destruct (one_pass_status args serials w) as (w' & ->).
  destruct serials; eexists; reflexivity.
Qed.

Lemma status_marks_every_serial_failed_witness :
  exists w',
    all_sensors_command (commands Status)
      (mkArgs (Some Status) false (Some ["000455"; "000456"]%string) None None false)
      0 (bench [[[1; 108; 200; 0]]; [[1; 100; 1; 50; 0; 51; 0]];
                [state_answer 200 0 [2]]])
    = (inr ["000455"; "000456"]%string, w').
Proof.
  exact (@status_marks_every_serial_failed
           (mkArgs (Some Status) false (Some ["000455"; "000456"]%string)
                   None None false)
           ["000455"; "000456"]%string
           (bench [[[1; 108; 200; 0]]; [[1; 100; 1; 50; 0; 51; 0]];
                   [state_answer 200 0 [2]]])
           eq_refl).
Defined.

Lemma one_pass_keeps_some (command_func : string -> Namespace -> Prog PyRet)
      (args : Namespace) (serials : list string) :
  forall w l w',
    one_pass command_func args serials w = (inr l, w') ->
    incl l serials /\ (List.length l <= List.length serials)%nat.
Proof.
  induction serials as [|serial rest IH]; intros w l w' H.
  - cbn in H. injection H as <- _. split; [apply incl_refl|apply Nat.le_refl].
  - cbn [one_pass] in H. unfold bind at 1 in H.
    destruct (try_except _ _ w) as [[e|failed] w1]; [discriminate|].
    unfold bind at 1 in H.
    destruct (one_pass command_func args rest w1) as [[e|l1] w2] eqn:E;
      [discriminate|].
    destruct (IH _ _ _ E) as [Hin Hlen].
    unfold ret in H. injection H as <- _.
    destruct failed; cbn [List.length]; split; try lia.
    + intros x [->|Hx]; [now left | right; now apply Hin].
    + now apply incl_tl.
Qed.

(** X23.  Whatever the command does, the serials left to retry when the
    loop ends are among those given, and no more than were given: the
    loop never invents a serial. *)
Theorem retry_list_comes_from_the_serials
        (command_func : string -> Namespace -> Prog PyRet)
        (args : Namespace) (serials : list string) (retrys : nat)
        (w w' : World) (l : list string) :
  serial_numbers args = Some serials ->
  all_sensors_command command_func args retrys w = (inr l, w') ->
  incl l serials /\ (List.length l <= List.length serials)%nat.
Proof.
  intros Hs. unfold all_sensors_command. rewrite Hs.
  generalize (S retrys). intros left. clear Hs. revert serials w l w'.
  induction left as [|left IH]; intros serials w l w' H.
  - cbn in H. injection H as <- _. split; [apply incl_refl|apply Nat.le_refl].
  - cbn [passes] in H. unfold bind in H.
    destruct (one_pass command_func args serials w) as [[e|l1] w1] eqn:E;
      [discriminate|].
    destruct (one_pass_keeps_some _ _ _ _ E) as [Hin Hlen].
    destruct l1 as [|x l1].
    + injection H as <- _. split; [intros y []|cbn; lia].
    + destruct (IH _ _ _ _ H) as [Hin' Hlen'].
      split; [intros y Hy; apply Hin, Hin', Hy | lia].
Qed.

Lemma retry_list_comes_from_the_serials_witness :
  incl ["000455"%string] ["000455"%string]
  /\ (List.length ["000455"%string] <= List.length ["000455"%string])%nat.
Proof.
  exact (@retry_list_comes_from_the_serials start_command
           (mkArgs (Some Start) false (Some ["000455"%string]) None None false)
           ["000455"%string] 10 nobody
           (snd (all_sensors_command start_command
                   (mkArgs (Some Start) false (Some ["000455"%string])
                           None None false) 10 nobody))
           ["000455"%string] eq_refl ltac:(vm_compute; reflexivity)).
Defined.

(** ** Erasing, forced or confirmed *)

Lemma erase_writes_one_command_aux (w : World) (serial : string) :
  present (devices w serial) = true ->
  connectable (devices w serial) = true ->
  exists (r : CmdResult) (w' : World),
    DataloggerTool.erase_memory serial w = (inr r, w')
    /\ stdin w' = stdin w.
Proof.
  intros Hp Hcn.
  unfold DataloggerTool.erase_memory, guarded, try_except, with_sensor.
  rewrite Hp, Hcn. cbn [negb]. unfold ret at 1.
  set (s0 := mkSensor serial (name (devices w serial)) true None [] w).
  unfold SensorCommand.erase_memory, simple_command, bind.
  rewrite (@send_command_connected [GSP_CMD_CLEAR_LOGBOOK; 106] s0 eq_refl).
  destruct (answers s0) as [|r q].
  - do 2 eexists. split; reflexivity.
  - destruct (response_code r =? GSP_RESP_COMMAND_RESPONSE);
      do 2 eexists; split; reflexivity.
Qed.

(** X24.  With [--force] the erase command asks nothing: it reads no input
    and returns what [erase_memory] says about the device. *)
Theorem forced_erase_reads_no_input
        (serial : string) (args : Namespace) (w : World) :
  force args = true ->
  exists (r : CmdResult) (w' : World),
    DataloggerTool.erase_memory serial w = (inr r, w')
    /\ erasemem_command serial args w = (inr (Some (cmd_success r)), w')
    /\ stdin w' = stdin w.
Proof.
  intros Hf. unfold erasemem_command. rewrite Hf. cbn [negb].
  unfold try_except, bind, ret.
  destruct (present (devices w serial)) eqn:Hp.
  - destruct (connectable (devices w serial)) eqn:Hcn.
    + destruct (@erase_writes_one_command_aux w serial Hp Hcn)
        as (r & w' & He & Hin).
      exists r, w'. rewrite He. repeat split. exact Hin.
    + unfold DataloggerTool.erase_memory, guarded, try_except, with_sensor.
      rewrite Hp, Hcn. do 2 eexists. repeat split.
  - unfold DataloggerTool.erase_memory, guarded, try_except, with_sensor.
    rewrite Hp. do 2 eexists. repeat split.
Qed.

Lemma forced_erase_reads_no_input_witness :
  exists (r : CmdResult) (w' : World),
    DataloggerTool.erase_memory "000455" (lab [[[1; 106; 200; 0]]] ["no"%string] [])
    = (inr r, w')
    /\ erasemem_command "000455"
         (mkArgs (Some Erasemem) false (Some ["000455"%string]) None None true)
         (lab [[[1; 106; 200; 0]]] ["no"%string] [])
       = (inr (Some (cmd_success r)), w')
    /\ stdin w' = ["no"%string].
Proof.
  exact (@forced_erase_reads_no_input "000455"
           (mkArgs (Some Erasemem) false (Some ["000455"%string]) None None true)
           (lab [[[1; 106; 200; 0]]] ["no"%string] []) eq_refl).
Defined.

(** X25.  Without [--force], an answer that is "yes" or "y" in any case,
    between blanks, makes the command go on exactly as a forced erase
    does on the rest of the input. *)
Theorem confirmed_erase_is_a_forced_erase
        (serial : string) (args : Namespace) (w : World)
        (answer : string) (rest : list string) :
  force args = false ->
  stdin w = answer :: rest ->
  accepted answer ->
  erasemem_command serial args w
  = erasemem_command serial (forced args) (set_stdin rest w).
Proof.
  intros Hf Hin Hacc. apply accepted_confirmed in Hacc.
  unfold erasemem_command. rewrite Hf. cbn [negb forced force].
  unfold bind at 1, input. rewrite Hin, Hacc. reflexivity.
Qed.

Lemma yes_is_accepted : accepted " YES ".
Proof.
  exists " "%string, "YES"%string, " "%string.
  repeat split. simpl. tauto.
Qed.

Lemma confirmed_erase_is_a_forced_erase_witness :
  erasemem_command "000455"
    (mkArgs (Some Erasemem) false (Some ["000455"%string]) None None false)
    (lab [[[1; 106; 200; 0]]] [" YES "%string] [])
  = erasemem_command "000455"
      (forced (mkArgs (Some Erasemem) false (Some ["000455"%string]) None None false))
      (set_stdin [] (lab [[[1; 106; 200; 0]]] [" YES "%string] [])).
Proof.
  exact (@confirmed_erase_is_a_forced_erase "000455"
           (mkArgs (Some Erasemem) false (Some ["000455"%string]) None None false)
           (lab [[[1; 106; 200; 0]]] [" YES "%string] []) " YES " []
           eq_refl eq_refl yes_is_accepted).
Defined.

(** ** Configuring *)

Lemma heap_append_spec (h : list (list string)) (x : string) :
  forall i,
    (i < List.length h)%nat ->
    nth i (heap_append h i x) [] = nth i h [] ++ [x]
    /\ List.length (heap_append h i x) = List.length h
    /\ forall j, j <> i -> nth j (heap_append h i x) [] = nth j h [].
Proof.
  induction h as [|l h IH]; intros i Hi; [simpl in Hi; lia|].
  destruct i as [|i].
  - cbn [heap_append nth List.length]. repeat split.
    intros [|j] Hj; [congruence|reflexivity].
  - cbn [List.length] in Hi.
    destruct (IH i) as (H1 & H2 & H3); [lia|].
    cbn [heap_append nth List.length]. repeat split.
    + exact H1.
    + now rewrite H2.
    + intros [|j] Hj; [reflexivity|]. apply H3. congruence.
Qed.

(** The list [configure_device] appends to: [paths] when it is given and
    not empty, else [args.path] when that is given and not empty. *)
Lemma chosen_list (h : list (list string)) (args : option Namespace)
      (paths : option nat) (i : nat) :
  (paths = Some i /\ nth i h [] <> [])
  \/ (truthy_list h paths = false
      /\ (exists a, args = Some a /\ path a = Some i) /\ nth i h [] <> []) ->
  (if negb (truthy_list h paths)
      && truthy_list h (match args with Some a => path a | None => None end)
   then match args with Some a => path a | None => None end
   else paths) = Some i.
Proof.
  intros [[-> Hne]|[Hp [(a & -> & Ha) Hne]]].
  - unfold truthy_list at 1. destruct (nth i h []); [congruence|]. reflexivity.
  - rewrite Hp, Ha. unfold truthy_list. destruct (nth i h []); [congruence|].
    reflexivity.
Qed.

(** X26.  One call of [configure_device] on a device that answers sends
    the clock and then PUT_DATALOGGER_CONFIG with the paths the list holds
    at that moment, each closed by NUL, followed by "/Time/Detailed"; and
    the list object itself is one entry longer afterwards, the other lists
    untouched. *)
Theorem configure_sends_list_and_time_detailed
        (w : World) (serial : string) (args : option Namespace)
        (paths : option nat) (i : nat)
        (b1 b2 : list bytes) (more : list (list bytes))
        (r1 r2 : Response) (q1 q2 : list Response) :
  present (devices w serial) = true ->
  connectable (devices w serial) = true ->
  clock w < 2 ^ 64 ->
  script (devices w serial) = b1 :: b2 :: more ->
  deliver None b1 = r1 :: q1 ->
  deliver None b2 = r2 :: q2 ->
  (i < List.length (heap w))%nat ->
  (paths = Some i /\ nth i (heap w) [] <> [])
  \/ (truthy_list (heap w) paths = false
      /\ (exists a, args = Some a /\ path a = Some i)
      /\ nth i (heap w) [] <> []) ->
  exists w',
    DataloggerTool.configure_device serial args paths w
    = (inr (if response_code r2 =? GSP_RESP_COMMAND_RESPONSE
            then Completed r2 else Unexpected (response_code r2)), w')
    /\ written (devices w' serial)
       = written (devices w serial)
           ++ [utc_command_bytes (clock w);
               [GSP_CMD_PUT_DATALOGGER_CONFIG; 102]
                 ++ config_buffer (nth i (heap w) [] ++ ["/Time/Detailed"%string])]
    /\ nth i (heap w') [] = nth i (heap w) [] ++ ["/Time/Detailed"%string]
    /\ List.length (heap w') = List.length (heap w)
    /\ forall j, j <> i -> nth j (heap w') [] = nth j (heap w) [].
Proof.
  intros Hp Hcn Ht Hscript H1 H2 Hi Hchosen.
  destruct (@heap_append_spec (heap w) "/Time/Detailed" i Hi) as (Hn & Hl & Ho).
  unfold DataloggerTool.configure_device, guarded, try_except.
  rewrite (@enter_with_clock _ _ w serial Hp Hcn Ht).
  rewrite Hscript. cbn [hd]. rewrite H1.
  set (s0 := mkSensor serial (name (devices w serial)) true None [] w).
  set (s1 := set_queue q1 (wrote (utc_command_bytes (clock w)) s0)).
  unfold bind at 1, gets at 1.
  change (heap (env s1)) with (heap w).
  rewrite (@chosen_list (heap w) args paths i Hchosen).
  unfold bind at 1, modify at 1. unfold bind at 1, gets at 1.
  set (s2 := set_env (set_heap (heap_append (heap (env s1)) i "/Time/Detailed")
                               (env s1)) s1).
  change (heap (env s2)) with (heap_append (heap w) i "/Time/Detailed").
  rewrite Hn.
  assert (Hc2 : is_connected s2 = true) by reflexivity.
  assert (Hans2 : answers s2 = r2 :: q2).
  { unfold answers. change (hello_ref s2) with (@None N).
    change (client s2) with (client s1).
    replace (script (client s1)) with (tl (script (client s0)))
      by (symmetry; apply (client_wrote (utc_command_bytes (clock w)) s0)).
    change (client s0) with (devices w serial). rewrite Hscript. exact H2. }
  unfold SensorCommand.configure_device, simple_command, bind.
  fold (config_buffer (nth i (heap w) [] ++ ["/Time/Detailed"%string])).
  rewrite (@send_command_connected _ s2 Hc2), Hans2.
  set (c := [GSP_CMD_PUT_DATALOGGER_CONFIG; 102]
              ++ config_buffer (nth i (heap w) [] ++ ["/Time/Detailed"%string])).
  assert (Hw : written (devices (env (set_queue q2 (wrote c s2))) serial)
               = written (devices w serial) ++ [utc_command_bytes (clock w); c]).
  { rewrite (@written_after serial s2 c q2 eq_refl).
    change (client s2) with (client s1).
    replace (written (client s1))
      with (written (client s0) ++ [utc_command_bytes (clock w)])
      by (symmetry; apply (client_wrote (utc_command_bytes (clock w)) s0)).
    now rewrite <- app_assoc. }
  assert (Hh : heap (env (set_queue q2 (wrote c s2)))
               = heap_append (heap w) i "/Time/Detailed") by reflexivity.
  destruct (response_code r2 =? GSP_RESP_COMMAND_RESPONSE);
    (eexists; split; [reflexivity|]; split; [exact Hw|]; rewrite Hh;
     repeat split; assumption).
Qed.

Lemma configure_sends_list_and_time_detailed_witness :
  let w := lab [[[1; 108; 200; 0]]; [[1; 102; 200; 0]]] []
               [["/Meas/ECG/200/mV"%string]] in
  exists w',
    DataloggerTool.configure_device "000455" None (Some 0%nat) w
    = (inr (Completed (mkResponse 1 102 [1; 102; 200; 0] (Some (StatusInt 200))
                         (Some []) None)), w')
    /\ written (devices w' "000455")
       = [] ++ [utc_command_bytes 0;
                [GSP_CMD_PUT_DATALOGGER_CONFIG; 102]
                  ++ config_buffer (["/Meas/ECG/200/mV"%string]
                                      ++ ["/Time/Detailed"%string])]
    /\ nth 0 (heap w') [] = ["/Meas/ECG/200/mV"%string] ++ ["/Time/Detailed"%string]
    /\ List.length (heap w') = 1%nat
    /\ forall j, j <> 0%nat -> nth j (heap w') [] = nth j (heap w) [].
Proof.
  intro w.
  assert (Hne : nth 0 (heap w) [] <> []) by (vm_compute; discriminate).
  assert (Hi : (0 < List.length (heap w))%nat) by (vm_compute; constructor).
  destruct (@configure_sends_list_and_time_detailed
              w "000455" None (Some 0%nat) 0%nat
              [[1; 108; 200; 0]] [[1; 102; 200; 0]] []
              (mkResponse 1 108 [1; 108; 200; 0] (Some (StatusInt 200)) (Some []) None)
              (mkResponse 1 102 [1; 102; 200; 0] (Some (StatusInt 200)) (Some []) None)
              [] [] eq_refl eq_refl eq_refl eq_refl eq_refl eq_refl Hi
              (or_introl (conj eq_refl Hne)))
    as (w' & H1 & H2 & H3 & H4 & H5).
  exists w'. repeat split; assumption.
Defined.

(** X27.  With no list of paths at all (none passed, and none or an empty
    one in the arguments) [configure_device] fails on the [append]: the
    session was entered and the clock sent, but no configuration command
    is written, and no list changes. *)
Theorem configure_without_paths_fails_after_connecting
        (w : World) (serial : string) (args : option Namespace)
        (r1 : Response) (q1 : list Response) :
  present (devices w serial) = true ->
  connectable (devices w serial) = true ->
  clock w < 2 ^ 64 ->
  deliver None (hd [] (script (devices w serial))) = r1 :: q1 ->
  truthy_list (heap w) (match args with Some a => path a | None => None end)
  = false ->
  exists w',
    DataloggerTool.configure_device serial args None w
    = (inr (Failed AttributeError), w')
    /\ written (devices w' serial)
       = written (devices w serial) ++ [utc_command_bytes (clock w)]
    /\ heap w' = heap w.
Proof.
  intros Hp Hcn Ht H1 Hno.
  unfold DataloggerTool.configure_device, guarded, try_except.
  rewrite (@enter_with_clock _ _ w serial Hp Hcn Ht), H1.
  set (s0 := mkSensor serial (name (devices w serial)) true None [] w).
  unfold bind at 1, gets at 1.
  change (heap (env (set_queue q1 (wrote (utc_command_bytes (clock w)) s0))))
    with (heap w).
  rewrite Hno. cbn [truthy_list negb andb]. unfold raise, ret.
  eexists. split; [reflexivity|]. split; [|reflexivity].
  apply (@written_after serial s0 (utc_command_bytes (clock w)) q1 eq_refl).
Qed.

Lemma configure_without_paths_fails_after_connecting_witness :
  exists w',
    DataloggerTool.configure_device "000455" None None (bench [[[1; 108; 200; 0]]])
    = (inr (Failed AttributeError), w')
    /\ written (devices w' "000455") = [] ++ [utc_command_bytes 0]
    /\ heap w' = [].
Proof.
  exact (@configure_without_paths_fails_after_connecting
           (bench [[[1; 108; 200; 0]]]) "000455" None
           (mkResponse 1 108 [1; 108; 200; 0] (Some (StatusInt 200)) (Some []) None)
           [] eq_refl eq_refl eq_refl eq_refl eq_refl).
Defined.

(** ** Dispatch by command type *)

Import Dispatch.

Lemma handled_ok (A : Type) (m : Task A) (f : A -> Outcome) (s : Sensor) :
  exists o s',
    try_except (r <- m ;; ret (f r))
      (fun e =>
         modify (add_log ERROR ("Command execution failed: " ++ str_exc e)) ;;;
         ret (CmdOf (SensorCommand.Failed e))) s = (inr o, s')
    /\ client s' = client (snd (m s))
    /\ (forall e, fst (m s) = inl e -> o = CmdOf (SensorCommand.Failed e))
    /\ (forall r, fst (m s) = inr r -> o = f r).
Proof.
  unfold try_except, bind, modify, ret.
  destruct (m s) as [[e|r] s1]; cbn [fst snd].
  - exists (CmdOf (SensorCommand.Failed e)), (add_log ERROR ("Command execution failed: " ++ str_exc e) s1).
    repeat split; congruence.
  - exists (f r), s1. repeat split; congruence.
Qed.

(** X28.  Through [execute_command], PUT_DATALOGGER_STATE starts the
    logging only for [state] 1; every other value, 3 (logging) included,
    and a missing [state] write the stop command with state 2. *)
Theorem state_other_than_one_stops_logging
        (kwargs : Kwargs) (s : Sensor) :
  is_connected s = true ->
  kw_state kwargs <> Some 1 ->
  written (client (snd (execute_command PUT_DATALOGGER_STATE kwargs s)))
  = written (client s) ++ [[GSP_CMD_PUT_DATALOGGER_STATE; 104; 2]].
Proof.
  intros Hc Hst. unfold execute_command.
  destruct (kw_get (kw_state kwargs) 0 =? 1) eqn:E.
  - exfalso. apply N.eqb_eq in E.
    destruct (kw_state kwargs) as [n|]; cbn [kw_get] in E;
      [subst; congruence | discriminate].
  - destruct (@handled_ok _ SensorCommand.stop_logging CmdOf s)
      as (o & s' & -> & Hcl & _).
    cbn [snd]. rewrite Hcl. unfold SensorCommand.stop_logging.
    now apply simple_command_written.
Qed.

Lemma state_other_than_one_stops_logging_witness :
  written (client (snd (execute_command PUT_DATALOGGER_STATE
                          (mkKwargs None (Some 3) None None None None None None)
                          (session [[[1; 104; 200; 0]]]))))
  = written (client (session [[[1; 104; 200; 0]]]))
      ++ [[GSP_CMD_PUT_DATALOGGER_STATE; 104; 2]].
Proof.
  exact (@state_other_than_one_stops_logging
           (mkKwargs None (Some 3) None None None None None None)
           (session [[[1; 104; 200; 0]]]) eq_refl ltac:(discriminate)).
Defined.

Lemma simple_command_offline (c : bytes) (s : Sensor) :
  is_connected s = false ->
  simple_command c s = (inl (RuntimeError "Not connected to device"), s).
Proof.
  intros Hc. unfold simple_command, bind.
  now rewrite (@send_command_disconnected c s Hc).
Qed.

(** X29.  On a session that is not connected [execute_command] raises for
    no command type and no arguments: it returns a dictionary whose
    [success] is false, and nothing is written to any device. *)
Theorem offline_session_runs_no_command
        (command_type : CommandType) (kwargs : Kwargs) (s : Sensor) :
  is_connected s = false ->
  exists o s',
    execute_command command_type kwargs s = (inr o, s')
    /\ outcome_success o = false
    /\ devices (env s') = devices (env s).
Proof.
  intros Hc.
  assert (Hsimple : forall c f,
    exists o s',
      try_except (r <- simple_command c ;; ret (CmdOf (f r)))
        (fun e =>
           modify (add_log ERROR ("Command execution failed: " ++ str_exc e)) ;;;
           ret (CmdOf (SensorCommand.Failed e))) s = (inr o, s')
      /\ outcome_success o = false
      /\ devices (env s') = devices (env s)).
  { intros c f. unfold try_except, bind.
    rewrite (@simple_command_offline c s Hc).
    eexists; eexists; split; [reflexivity|]. split; reflexivity. }
  destruct command_type; unfold execute_command.
  - (* HELLO *)
    unfold try_except, bind at 1, SensorCommand.get_status, bind at 1, modify at 1.
    unfold bind at 1.
    rewrite (@send_command_disconnected hello_command (set_hello_ref 100 s) Hc).
    eexists; eexists; split; [reflexivity|]. split; reflexivity.
  - apply (Hsimple _ (fun r => r)).
  - apply (Hsimple _ (fun r => r)).
  - (* FETCH_LOG *)
    unfold try_except, bind at 1, SensorCommand.fetch_data, bind at 1, gets at 1.
    destruct (Py.to_bytes_little 4 (kw_get (kw_log_id kwargs) 1)) as [lb|].
    + unfold try_except, bind at 1.
      rewrite (@send_command_disconnected _ s Hc).
      eexists; eexists; split; [reflexivity|]. split; reflexivity.
    + eexists; eexists; split; [reflexivity|]. split; reflexivity.
  - apply (Hsimple _ (fun r => r)).
  - apply (Hsimple _ (fun r => r)).
  - apply (Hsimple _ (fun r => r)).
  - apply (Hsimple _ (fun r => r)).
  - (* PUT_UTCTIME *)
    unfold SensorCommand.set_utc_time.
    destruct (Py.to_bytes_little 8 (kw_get (kw_utc_time kwargs) 0)) as [tb|].
    + apply (Hsimple _ (fun r => r)).
    + eexists; eexists; split; [reflexivity|]. split; reflexivity.
  - (* PUT_DATALOGGER_STATE *)
    destruct (kw_get (kw_state kwargs) 0 =? 1); apply (Hsimple _ (fun r => r)).
Qed.

Lemma offline_session_runs_no_command_witness :
  exists o s',
    execute_command CLEAR_LOGBOOK no_kwargs (offline (bench []) "000455")
    = (inr o, s')
    /\ outcome_success o = false
    /\ devices (env s') = devices (env (offline (bench []) "000455")).
Proof.
  exact (@offline_session_runs_no_command CLEAR_LOGBOOK no_kwargs
           (offline (bench []) "000455") eq_refl).
Defined.

(** ** Paths as bytes *)

Lemma encode_char_nul (c : ascii) :
  forallb (fun b => negb (b =? 0)) (Py.encode_char c)
  = negb (N_of_ascii c =? 0).
Proof.
  destruct c as [[] [] [] [] [] [] [] []]; reflexivity.
Qed.

Lemma encode_no_nul (p : string) :
  forallb (fun b => negb (b =? 0)) (Py.encode p) = no_nul p.
Proof.
  induction p as [|c r IH]; [reflexivity|].
  cbn [Py.encode no_nul]. now rewrite forallb_app, encode_char_nul, IH.
Qed.

Lemma forallb_rev (A : Type) (f : A -> bool) (l : list A) :
  forallb f (rev l) = forallb f l.
Proof.
  induction l as [|x l IH]; [reflexivity|].
  cbn [rev forallb]. rewrite forallb_app, IH. cbn [forallb].
  rewrite andb_true_r. apply andb_comm.
Qed.

(** X30.  On a connected session [get_resource] writes its two header
    bytes, then the UTF-8 bytes of the path, then one NUL.  What follows
    the header is a path closed by its only NUL byte exactly when the path
    itself holds no NUL character. *)
Theorem resource_payload_has_one_nul (p : string) (s : Sensor) :
  is_connected s = true ->
  written (client (snd (get_resource p s)))
  = written (client s) ++ [[GSP_CMD_GET; 105] ++ Py.encode p ++ [0]]
  /\ nul_terminated_path (skipn 2 ([GSP_CMD_GET; 105] ++ Py.encode p ++ [0]))
     = no_nul p.
Proof.
  intros Hc. split.
  - unfold get_resource. now apply simple_command_written.
  - cbn [app skipn]. unfold nul_terminated_path. rewrite rev_app_distr.
    cbn [rev app]. now rewrite forallb_rev, encode_no_nul.
Qed.

Lemma resource_payload_has_one_nul_witness :
  written (client (snd (get_resource "/Info" (session [[[1; 105; 200; 0]]]))))
  = written (client (session [[[1; 105; 200; 0]]]))
      ++ [[GSP_CMD_GET; 105] ++ Py.encode "/Info" ++ [0]]
  /\ nul_terminated_path (skipn 2 ([GSP_CMD_GET; 105] ++ Py.encode "/Info" ++ [0]))
     = no_nul "/Info".
Proof.
  exact (@resource_payload_has_one_nul "/Info" (session [[[1; 105; 200; 0]]])
           eq_refl).
Defined.
